(** * FangPro (TobaccoTrack): the price-acquisition subsystem

    A shallow embedding of [backend/scraper.go], of the read path
    [GetLatestPriceJSON] and of the handler of [GET /harga/current],
    followed by the properties of the ordered-fallback acquisition
    protocol.

    Conventions of the embedding:
    - a Go [string] is a sequence of bytes: Rocq's [string] of [ascii];
    - a Go [float64] is an IEEE 754 binary64 value: [spec_float] with
      precision 53 and maximal exponent 1024, with the operations of
      [SpecFloat] (round to nearest, ties to even);
    - a Go [(T, error)] result is a pair whose second component is an
      [option error], [None] standing for [nil];
    - everything the code reads from or writes to its environment (the
      wall clock, the network, the iteration order of a map, the data
      base, the log) lives in a [World] that is passed explicitly. *)

From Stdlib Require Import Ascii String Floats.SpecFloat QArith Qabs Qpower.
From stdpp Require Import gmap strings list sorting.

Open Scope Z_scope.

(** ** float64 *)

Definition prec : Z := 53.
Definition emax : Z := 1024.

Abbreviation float64 := spec_float.

Definition f64_zero : float64 := S754_zero false.

(** [float64(z)] for an integer [z]. *)
Definition f64_of_Z (z : Z) : float64 := binary_normalize prec emax z 0 false.

Definition f64_add : float64 -> float64 -> float64 := SFadd prec emax.
Definition f64_mul : float64 -> float64 -> float64 := SFmul prec emax.
Definition f64_div : float64 -> float64 -> float64 := SFdiv prec emax.

(** [x > 0] *)
Definition f64_pos (x : float64) : bool := SFltb f64_zero x.

Definition f64_is_inf (x : float64) : bool :=
  match x with S754_infinity _ => true | _ => false end.

(** The real number a finite float64 stands for, as an exact rational. *)
Definition f64_to_Q (x : float64) : Q :=
  match x with
  | S754_finite s m e => (inject_Z (cond_Zopp s (Zpos m)) * Qpower (2#1) e)%Q
  | _ => 0%Q
  end.

(** The float64 nearest to [n / d] (ties to even): the division step of
    [SpecFloat] applied to the two integers, then one rounding. *)
Definition f64_of_ratio (n d : positive) : float64 :=
  let '(mz, ez, lz) := SFdiv_core_binary prec emax (Zpos n) 0 (Zpos d) 0 in
  binary_round_aux prec emax false mz ez lz.

(** [10 ^ k] *)
Definition pow10 (k : nat) : positive := Nat.iter k (Pos.mul 10) 1%positive.

(** ** Errors *)

(** A Go [error], kept as its message. *)
Definition error : Type := string.

Definition ErrSyntax : error := "invalid syntax".
Definition ErrRange : error := "value out of range".

(** ** Bytes and strings *)

Definition is_digit (c : ascii) : bool :=
  ((48 <=? N_of_ascii c) && (N_of_ascii c <=? 57))%N.

Definition is_dot (c : ascii) : bool := Ascii.eqb c ".".

Definition digit_val (c : ascii) : N := (N_of_ascii c - 48)%N.

Fixpoint string_filter (keep : ascii -> bool) (s : string) : string :=
  match s with
  | EmptyString => EmptyString
  | String c r =>
      if keep c then String c (string_filter keep r) else string_filter keep r
  end.

Fixpoint string_count (p : ascii -> bool) (s : string) : nat :=
  match s with
  | EmptyString => O
  | String c r => ((if p c then 1 else 0) + string_count p r)%nat
  end.

Fixpoint string_forall (p : ascii -> bool) (s : string) : bool :=
  match s with
  | EmptyString => true
  | String c r => p c && string_forall p r
  end.

(** [strings.HasPrefix] and [strings.Contains]. *)
Fixpoint HasPrefix (s pre : string) : bool :=
  match pre, s with
  | EmptyString, _ => true
  | String a p, String b r => Ascii.eqb a b && HasPrefix r p
  | String _ _, EmptyString => false
  end.

Fixpoint Contains (s sub : string) : bool :=
  HasPrefix s sub ||
  match s with
  | EmptyString => false
  | String _ r => Contains r sub
  end.

Fixpoint HasSuffix_aux (s suf : string) (n : nat) : bool :=
  match n, s with
  | O, _ => String.eqb s suf
  | S n', String _ r => HasSuffix_aux r suf n'
  | S _, EmptyString => false
  end.

Definition HasSuffix (s suf : string) : bool :=
  HasSuffix_aux s suf (String.length s - String.length suf)%nat
  && (String.length suf <=? String.length s)%nat.

(** ** extractPrice *)

(** [regexp.MustCompile(`[^\d.]`).ReplaceAllString(s, "")]: every rune
    that is neither an ASCII digit nor a dot is removed.  All the bytes of
    a rune of several bytes, and the bytes that are not valid UTF-8, are
    at least 128, so that the removal can be done byte by byte. *)
Definition keep_numeric (c : ascii) : bool := is_digit c || is_dot c.

Definition remove_non_numeric (s : string) : string :=
  string_filter keep_numeric s.

(** What [strconv]'s [readFloat] has seen of a decimal literal: the
    mantissa, the number of digits after the dot, whether a dot and
    whether a digit were seen.  Go keeps 19 digits in a [uint64] and reads
    longer inputs again into an arbitrary-precision decimal, so that the
    result is correctly rounded in every case; here the digits are kept
    exactly. *)
Record decimal := {
  mantissa : N;
  fracdigits : nat;
  sawdot : bool;
  sawdigits : bool
}.

Definition decimal_init : decimal :=
  {| mantissa := 0; fracdigits := 0; sawdot := false; sawdigits := false |}.

(** The loop of [readFloat] on a string of digits and dots.  A second dot
    ends the literal before the end of the string, which [ParseFloat]
    reports as a syntax error; so does any other byte, none of which
    reaches [ParseFloat] from [extractPrice]. *)
Fixpoint readFloat (s : string) (d : decimal) : option decimal :=
  match s with
  | EmptyString => Some d
  | String c r =>
      if is_dot c then
        if sawdot d then None
        else readFloat r {| mantissa := mantissa d; fracdigits := fracdigits d;
                            sawdot := true; sawdigits := sawdigits d |}
      else if is_digit c then
        readFloat r {| mantissa := mantissa d * 10 + digit_val c;
                       fracdigits := if sawdot d then S (fracdigits d)
                                     else fracdigits d;
                       sawdot := sawdot d; sawdigits := true |}
      else None
  end.

(** [strconv.ParseFloat(s, 64)] on the strings that [extractPrice] gives
    it: the float64 nearest to the decimal value; a value that rounds
    beyond the largest float64 gives the infinity and a range error; no
    digit at all, or a second dot, is a syntax error. *)
Definition ParseFloat (s : string) : float64 * option error :=
  match readFloat s decimal_init with
  | None => (f64_zero, Some ErrSyntax)
  | Some d =>
      if sawdigits d then
        match mantissa d with
        | N0 => (f64_zero, None)
        | Npos m =>
            let f := f64_of_ratio m (pow10 (fracdigits d)) in
            if f64_is_inf f then (f, Some ErrRange) else (f, None)
        end
      else (f64_zero, Some ErrSyntax)
  end.

Definition extractPrice (s : string) : float64 :=
  let cleaned := remove_non_numeric s in
  let '(price, err) := ParseFloat cleaned in
  match err with
  | Some _ => f64_zero
  | None => price
  end.

(** ** Data *)

(** [type ScrapedPrice struct].  [ScrapedAt] is the reading of the clock
    that [time.Now()] returned, in Unix seconds. *)
Module ScrapedPrice.
Record t := mk {
  Region : string;
  Price : float64;
  Quality : string;
  Source : string;
  ScrapedAt : Z;
  SourceURL : string
}.
End ScrapedPrice.

(** [type Price struct]: a row of the table [prices]. *)
Module Price.
Record t := mk {
  ID : Z;
  Region : string;
  Price : float64;
  Unit : string;
  Source : string;
  RecordedAt : string;
  CreatedAt : string
}.
End Price.

(** A calendar date [time.Date(y, m, d, 0, 0, 0, 0, time.UTC)]. *)
Record Date := { year : N; month : N; day : N }.

Definition digit_char (n : N) : ascii := ascii_of_N (48 + n mod 10).

Fixpoint pad_digits (width : nat) (n : N) : string :=
  match width with
  | O => ""
  | S w => pad_digits w (n / 10) +:+ String (digit_char n) ""
  end.

(** [d.Format("2006-01-02")], for the years 0 to 9999. *)
Definition Format_2006_01_02 (d : Date) : string :=
  pad_digits 4 (year d) +:+ "-" +:+ pad_digits 2 (month d) +:+ "-"
  +:+ pad_digits 2 (day d).

(** [type PriceResearch struct] *)
Module PriceResearch.
Record t := mk {
  BasePrice : float64;
  DateChecked : Date;
  Source : string;
  Notes : string
}.
End PriceResearch.

(** ** The environment *)

(** What one [GET] gives after [goquery] has read the body: a transport
    error of [http.Get], an error of [goquery.NewDocumentFromReader], or
    the document, of which the code only looks at the rows selected by
    [table tbody tr], each row being the texts of its [td] cells. *)
Inductive Fetched :=
| FetchFailed (err : error)
| ParseFailed (err : error)
| Document (rows : list (list string)).

(** The calls of [log.Printf], with their arguments. *)
Inductive LogEntry :=
| LogFetchError (url : string) (err : error)
| LogParseError (err : error)
| LogTrying (name : string)
| LogScraperFailed (name : string) (err : error)
| LogReturned (name : string) (n : nat)
| LogSaveError (region : string) (err : error)
| LogSaved (region : string) (price : float64) (source : string)
| LogRequest (method path rawquery : string)
| LogHandlerError (err : error).

Record World := mkWorld {
  (** the successive readings of the wall clock, in Unix seconds, and the
      number of readings made *)
  clock : nat -> Z;
  ticks : nat;
  (** what the n-th request yields for a URL, and the number of requests
      made *)
  net : nat -> string -> Fetched;
  requests : nat;
  (** the choices that fix the iteration order of the n-th [range] over a
      map, and the number of such loops started *)
  map_seed : nat -> nat -> nat;
  ranges : nat;
  (** whether the data base fails the n-th statement, and the number of
      statements sent *)
  db_fault : nat -> option error;
  statements : nat;
  (** the table [prices] in rowid order, and the next AUTOINCREMENT id *)
  prices : list Price.t;
  next_id : Z;
  (** the log, oldest entry first *)
  logs : list LogEntry
}.

(** Computations in the environment. *)
Definition M (A : Type) : Type := World -> A * World.

#[global] Instance M_ret : MRet M := fun A (a : A) w => (a, w).

#[global] Instance M_bind : MBind M :=
  fun A B (k : A -> M B) (m : M A) w => let '(a, w1) := m w in k a w1.

(** [for _, x := range xs { acc = body(acc, x) }] *)
Fixpoint foldM {A B} (body : B -> A -> M B) (acc : B) (xs : list A) : M B :=
  match xs with
  | [] => mret acc
  | x :: rest => acc1 ← body acc x; foldM body acc1 rest
  end.

(** The world with one of its parts replaced. *)
Definition with_ticks (t : nat) (w : World) : World :=
  mkWorld (clock w) t (net w) (requests w) (map_seed w) (ranges w)
    (db_fault w) (statements w) (prices w) (next_id w) (logs w).

Definition with_requests (n : nat) (w : World) : World :=
  mkWorld (clock w) (ticks w) (net w) n (map_seed w) (ranges w)
    (db_fault w) (statements w) (prices w) (next_id w) (logs w).

Definition with_ranges (n : nat) (w : World) : World :=
  mkWorld (clock w) (ticks w) (net w) (requests w) (map_seed w) n
    (db_fault w) (statements w) (prices w) (next_id w) (logs w).

Definition with_statements (n : nat) (w : World) : World :=
  mkWorld (clock w) (ticks w) (net w) (requests w) (map_seed w) (ranges w)
    (db_fault w) n (prices w) (next_id w) (logs w).

Definition with_prices (rows : list Price.t) (id : Z) (w : World) : World :=
  mkWorld (clock w) (ticks w) (net w) (requests w) (map_seed w) (ranges w)
    (db_fault w) (statements w) rows id (logs w).

Definition with_logs (l : list LogEntry) (w : World) : World :=
  mkWorld (clock w) (ticks w) (net w) (requests w) (map_seed w) (ranges w)
    (db_fault w) (statements w) (prices w) (next_id w) l.

(** [time.Now().Unix()] *)
Definition time_Now : M Z :=
  fun w => (clock w (ticks w), with_ticks (S (ticks w)) w).

(** [http.Get(url)] followed by [goquery.NewDocumentFromReader]. *)
Definition http_Get (url : string) : M Fetched :=
  fun w => (net w (requests w) url, with_requests (S (requests w)) w).

Definition log_Printf (e : LogEntry) : M unit :=
  fun w => (tt, with_logs (logs w ++ [e]) w).

(** The order in which a [range] visits a list of entries: [fuel] times,
    the entry at the chosen index is taken out of what is left. *)
Fixpoint shuffle {A} (pick : nat -> nat) (fuel : nat) (l : list A) : list A :=
  match fuel with
  | O => []
  | S f =>
      let i := (pick f mod length l)%nat in
      match l !! i with
      | Some x => x :: shuffle pick f (delete i l)
      | None => []
      end
  end.

(** [for k, v := range m]: Go leaves the iteration order of a map
    unspecified; the environment picks one. *)
Definition range_map {V} (m : gmap string V) : M (list (string * V)) :=
  fun w =>
    let l := map_to_list m in
    (shuffle (map_seed w (ranges w)) (length l) l, with_ranges (S (ranges w)) w).

(** ** The data base *)

Definition f64_is_nan (x : float64) : bool :=
  match x with S754_nan => true | _ => false end.

(** The data base receives one more statement; the environment says
    whether it fails it (locked file, full disk, closed handle). *)
Definition db_begin : M (option error) :=
  fun w => (db_fault w (statements w), with_statements (S (statements w)) w).

(** A row enters the table with the next id. *)
Definition db_append (row : Z -> Price.t) : M unit :=
  fun w => (tt, with_prices (prices w ++ [row (next_id w)]) (next_id w + 1) w).

Definition db_rows : M (list Price.t) := fun w => (prices w, w).

(** [ORDER BY created_at DESC]: the column is TEXT and compared byte by
    byte.  SQL leaves the order of rows with equal keys open; SQLite's
    sorter keeps them in the order of the scan, which is the order of the
    rowids: a row goes behind the rows whose key is at least its own. *)
Fixpoint insert_desc (x : Price.t) (l : list Price.t) : list Price.t :=
  match l with
  | [] => [x]
  | y :: r =>
      if String.ltb (Price.CreatedAt y) (Price.CreatedAt x) then x :: y :: r
      else y :: insert_desc x r
  end.

Definition order_by_created_at_desc (l : list Price.t) : list Price.t :=
  fold_left (fun sorted x => insert_desc x sorted) l [].

Definition ErrNoRows : error := "sql: no rows in result set".

(** ** The scrapers *)

(** [type TobaccoScraper interface] *)
Class TobaccoScraper (T : Type) := {
  Scrape : T -> M (list ScrapedPrice.t * option error);
  GetName : T -> string
}.

(** A value of the interface type: a value of a type that implements it. *)
Inductive Scraper :=
| AsScraper (T : Type) (impl : TobaccoScraper T) (s : T).

Arguments AsScraper {T impl} s.

Definition scrape (sc : Scraper) : M (list ScrapedPrice.t * option error) :=
  match sc with AsScraper s => Scrape s end.

Definition name_of (sc : Scraper) : string :=
  match sc with AsScraper s => GetName s end.

(** ** Library functions the code calls *)

Class Library := {
  (** [strings.TrimSpace] and [strings.EqualFold] *)
  TrimSpace : string -> string;
  EqualFold : string -> string -> bool;
  (** [t.Format("2006-01-02 15:04:05")] of a reading of the clock *)
  Format_datetime : Z -> string;
  (** SQLite's [datetime('now')] at a reading of the clock *)
  sqlite_datetime : Z -> string;
  (** [json.Marshal]: of a [ScrapedPrice], where the code drops the error
      and keeps the bytes (none when the encoding failed); of a [Price] *)
  Marshal_ScrapedPrice : ScrapedPrice.t -> string;
  Marshal_Price : Price.t -> string * option error
}.

Section Program.

Context `{lib : Library}.

(** [DB.Exec(`INSERT INTO prices (region, price, unit, source,
    recorded_at) VALUES (?, ?, ?, ?, ?)`, ...)]: [id] is AUTOINCREMENT and
    [created_at] defaults to [datetime('now')].  SQLite binds a NaN as
    NULL, which the column [price REAL NOT NULL] refuses. *)
Definition DB_Exec_insert (region : string) (price : float64)
    (unit source recorded_at : string) : M (option error) :=
  fault ← db_begin;
  match fault with
  | Some e => mret (Some e)
  | None =>
      if f64_is_nan price then
        mret (Some "NOT NULL constraint failed: prices.price")
      else
        now ← time_Now;
        db_append (fun id =>
          Price.mk id region price unit source recorded_at
            (sqlite_datetime now));;
        mret None
  end.

(** [DB.QueryRow(`SELECT ... FROM prices WHERE region = ? ORDER BY
    created_at DESC LIMIT 1`, region).Scan(...)] *)
Definition DB_QueryRow_latest (region : string) : M (option Price.t * option error) :=
  fault ← db_begin;
  match fault with
  | Some e => mret (None, Some e)
  | None =>
      rows ← db_rows;
      match order_by_created_at_desc
              (filter (fun p => Price.Region p = region) rows) with
      | [] => mret (None, Some ErrNoRows)
      | p :: _ => mret (Some p, None)
      end
  end.

(** *** BAPPEBTIScraper *)

Record BAPPEBTIScraper := { BaseURL : string }.

Definition NewBAPPEBTIScraper : BAPPEBTIScraper :=
  {| BaseURL := "https://infoharga.bappebti.go.id" |}.

Definition BAPPEBTI_GetName (s : BAPPEBTIScraper) : string :=
  "BAPPEBTI Info Harga".

Definition BAPPEBTI_urls (s : BAPPEBTIScraper) : list string :=
  [ BaseURL s +:+ "/harga_komoditi_pedagang?komoditi=TEMBAKAU%20BOYOLALI";
    BaseURL s +:+ "/harga_komoditi_pedagang?komoditi=TEMBAKAU%20BURLEY";
    BaseURL s +:+ "/harga_komoditi_pedagang?komoditi=TEMBAKAU%20KASTURI" ].

(** The body of [doc.Find("table tbody tr").Each]: [cols] are the texts
    of the [td] cells of the row. *)
Definition BAPPEBTI_row (s : BAPPEBTIScraper) (url : string)
    (prices : list ScrapedPrice.t) (cols : list string)
    : M (list ScrapedPrice.t) :=
  if (length cols <? 4)%nat then mret prices
  else
    let region := TrimSpace (nth 1 cols "") in
    let priceStr := TrimSpace (nth 2 cols "") in
    let price := extractPrice priceStr in
    if f64_pos price then
      now ← time_Now;
      mret (prices ++ [ScrapedPrice.mk region price "Standard"
                         (BAPPEBTI_GetName s) now url])
    else mret prices.

Definition BAPPEBTI_url (s : BAPPEBTIScraper)
    (prices : list ScrapedPrice.t) (url : string) : M (list ScrapedPrice.t) :=
  resp ← http_Get url;
  match resp with
  | FetchFailed err => log_Printf (LogFetchError url err);; mret prices
  | ParseFailed err => log_Printf (LogParseError err);; mret prices
  | Document rows => foldM (BAPPEBTI_row s url) prices rows
  end.

Definition BAPPEBTI_Scrape (s : BAPPEBTIScraper)
    : M (list ScrapedPrice.t * option error) :=
  prices ← foldM (BAPPEBTI_url s) [] (BAPPEBTI_urls s);
  mret (prices, None).

#[global] Instance BAPPEBTI_TobaccoScraper : TobaccoScraper BAPPEBTIScraper :=
  {| Scrape := BAPPEBTI_Scrape; GetName := BAPPEBTI_GetName |}.

(** *** NewsPortalScraper *)

Record NewsPortalScraper := { Keywords : list string }.

Definition NewNewsPortalScraper : NewsPortalScraper :=
  {| Keywords := ["harga tembakau"; "tobacco price"] |}.

Definition NewsPortal_GetName (s : NewsPortalScraper) : string :=
  "News Portal Scraper".

(** The request is made and its answer is not read. *)
Definition NewsPortal_Scrape (s : NewsPortalScraper)
    : M (list ScrapedPrice.t * option error) :=
  let query := "harga+tembakau+hari+ini+jember+temanggung" in
  let searchURL := "https://www.google.com/search?q=" +:+ query +:+ "&tbm=nws" in
  resp ← http_Get searchURL;
  match resp with
  | FetchFailed err => mret ([], Some err)
  | _ => mret ([], None)
  end.

#[global] Instance NewsPortal_TobaccoScraper : TobaccoScraper NewsPortalScraper :=
  {| Scrape := NewsPortal_Scrape; GetName := NewsPortal_GetName |}.

(** *** MockScraperWithRealData *)

Record MockScraperWithRealData := {
  LastResearch : gmap string PriceResearch.t
}.

(** The entries of the map literal of [NewMockScraperWithRealData]. *)
Definition research_entries : list (string * PriceResearch.t) :=
  [ ("Jember",
     PriceResearch.mk (f64_of_Z 85000) {| year := 2024; month := 9; day := 15 |}
       "DPRD Jember Report" "Harga tengkulak, kualitas standard");
    ("Temanggung",
     PriceResearch.mk (f64_of_Z 150000) {| year := 2024; month := 9; day := 18 |}
       "InfoPublik + ANTARA News" "Kualitas F, panen 2024, cuaca baik");
    ("Lombok",
     PriceResearch.mk (f64_of_Z 78000) {| year := 2024; month := 8; day := 1 |}
       "Market Survey" "Tembakau Lombok, kualitas standard");
    ("Klaten",
     PriceResearch.mk (f64_of_Z 88000) {| year := 2024; month := 7; day := 15 |}
       "Local Market" "Estimasi berdasarkan harga regional");
    ("Pamekasan",
     PriceResearch.mk (f64_of_Z 95000) {| year := 2024; month := 8; day := 20 |}
       "Madura Market Survey" "Tembakau Madura premium") ].

Definition NewMockScraperWithRealData : MockScraperWithRealData :=
  {| LastResearch := list_to_map research_entries |}.

Definition Mock_GetName (s : MockScraperWithRealData) : string :=
  "Real Data Research + Market Simulation".

(** [time.Now().Unix() % 5]: Go's [%] truncates towards zero. *)
Definition cycle (now : Z) : Z := Z.rem now 5.

(** [(time.Now().Unix() % 5) - 2] *)
Definition variation_at (now : Z) : Z := cycle now - 2.

(** [1.0 + (float64(variation) / 100.0)] *)
Definition dailyFactor (variation : Z) : float64 :=
  f64_add (f64_of_Z 1) (f64_div (f64_of_Z variation) (f64_of_Z 100)).

(** [fmt.Sprintf("%s (Last checked: %s)", source, date)] *)
Definition last_checked_label (research : PriceResearch.t) : string :=
  PriceResearch.Source research +:+ " (Last checked: "
  +:+ Format_2006_01_02 (PriceResearch.DateChecked research) +:+ ")".

(** The body of the loop over [s.LastResearch]; the clock is read twice,
    for the variation and for [ScrapedAt]. *)
Definition Mock_entry (prices : list ScrapedPrice.t)
    (entry : string * PriceResearch.t) : M (list ScrapedPrice.t) :=
  let '(region, research) := entry in
  now ← time_Now;
  let variation := variation_at now in
  let currentPrice :=
    f64_mul (PriceResearch.BasePrice research) (dailyFactor variation) in
  scrapedAt ← time_Now;
  mret (prices ++ [ScrapedPrice.mk region currentPrice "Standard"
                     (last_checked_label research) scrapedAt
                     "Manual Research + Market Data"]).

Definition Mock_Scrape (s : MockScraperWithRealData)
    : M (list ScrapedPrice.t * option error) :=
  entries ← range_map (LastResearch s);
  prices ← foldM Mock_entry [] entries;
  mret (prices, None).

#[global] Instance Mock_TobaccoScraper : TobaccoScraper MockScraperWithRealData :=
  {| Scrape := Mock_Scrape; GetName := Mock_GetName |}.

(** ** ScraperManager *)

Record ScraperManager := { Scrapers : list Scraper }.

Definition NewScraperManager : ScraperManager :=
  {| Scrapers := [ AsScraper NewBAPPEBTIScraper;
                   AsScraper NewMockScraperWithRealData ] |}.

(** The loop of [ScrapeAll]; [allPrices] is the slice the loop appends
    to, and the result is its value when the loop is left. *)
Fixpoint ScrapeAll_loop (scrapers : list Scraper)
    (allPrices : list ScrapedPrice.t) : M (list ScrapedPrice.t) :=
  match scrapers with
  | [] => mret allPrices
  | scraper :: rest =>
      log_Printf (LogTrying (name_of scraper));;
      '(prices, err) ← scrape scraper;
      match err with
      | Some e =>
          log_Printf (LogScraperFailed (name_of scraper) e);;
          ScrapeAll_loop rest allPrices
      | None =>
          if (0 <? length prices)%nat then
            log_Printf (LogReturned (name_of scraper) (length prices));;
            mret (allPrices ++ prices)
          else ScrapeAll_loop rest allPrices
      end
  end.

Definition ErrAllFailed : error := "all scrapers failed".

Definition ScrapeAll (sm : ScraperManager)
    : M (list ScrapedPrice.t * option error) :=
  allPrices ← ScrapeAll_loop (Scrapers sm) [];
  if (length allPrices =? 0)%nat then mret ([], Some ErrAllFailed)
  else mret (allPrices, None).

(** ** Persistence of a batch *)

Definition SaveScrapedPrice (data : ScrapedPrice.t) : M (option error) :=
  DB_Exec_insert
    (ScrapedPrice.Region data)
    (ScrapedPrice.Price data)
    "kg"
    (ScrapedPrice.Source data +:+ " (Scraped: " +:+ ScrapedPrice.Quality data +:+ ")")
    (Format_datetime (ScrapedPrice.ScrapedAt data)).

(** The loop of [AutoFetchPricesFromScraper] over the accepted batch. *)
Definition save_one (_ : unit) (price : ScrapedPrice.t) : M unit :=
  err ← SaveScrapedPrice price;
  match err with
  | Some e => log_Printf (LogSaveError (ScrapedPrice.Region price) e)
  | None =>
      log_Printf (LogSaved (ScrapedPrice.Region price)
                    (ScrapedPrice.Price price) (ScrapedPrice.Source price))
  end.

Definition AutoFetchPricesFromScraper : M (option error) :=
  let manager := NewScraperManager in
  '(prices, err) ← ScrapeAll manager;
  match err with
  | Some e => mret (Some e)
  | None => foldM save_one tt prices;; mret None
  end.

(** ** The preview of a region *)

Fixpoint find_region (region : string) (prices : list ScrapedPrice.t)
    : option ScrapedPrice.t :=
  match prices with
  | [] => None
  | price :: rest =>
      if EqualFold (ScrapedPrice.Region price) region then Some price
      else find_region region rest
  end.

Definition ErrRegionNotFound : error := "region not found in scraped data".

Definition GetScrapedPriceJSON (region : string) : M (string * option error) :=
  let manager := NewScraperManager in
  '(prices, err) ← ScrapeAll manager;
  match err with
  | Some e => mret ("", Some e)
  | None =>
      match find_region region prices with
      | Some price => mret (Marshal_ScrapedPrice price, None)
      | None => mret ("", Some ErrRegionNotFound)
      end
  end.

(** ** The latest stored price of a region *)

(** [fmt.Errorf("no price data found for region %s: %v", region, err)] *)
Definition no_price_data (region : string) (err : error) : error :=
  "no price data found for region " +:+ region +:+ ": " +:+ err.

Definition GetLatestPriceJSON (region : string) : M (string * option error) :=
  '(row, err) ← DB_QueryRow_latest region;
  match row, err with
  | Some p, None =>
      match Marshal_Price p with
      | (_, Some e) => mret ("", Some e)
      | (jsonData, None) => mret (jsonData, None)
      end
  | _, Some e => mret ("", Some (no_price_data region e))
  | None, None => mret ("", Some (no_price_data region ErrNoRows))
  end.

(** ** GET /harga/current *)

Record Request := {
  Method : string;
  Path : string;
  RawQuery : string;
  (** [r.URL.Query().Get(key)] *)
  Query : string -> string
}.

(** What the handler has written: the status and the body. *)
Record Response := { Status : Z; Body : string }.

Definition getRegionOrDefault (region : string) : string :=
  if String.eqb region "" then "Jember" else region.

(** [GetCurrentPriceHandler] under its middleware: [withLogging] logs the
    request, [withErrorHandling] turns an error into a status 500 whose
    body is the message; [http.Error] ends the message with a line
    feed. *)
Definition GetCurrentPriceHandler (r : Request) : M Response :=
  log_Printf (LogRequest (Method r) (Path r) (RawQuery r));;
  let region := getRegionOrDefault (Query r "region") in
  '(jsonData, err) ← GetLatestPriceJSON region;
  match err with
  | Some e =>
      log_Printf (LogHandlerError e);;
      mret {| Status := 500; Body := e +:+ String (ascii_of_N 10) "" |}
  | None => mret {| Status := 200; Body := jsonData |}
  end.

End Program.

(** ** Notions used by the statements *)

(** The world after a call of [log.Printf]. *)
Definition logged (e : LogEntry) (w : World) : World :=
  with_logs (logs w ++ [e]) w.

(** [exhausted scrapers w w']: every scraper of the list, tried in order
    from [w], returns an error or no record at all, and [w'] is the world
    after the last of them. *)
Inductive exhausted : list Scraper -> World -> World -> Prop :=
| exhausted_nil w : exhausted [] w w
| exhausted_error sc rest w prices e w1 w2 :
    scrape sc (logged (LogTrying (name_of sc)) w) = ((prices, Some e), w1) ->
    exhausted rest (logged (LogScraperFailed (name_of sc) e) w1) w2 ->
    exhausted (sc :: rest) w w2
| exhausted_empty sc rest w w1 w2 :
    scrape sc (logged (LogTrying (name_of sc)) w) = (([], None), w1) ->
    exhausted rest w1 w2 ->
    exhausted (sc :: rest) w w2.

Definition f64_finite (x : float64) : bool :=
  match x with S754_finite _ _ _ | S754_zero _ => true | _ => false end.

(** [price] is a number within [pct] percent of [base]. *)
Definition within_percent (pct : Z) (price base : float64) : Prop :=
  f64_finite price = true /\
  (Qabs (f64_to_Q price - f64_to_Q base) <= (pct # 100) * f64_to_Q base)%Q.

(** The records [Mock_Scrape] builds for a list of entries when the
    clock reads [clk t], [clk (t + 1)], ... *)
Fixpoint mock_batch (clk : nat -> Z) (t : nat)
    (entries : list (string * PriceResearch.t)) : list ScrapedPrice.t :=
  match entries with
  | [] => []
  | (region, research) :: rest =>
      ScrapedPrice.mk region
        (f64_mul (PriceResearch.BasePrice research)
           (dailyFactor (variation_at (clk t))))
        "Standard" (last_checked_label research) (clk (S t))
        "Manual Research + Market Data"
      :: mock_batch clk (S (S t)) rest
  end.

(** Every price of a batch is above zero. *)
Definition all_positive (prices : list ScrapedPrice.t) : Prop :=
  Forall (fun p => f64_pos (ScrapedPrice.Price p) = true) prices.

(** The next [k] readings of the clock all have the cycle value [c]. *)
Definition reads_cycle (w : World) (k : nat) (c : Z) : Prop :=
  forall n, (ticks w <= n < ticks w + k)%nat -> cycle (clock w n) = c.

(** The next [k] readings of the clock are not before 1970. *)
Definition reads_after_epoch (w : World) (k : nat) : Prop :=
  forall n, (ticks w <= n < ticks w + k)%nat -> 0 <= clock w n.

(** The digits of a string, in their order. *)
Fixpoint all_digits (s : string) : list N :=
  match s with
  | EmptyString => []
  | String c r => if is_digit c then digit_val c :: all_digits r else all_digits r
  end.

(** The number of digits that stand after the first dot. *)
Fixpoint digits_after_dot (s : string) : nat :=
  match s with
  | EmptyString => O
  | String c r => if is_dot c then string_count is_digit r else digits_after_dot r
  end.

(** The number a sequence of decimal digits writes. *)
Definition numeral (ds : list N) : N :=
  fold_left (fun a d => a * 10 + d)%N ds 0%N.

(** The number that the digits and the dot of [s] write. *)
Definition numeric_value (s : string) : Q :=
  Z.of_N (numeral (all_digits s)) # pow10 (digits_after_dot s).

(** The float64 nearest to [n / 10 ^ k], and zero when that is beyond
    the largest float64. *)
Definition nearest_or_zero (n : N) (k : nat) : float64 :=
  match n with
  | N0 => f64_zero
  | Npos m =>
      let f := f64_of_ratio m (pow10 k) in
      if f64_is_inf f then f64_zero else f
  end.

(** [n] followed by [k] zero bits. *)
Definition shl (n : positive) (k : nat) : positive := Nat.iter k xO n.

(** A price of more than three hundred digits. *)
Definition huge_price : string :=
  "Rp 1" +:+ string_of_list_ascii (repeat "0"%char 309) +:+ " /kg".

(** The source string as the specification words its format, with no
    space before the parenthesis. *)
Definition label_without_space (research : PriceResearch.t) : string :=
  PriceResearch.Source research +:+ "(Last checked: "
  +:+ Format_2006_01_02 (PriceResearch.DateChecked research) +:+ ")".

(** What a handler answers with a [(string, error)] result [res]. *)
Definition respond (res : string * option error) : Response :=
  match res.2 with
  | Some e => {| Status := 500; Body := e +:+ String (ascii_of_N 10) "" |}
  | None => {| Status := 200; Body := res.1 |}
  end.

(** [p] is the latest row of a region, rows of one [created_at] being
    ranked by their [id]. *)
Definition latest_then_max_id (region : string) (rows : list Price.t)
    (p : Price.t) : Prop :=
  p ∈ rows /\ Price.Region p = region /\
  forall q, q ∈ rows -> Price.Region q = region ->
    String.ltb (Price.CreatedAt q) (Price.CreatedAt p) = true \/
    (Price.CreatedAt q = Price.CreatedAt p /\ Price.ID q <= Price.ID p).

(** ** One instance of the library and some worlds, for the examples *)

Definition is_space (c : ascii) : bool :=
  let n := N_of_ascii c in ((9 <=? n) && (n <=? 13) || (n =? 32))%N.

Fixpoint trim_left (s : string) : string :=
  match s with
  | String c r => if is_space c then trim_left r else s
  | EmptyString => EmptyString
  end.

Definition ascii_TrimSpace (s : string) : string :=
  String.rev (trim_left (String.rev (trim_left s))).

Definition to_lower (c : ascii) : ascii :=
  let n := N_of_ascii c in
  if ((65 <=? n) && (n <=? 90))%N then ascii_of_N (n + 32) else c.

Fixpoint ascii_EqualFold (s t : string) : bool :=
  match s, t with
  | EmptyString, EmptyString => true
  | String a s', String b t' =>
      Ascii.eqb (to_lower a) (to_lower b) && ascii_EqualFold s' t'
  | _, _ => false
  end.

(** The civil date of a day counted from 1970-01-01. *)
Definition civil_from_days (z : Z) : Z * Z * Z :=
  let z := z + 719468 in
  let era := z / 146097 in
  let doe := z - era * 146097 in
  let yoe := (doe - doe / 1460 + doe / 36524 - doe / 146096) / 365 in
  let doy := doe - (365 * yoe + yoe / 4 - yoe / 100) in
  let mp := (5 * doy + 2) / 153 in
  let d := doy - (153 * mp + 2) / 5 + 1 in
  let m := if mp <? 10 then mp + 3 else mp - 9 in
  (if m <=? 2 then yoe + era * 400 + 1 else yoe + era * 400, m, d).

(** [YYYY-MM-DD HH:MM:SS] in UTC. *)
Definition utc_datetime (t : Z) : string :=
  let '(y, m, d) := civil_from_days (t / 86400) in
  let s := t mod 86400 in
  pad_digits 4 (Z.to_N y) +:+ "-" +:+ pad_digits 2 (Z.to_N m) +:+ "-"
  +:+ pad_digits 2 (Z.to_N d) +:+ " " +:+ pad_digits 2 (Z.to_N (s / 3600))
  +:+ ":" +:+ pad_digits 2 (Z.to_N (s / 60 mod 60)) +:+ ":"
  +:+ pad_digits 2 (Z.to_N (s mod 60)).

(** An encoder that writes the region and the source only. *)
Definition sample_library : Library := {|
  TrimSpace := ascii_TrimSpace;
  EqualFold := ascii_EqualFold;
  Format_datetime := utc_datetime;
  sqlite_datetime := utc_datetime;
  Marshal_ScrapedPrice p :=
    "{Region:" +:+ ScrapedPrice.Region p +:+ ",Source:"
    +:+ ScrapedPrice.Source p +:+ "}";
  Marshal_Price p :=
    ("{region:" +:+ Price.Region p +:+ ",source:" +:+ Price.Source p +:+ "}",
     None)
|}.

(** A world at its start: nothing read, sent, stored or logged yet. *)
Definition fresh_world (clk : nat -> Z) (network : nat -> string -> Fetched)
    (fault : nat -> option error) (rows : list Price.t) : World :=
  mkWorld clk 0 network 0 (fun _ _ => O) 0 fault 0 rows
    (1 + Z.of_nat (length rows)) [].

(** 2023-11-14 22:13:20 UTC and the seconds after it. *)
Definition sample_clock (n : nat) : Z := Z.of_nat n + 1700000000.

(** The live source is down: every request times out. *)
Definition offline (n : nat) (url : string) : Fetched := FetchFailed "timeout".

(** The live source answers the first request with a table of four
    rows, of which two have a usable price. *)
Definition online (n : nat) (url : string) : Fetched :=
  match n with
  | O => Document [ ["1"; " Boyolali "; "Rp 72,500"; "kg"];
                    ["2"; "Klaten"; "n/a"; "kg"];
                    ["3"; "Solo"];
                    ["4"; "Temanggung"; "Rp 150000.50 /kg"; "kg"] ]
  | _ => FetchFailed "timeout"
  end.

Definition no_fault (n : nat) : option error := None.

(** The data base fails its second statement. *)
Definition second_fails (n : nat) : option error :=
  match n with 1%nat => Some "database is locked" | _ => None end.

Definition offline_world : World := fresh_world sample_clock offline no_fault [].
Definition online_world : World := fresh_world sample_clock online no_fault [].
Definition faulty_world : World := fresh_world sample_clock offline second_fails [].

(** A request for the current price of a region. *)
Definition current_price_request (region : string) : Request :=
  {| Method := "GET"; Path := "/harga/current";
     RawQuery := "region=" +:+ region;
     Query := fun key => if String.eqb key "region" then region else "" |}.

(** Two passes of [AutoFetchPricesFromScraper] within one second, the
    live source being down. *)
Definition still_clock (n : nat) : Z := 1700000003.

Definition still_world : World := fresh_world still_clock offline no_fault [].

Definition fetched_twice : World :=
  (AutoFetchPricesFromScraper (lib := sample_library)
     (AutoFetchPricesFromScraper (lib := sample_library) still_world).2).2.

(** A second world of the same cycle value, five seconds later, in which
    the map is visited in another order. *)
Definition later_clock (n : nat) : Z := 1700000008.

Definition later_world : World :=
  mkWorld later_clock 0 offline 0 (fun _ i => i) 0 no_fault 0 [] 1 [].

(** A world of another cycle value. *)
Definition other_clock (n : nat) : Z := 1700000000.

Definition other_world : World := fresh_world other_clock offline no_fault [].

(** A host whose clock stands four seconds before 1970. *)
Definition early_clock (n : nat) : Z := -4.

Definition early_world : World := fresh_world early_clock offline no_fault [].

(** A record as the live scraper builds it. *)
Definition boyolali : ScrapedPrice.t :=
  ScrapedPrice.mk "Boyolali" (f64_of_Z 72500) "Standard" "BAPPEBTI Info Harga"
    1700000000 "https://infoharga.bappebti.go.id".

(** [p] is the first row of [rows] with the greatest [created_at]. *)
Definition first_latest (rows : list Price.t) (p : Price.t) : Prop :=
  (forall q, q ∈ rows -> String.le (Price.CreatedAt q) (Price.CreatedAt p)) /\
  exists pre post,
    rows = pre ++ p :: post /\
    forall q, q ∈ pre -> ~ String.le (Price.CreatedAt p) (Price.CreatedAt q).

(** What the data base answers to the insert of [p] when it is the
    statement number [i] after those that [w] has seen. *)
Definition insert_outcome (w : World) (i : nat) (p : ScrapedPrice.t)
    : option error :=
  match db_fault w (statements w + i) with
  | Some e => Some e
  | None =>
      if f64_is_nan (ScrapedPrice.Price p) then
        Some "NOT NULL constraint failed: prices.price"
      else None
  end.

(** The row that [SaveScrapedPrice] stores for [p], but for its [id] and
    its [created_at]. *)
Definition stored_as `{lib : Library} (p : ScrapedPrice.t) (row : Price.t) : Prop :=
  Price.Region row = ScrapedPrice.Region p /\
  Price.Price row = ScrapedPrice.Price p /\
  Price.Unit row = "kg" /\
  Price.Source row
    = ScrapedPrice.Source p +:+ " (Scraped: " +:+ ScrapedPrice.Quality p +:+ ")" /\
  Price.RecordedAt row = Format_datetime (ScrapedPrice.ScrapedAt p).

(** The number of records of a batch whose insert succeeds. *)
Fixpoint count_saved (w : World) (i : nat) (batch : list ScrapedPrice.t) : nat :=
  match batch with
  | [] => O
  | p :: rest =>
      ((if insert_outcome w i p is None then 1 else 0)
       + count_saved w (S i) rest)%nat
  end.

(** The scrapers of the program leave the data base as it is. *)
Definition same_store (w w' : World) : Prop :=
  prices w' = prices w /\ next_id w' = next_id w /\
  statements w' = statements w /\ db_fault w' = db_fault w.

(** Both scrapers of the program mark their records [Standard]. *)
Definition all_standard (prices : list ScrapedPrice.t) : Prop :=
  Forall (fun p => ScrapedPrice.Quality p = "Standard") prices.

(** The three scrapers, over the library of the examples. *)
Definition live_scraper : Scraper :=
  AsScraper (impl := @BAPPEBTI_TobaccoScraper sample_library) NewBAPPEBTIScraper.
Definition research_scraper : Scraper := AsScraper NewMockScraperWithRealData.
Definition news_scraper : Scraper := AsScraper NewNewsPortalScraper.

(** The offline world after the live scraper has been tried, and what
    the research scraper then returns. *)
Definition offline_after_live : World :=
  (scrape live_scraper (logged (LogTrying (name_of live_scraper)) offline_world)).2.

Definition offline_research : (list ScrapedPrice.t * option error) * World :=
  scrape research_scraper
    (logged (LogTrying (name_of research_scraper)) offline_after_live).

(** ** Rounding *)

(** [N / D] stands at the place [l] above the integer [m]: it is [m],
    or below, at or above the middle of [m] and [m + 1]. *)
Definition at_loc (m N D : Z) (l : location) : Prop :=
  match l with
  | loc_Exact => N = m * D
  | loc_Inexact Lt => m * D < N /\ 2 * N < (2 * m + 1) * D
  | loc_Inexact Eq => 2 * N = (2 * m + 1) * D
  | loc_Inexact Gt => (2 * m + 1) * D < 2 * N /\ N < (m + 1) * D
  end.

(** The mantissa of [mrs] with its round and sticky bits stands for
    [N / D]. *)
Definition repr (mrs : shr_record) (N D : Z) : Prop :=
  0 <= shr_m mrs /\ at_loc (shr_m mrs) N D (loc_of_shr_record mrs).

(** ** The answers of the live source *)

(** The rows of the table that an answer holds; a failed fetch or parse
    gives none. *)
Definition table_rows (a : Fetched) : list (list string) :=
  match a with Document rows => rows | _ => [] end.

(** The line that an answer leaves in the log. *)
Definition fetch_log (url : string) (a : Fetched) : option LogEntry :=
  match a with
  | FetchFailed e => Some (LogFetchError url e)
  | ParseFailed e => Some (LogParseError e)
  | Document _ => None
  end.

(** The region and the price that a row of the table gives, when it has
    at least four cells and a price above zero. *)
Definition row_record `{lib : Library} (cols : list string)
    : option (string * float64) :=
  if (length cols <? 4)%nat then None
  else
    let price := extractPrice (TrimSpace (nth 2 cols "")) in
    if f64_pos price then Some (TrimSpace (nth 1 cols ""), price) else None.

(** The records that the rows of one document give when the clock reads
    [clk t], [clk (t + 1)], ... *)
Fixpoint live_records `{lib : Library} (name url : string) (clk : nat -> Z)
    (t : nat) (rows : list (list string)) : list ScrapedPrice.t :=
  match rows with
  | [] => []
  | cols :: rest =>
      match row_record cols with
      | Some (region, price) =>
          ScrapedPrice.mk region price "Standard" name (clk t) url
          :: live_records name url clk (S t) rest
      | None => live_records name url clk t rest
      end
  end.

(** What a record shows of its origin and its content. *)
Definition record_view (p : ScrapedPrice.t) : string * string * float64 :=
  (ScrapedPrice.SourceURL p, ScrapedPrice.Region p, ScrapedPrice.Price p).

(** The views of the records that an answer to [url] gives. *)
Definition answer_views `{lib : Library} (ua : string * Fetched)
    : list (string * string * float64) :=
  (fun rp : string * float64 => (ua.1, rp.1, rp.2))
    <$> omap row_record (table_rows ua.2).

(** The world after [t] more readings of the clock, [r] more requests
    and the lines [lines] more in the log. *)
Definition after_fetches (t r : nat) (lines : list LogEntry) (w : World) : World :=
  mkWorld (clock w) (ticks w + t) (net w) (requests w + r) (map_seed w)
    (ranges w) (db_fault w) (statements w) (prices w) (next_id w)
    (logs w ++ lines).

(** The answers that the three requests of the live scraper receive in
    the world [w], each with its URL. *)
Definition live_answers (s : BAPPEBTIScraper) (w : World)
    : list (string * Fetched) :=
  imap (fun i url => (url, net w (requests w + i) url)) (BAPPEBTI_urls s).

(** What [GetLatestPriceJSON] returns for the row it has read. *)
Definition marshalled `{lib : Library} (p : Price.t) : string * option error :=
  match Marshal_Price p with
  | (_, Some e) => ("", Some e)
  | (jsonData, None) => (jsonData, None)
  end.

(** ** The server *)

(** The lines that the simulated feed and the handlers write to the
    log. *)
Inductive ServerLog :=
| LogScrapingFailed (err : error)
| LogInsertFailed (region : string) (err : error)
| LogInserted (region : string) (price : Z)
| LogDBError (err : error).

(** The environment of the server: the world of the acquisition code,
    the generator of [math/rand], and the lines that the code of the
    server logs, each with the number of lines that the log of the world
    held when it was written. *)
Record Server := mkServer {
  world : World;
  (** what the n-th draw of the generator yields, and the number of draws
      made *)
  rand_source : nat -> Z;
  draws : nat;
  journal : list (nat * ServerLog)
}.

(** Computations of the server. *)
Definition H (A : Type) : Type := Server -> A * Server.

#[global] Instance H_ret : MRet H := fun A (a : A) s => (a, s).

#[global] Instance H_bind : MBind H :=
  fun A B (k : A -> H B) (m : H A) s => let '(a, s1) := m s in k a s1.

Definition with_world (w : World) (s : Server) : Server :=
  mkServer w (rand_source s) (draws s) (journal s).

(** A computation of the acquisition code, run by the server. *)
Definition lift {A} (m : M A) : H A :=
  fun s => let '(a, w) := m (world s) in (a, with_world w s).

(** [rand.Intn(n)], for [n > 0]: a number from 0 to [n - 1]. *)
Definition rand_Intn (n : Z) : H Z :=
  fun s =>
    (rand_source s (draws s) mod n,
     mkServer (world s) (rand_source s) (S (draws s)) (journal s)).

Definition server_log (e : ServerLog) : H unit :=
  fun s =>
    (tt, mkServer (world s) (rand_source s) (draws s)
           (journal s ++ [(length (logs (world s)), e)])).

(** *** http.ResponseWriter *)

(** The header map that the handler fills, the status and the header
    that [WriteHeader] has sent, and the bytes of the body. *)
Record ResponseWriter := {
  Header : gmap string string;
  sent : option (Z * gmap string string);
  written : string
}.

Definition NewResponseWriter : ResponseWriter :=
  {| Header := ∅; sent := None; written := "" |}.

(** [w.Header().Set(key, value)] *)
Definition Header_Set (key value : string) (w : ResponseWriter) : ResponseWriter :=
  {| Header := <[key := value]> (Header w); sent := sent w; written := written w |}.

(** [w.WriteHeader(code)]: a second call sends nothing. *)
Definition WriteHeader (code : Z) (w : ResponseWriter) : ResponseWriter :=
  match sent w with
  | Some _ => w
  | None => {| Header := Header w; sent := Some (code, Header w);
               written := written w |}
  end.

(** [w.Write(data)]: the status 200 is sent first when none was. *)
Definition Write (data : string) (w : ResponseWriter) : ResponseWriter :=
  let w := WriteHeader 200 w in
  {| Header := Header w; sent := sent w; written := written w +:+ data |}.

Definition newline : string := String (ascii_of_N 10) "".

(** [http.Error(w, message, code)] *)
Definition http_Error (w : ResponseWriter) (message : string) (code : Z)
    : ResponseWriter :=
  let w := Header_Set "Content-Type" "text/plain; charset=utf-8" w in
  let w := Header_Set "X-Content-Type-Options" "nosniff" w in
  let w := WriteHeader code w in
  Write (message +:+ newline) w.

(** What the client receives when the handler has returned. *)
Definition Answer (w : ResponseWriter) : Response :=
  {| Status := match sent w with Some (code, _) => code | None => 200 end;
     Body := written w |}.

(** The header that the client receives. *)
Definition AnswerHeader (w : ResponseWriter) : gmap string string :=
  match sent w with Some (_, h) => h | None => Header w end.

Definition StatusOK : Z := 200.
Definition StatusBadRequest : Z := 400.
Definition StatusMethodNotAllowed : Z := 405.
Definition StatusInternalServerError : Z := 500.

Definition MethodPost : string := "POST".

(** [*http.Request]: the request line, and the body. *)
Record HttpRequest := { Line :> Request; RequestBody : string }.

(** [encoding/json] on the values that the handlers decode and encode. *)
Class Codec := {
  (** [json.NewDecoder(r.Body).Decode(&p)] for a [Price] *)
  Decode_Price : string -> Price.t + error;
  (** [json.Marshal] of a [map[string]string], which cannot fail *)
  Marshal_map : gmap string string -> string;
  (** [json.Marshal] of a [[]Price]; [None] is the nil slice *)
  Marshal_Prices : option (list Price.t) -> string * option error
}.

Section Handlers.

Context `{lib : Library} `{codec : Codec}.

(** *** AutoFetchPrices *)

(** The loop of [AutoFetchPrices]: the first insert that fails ends it.
    The price is an [int]; the column is [REAL] and holds it as a
    float64. *)
Fixpoint AutoFetchPrices_loop (source : string) (regions : list string)
    : H (option error) :=
  match regions with
  | [] => mret None
  | region :: rest =>
      n ← rand_Intn 3000;
      let price := 5000 + n in
      now ← lift time_Now;
      let recordedAt := Format_datetime now in
      err ← lift (DB_Exec_insert region (f64_of_Z price) "per kg" source
                    recordedAt);
      match err with
      | Some e => server_log (LogInsertFailed region e);; mret (Some e)
      | None =>
          server_log (LogInserted region price);;
          AutoFetchPrices_loop source rest
      end
  end.

Definition AutoFetchPrices : H (option error) :=
  let regions := ["Jember"; "Malang"; "Surabaya"; "Bondowoso"] in
  let source := "Market Data API" in
  AutoFetchPrices_loop source regions.

(** *** The helpers of the handlers *)

Definition HandlerFunc : Type := ResponseWriter -> HttpRequest -> H ResponseWriter.
Definition MiddlewareFunc : Type := HandlerFunc -> HandlerFunc.

Definition buildStatusResponse (status message : string) : gmap string string :=
  <["status" := status]> (<["message" := message]> ∅).

(** [respondJSON(w, statusCode, data)], [encoded] being what
    [json.Marshal] makes of [data]; [Encode] ends it with a line feed. *)
Definition respondJSON (w : ResponseWriter) (statusCode : Z)
    (encoded : string * option error) : ResponseWriter * option error :=
  let w := WriteHeader statusCode w in
  match encoded with
  | (_, Some e) => (w, Some e)
  | (bytes, None) => (Write (bytes +:+ newline) w, None)
  end.

Definition respondError (w : ResponseWriter) (message : string) (statusCode : Z)
    : ResponseWriter :=
  http_Error w message statusCode.

(** *** The middleware *)

Definition withLogging (next : HandlerFunc) : HandlerFunc :=
  fun w r =>
    lift (log_Printf (LogRequest (Method r) (Path r) (RawQuery r)));;
    next w r.

(** None of the handlers below panics: [recover()] finds nothing, and
    the deferred function does nothing. *)
Definition withRecovery (next : HandlerFunc) : HandlerFunc :=
  fun w r => next w r.

Definition withJSONContentType (next : HandlerFunc) : HandlerFunc :=
  fun w r => next (Header_Set "Content-Type" "application/json" w) r.

(** The loop of [withMethodValidation] over the allowed methods. *)
Fixpoint withMethodValidation_loop (allowedMethods : list string)
    (next : HandlerFunc) : HandlerFunc :=
  fun w r =>
    match allowedMethods with
    | [] => mret (respondError w "Method tidak didukung" StatusMethodNotAllowed)
    | method :: rest =>
        if String.eqb (Method r) method then next w r
        else withMethodValidation_loop rest next w r
    end.

Definition withMethodValidation (allowedMethods : list string) : MiddlewareFunc :=
  withMethodValidation_loop allowedMethods.

Definition withErrorHandling
    (handler : ResponseWriter -> HttpRequest -> H (ResponseWriter * option error))
    : HandlerFunc :=
  fun w r =>
    '(w, err) ← handler w r;
    match err with
    | Some e =>
        lift (log_Printf (LogHandlerError e));;
        mret (respondError w e StatusInternalServerError)
    | None => mret w
    end.

(** [for i := len(middlewares) - 1; i >= 0; i-- { handler =
    middlewares[i](handler) }] *)
Definition chain (handler : HandlerFunc) (middlewares : list MiddlewareFunc)
    : HandlerFunc :=
  fold_left (fun handler middleware => middleware handler) (rev middlewares)
    handler.

(** [enableCORS], which [registerRoutes] puts around every handler. *)
Definition enableCORS (next : HandlerFunc) : HandlerFunc :=
  fun w r =>
    let w := Header_Set "Access-Control-Allow-Origin" "*" w in
    let w := Header_Set "Access-Control-Allow-Methods"
               "GET, POST, PUT, DELETE, OPTIONS" w in
    let w := Header_Set "Access-Control-Allow-Headers"
               "Content-Type, Authorization" w in
    if String.eqb (Method r) "OPTIONS" then mret (WriteHeader StatusOK w)
    else next w r.

(** *** The handlers of the prices *)

(** [DB.Exec(`INSERT ...`)] and the handler of [POST /harga/add]. *)
Definition AddPriceHandler : HandlerFunc :=
  chain
    (withErrorHandling (fun w r =>
       match Decode_Price (RequestBody r) with
       | inr _ =>
           mret (respondError w "Request body tidak valid" StatusBadRequest, None)
       | inl p =>
           err ← lift (DB_Exec_insert (Price.Region p) (Price.Price p)
                         (Price.Unit p) (Price.Source p) (Price.RecordedAt p));
           match err with
           | Some e => mret (w, Some e)
           | None =>
               let response :=
                 buildStatusResponse "ok" "Data harga berhasil ditambahkan" in
               mret (respondJSON w StatusOK (Marshal_map response, None))
           end
       end))
    [withMethodValidation [MethodPost]; withJSONContentType; withLogging;
     withRecovery].

Definition tryFetch : H (option error) :=
  err ← lift AutoFetchPricesFromScraper;
  match err with
  | Some e => server_log (LogScrapingFailed e);; AutoFetchPrices
  | None => mret None
  end.

Definition FetchPricesHandler : HandlerFunc :=
  chain
    (withErrorHandling (fun w r =>
       err ← tryFetch;
       match err with
       | Some e => mret (w, Some e)
       | None =>
           let response :=
             buildStatusResponse "ok"
               "Berhasil fetch dan simpan harga (Web Scraping + Market Data)" in
           mret (respondJSON w StatusOK (Marshal_map response, None))
       end))
    [withMethodValidation [MethodPost]; withJSONContentType; withLogging;
     withRecovery].

(** The handler of [GET /harga/current], with its middleware as the
    code composes it. *)
Definition CurrentPriceHandler : HandlerFunc :=
  chain
    (withErrorHandling (fun w r =>
       let region := getRegionOrDefault (Query r "region") in
       '(jsonData, err) ← lift (GetLatestPriceJSON region);
       match err with
       | Some e => mret (w, Some e)
       | None => mret (Write jsonData w, None)
       end))
    [withJSONContentType; withLogging; withRecovery].

(** [DB.Query("SELECT ... FROM prices ORDER BY created_at DESC")] *)
Definition DB_Query_prices : M (list Price.t * option error) :=
  fault ← db_begin;
  match fault with
  | Some e => mret ([], Some e)
  | None => rows ← db_rows; mret (order_by_created_at_desc rows, None)
  end.

(** The loop over the rows: [data] starts as the nil slice, and every
    row of the table is one that [Scan] can read. *)
Definition scan_rows (rows : list Price.t) : option (list Price.t) :=
  fold_left (fun data p => Some (default [] data ++ [p])) rows None.

Definition PricesHandler : HandlerFunc :=
  chain
    (withErrorHandling (fun w r =>
       '(rows, err) ← lift DB_Query_prices;
       match err with
       | Some e => server_log (LogDBError e);; mret (w, Some e)
       | None =>
           let data := scan_rows rows in
           let data := match data with None => Some [] | Some _ => data end in
           mret (respondJSON w StatusOK (Marshal_Prices data))
       end))
    [withJSONContentType; withLogging; withRecovery].

End Handlers.

(** ** Notions used by the statements about the server *)

(** The number of inserts, out of [n] sent from the statement number
    [i] on, that the data base accepts before it fails one. *)
Fixpoint accepted_before_fault (fault : nat -> option error) (i n : nat) : nat :=
  match n with
  | O => O
  | S n' =>
      match fault i with
      | Some _ => O
      | None => S (accepted_before_fault fault (S i) n')
      end
  end.

(** A row as [AutoFetchPrices] stores it: a whole number of rupiah from
    5000 to 7999, by the kilogram, from the simulated source. *)
Definition simulated_row (row : Price.t) : Prop :=
  Price.Unit row = "per kg" /\
  Price.Source row = "Market Data API" /\
  exists z : Z,
    5000 <= z < 8000 /\ Price.Price row = f64_of_Z z /\
    (f64_to_Q (Price.Price row) == inject_Z z)%Q.

(** The rows come with the latest [created_at] first. *)
Definition latest_first (a b : Price.t) : Prop :=
  String.le (Price.CreatedAt b) (Price.CreatedAt a).

(** The answer of a handler that has sent the status [code] and the
    bytes [bytes] after what was written before. *)
Definition answered (w : ResponseWriter) (code : Z) (bytes : string) : Response :=
  {| Status := code; Body := written w +:+ bytes +:+ newline |}.

(** The body that says a request has been carried out. *)
Definition ok_body `{codec : Codec} (message : string) : string :=
  Marshal_map (buildStatusResponse "ok" message).

(** *** A decoder and a server for the examples *)

(** The body is the name of a region, whose price is 70000 by the
    kilogram; an empty body is refused.  The encoders write the number of
    entries. *)
Definition sample_codec : Codec := {|
  Decode_Price body :=
    if String.eqb body "" then inr "EOF"
    else inl (Price.mk 0 body (f64_of_Z 70000) "kg" "manual" "2024-10-01 08:00:00" "");
  Marshal_map m := pad_digits 2 (N.of_nat (size m));
  Marshal_Prices data :=
    match data with
    | None => ("null", None)
    | Some l => (pad_digits 4 (N.of_nat (length l)), None)
    end
|}.

Definition sample_server (w : World) : Server :=
  mkServer w (fun n => Z.of_nat n * 7919) 0 [].

Definition request (method path body : string) : HttpRequest :=
  {| Line := {| Method := method; Path := path; RawQuery := "";
                Query := fun _ => "" |};
     RequestBody := body |}.

(** ** The functional helpers *)

(** Go's [int], of 64 bits: the arithmetic wraps around. *)
Definition wrap_int (z : Z) : Z := (z + 2 ^ 63) mod 2 ^ 64 - 2 ^ 63.

Definition int_add (a b : Z) : Z := wrap_int (a + b).
Definition int_mul (a b : Z) : Z := wrap_int (a * b).

(** [Map]: [result] is made with [len(slice)] zero values of [U], and
    the loop writes [fn(v)] at each index. *)
Definition Map {T U} (zero : U) (slice : list T) (fn : T -> U) : list U :=
  fold_left (fun result (iv : nat * T) => <[iv.1 := fn iv.2]> result)
    (imap (fun i v => (i, v)) slice) (replicate (length slice) zero).

Definition Filter {T} (slice : list T) (predicate : T -> bool) : list T :=
  fold_left (fun result v => if predicate v then result ++ [v] else result)
    slice [].

Definition Reduce {T U} (slice : list T) (initial : U) (fn : U -> T -> U) : U :=
  fold_left (fun result v => fn result v) slice initial.

Fixpoint SumSliceRecursive (slice : list Z) : Z :=
  match slice with
  | [] => 0
  | head :: tail => int_add head (SumSliceRecursive tail)
  end.

Fixpoint FilterRecursive {T} (slice : list T) (predicate : T -> bool) : list T :=
  match slice with
  | [] => []
  | head :: tail =>
      if predicate head then [head] ++ FilterRecursive tail predicate
      else FilterRecursive tail predicate
  end.

(** [Factorial]: the calls go down from [n] to 1, so that [Z.to_nat n]
    of them are enough.  The stack that the calls take is not modelled:
    the recursive functions below return for every argument. *)
Fixpoint Factorial_calls (calls : nat) (n : Z) : Z :=
  if n <=? 1 then 1
  else
    match calls with
    | O => 1
    | S calls' => int_mul n (Factorial_calls calls' (n - 1))
    end.

Definition Factorial (n : Z) : Z := Factorial_calls (Z.to_nat n) n.

Fixpoint factorialHelper_calls (calls : nat) (n acc : Z) : Z :=
  if n <=? 1 then acc
  else
    match calls with
    | O => acc
    | S calls' => factorialHelper_calls calls' (n - 1) (int_mul n acc)
    end.

Definition factorialHelper (n acc : Z) : Z :=
  factorialHelper_calls (Z.to_nat n) n acc.

Definition FactorialTailRecursive (n : Z) : Z := factorialHelper n 1.

Fixpoint Fibonacci_calls (calls : nat) (n : Z) : Z :=
  if n <=? 1 then n
  else
    match calls with
    | O => n
    | S calls' =>
        int_add (Fibonacci_calls calls' (n - 1)) (Fibonacci_calls calls' (n - 2))
    end.

Definition Fibonacci (n : Z) : Z := Fibonacci_calls (Z.to_nat n) n.

(** [fibHelper(n, memo)]: the map is shared by all the calls; it is
    passed on from each call to the next. *)
Fixpoint fibHelper_calls (calls : nat) (n : Z) (memo : gmap Z Z) : Z * gmap Z Z :=
  if n <=? 1 then (n, memo)
  else
    match memo !! n with
    | Some val => (val, memo)
    | None =>
        match calls with
        | O => (n, memo)
        | S calls' =>
            let '(a, memo) := fibHelper_calls calls' (n - 1) memo in
            let '(b, memo) := fibHelper_calls calls' (n - 2) memo in
            let memo := <[n := int_add a b]> memo in
            (default 0 (memo !! n), memo)
        end
    end.

Definition fibHelper (n : Z) (memo : gmap Z Z) : Z * gmap Z Z :=
  fibHelper_calls (Z.to_nat n) n memo.

Definition FibonacciMemoized (n : Z) : Z :=
  let memo : gmap Z Z := ∅ in
  (fibHelper n memo).1.

(** A value of the type [interface{}], as the helpers store them. *)
Inductive Value :=
| VInt (n : Z)
| VFloat (x : float64)
| VString (s : string).

(** [m[key].(int)] and [m[key].(float64)]: the assertion panics when the
    key is missing or holds a value of another type; [None] is the
    panic. *)
Definition assert_int (m : gmap string Value) (key : string) : option Z :=
  match m !! key with Some (VInt n) => Some n | _ => None end.

Definition assert_float (m : gmap string Value) (key : string) : option float64 :=
  match m !! key with Some (VFloat x) => Some x | _ => None end.

Definition price_stats (count : Z) (sum : float64) : gmap string Value :=
  <["count" := VInt count]> (<["sum" := VFloat sum]> ∅).

(** [DeepCalculatePriceStats]: [levels] is [depth] when it is above
    zero, and zero otherwise. *)
Fixpoint DeepCalculatePriceStats_levels (levels : nat) (prices : list Price.t)
    : option (gmap string Value) :=
  match levels with
  | O => Some (price_stats 0 f64_zero)
  | S levels' =>
      match prices with
      | [] => Some (price_stats 0 f64_zero)
      | [p] => Some (price_stats 1 (Price.Price p))
      | _ =>
          let mid := (length prices / 2)%nat in
          left ← DeepCalculatePriceStats_levels levels' (take mid prices);
          right ← DeepCalculatePriceStats_levels levels' (drop mid prices);
          lc ← assert_int left "count";
          rc ← assert_int right "count";
          ls ← assert_float left "sum";
          rs ← assert_float right "sum";
          Some (price_stats (int_add lc rc) (f64_add ls rs))
      end
  end.

Definition DeepCalculatePriceStats (prices : list Price.t) (depth : Z)
    : option (gmap string Value) :=
  DeepCalculatePriceStats_levels (Z.to_nat depth) prices.

Definition FilterPricesByRegion (prices : list Price.t) (region : string)
    : list Price.t :=
  Filter prices (fun p => String.eqb (Price.Region p) region).

Definition CalculateAveragePrice (prices : list Price.t) : float64 :=
  if (length prices =? 0)%nat then f64_zero
  else
    let sum := Reduce prices f64_zero
                 (fun acc p => f64_add acc (Price.Price p)) in
    f64_div sum (f64_of_Z (Z.of_nat (length prices))).

Definition TransformPricesToSimple (prices : list Price.t)
    : list (gmap string Value) :=
  Map ∅ prices (fun p =>
    <["region" := VString (Price.Region p)]>
      (<["price" := VFloat (Price.Price p)]>
         (<["unit" := VString (Price.Unit p)]> ∅))).

(** ** Notions used by the statements about the helpers *)

(** [n!] *)
Fixpoint factorial (n : nat) : Z :=
  match n with
  | O => 1
  | S k => Z.of_nat n * factorial k
  end.

(** The numbers of Fibonacci. *)
Fixpoint fib (n : nat) : Z :=
  match n with
  | O => 0
  | S k => match k with O => 1 | S j => fib k + fib j end
  end.

(** The pairwise sum that [DeepCalculatePriceStats] makes of the prices
    when no level is missing. *)
Fixpoint pairwise_sum (levels : nat) (prices : list Price.t) : float64 :=
  match levels with
  | O => f64_zero
  | S levels' =>
      match prices with
      | [] => f64_zero
      | [p] => Price.Price p
      | _ =>
          f64_add
            (pairwise_sum levels' (take (length prices / 2) prices))
            (pairwise_sum levels' (drop (length prices / 2) prices))
      end
  end.

(** What [Fibonacci] returns for [n]. *)
Definition fib_value (n : Z) : Z :=
  if n <=? 1 then n else wrap_int (fib (Z.to_nat n)).

(** ** The recommendations *)

(** The comparisons of float64; each is false when an operand is a NaN. *)
Definition f64_lt (x y : float64) : bool := SFltb x y.
Definition f64_le (x y : float64) : bool := SFleb x y.
Definition f64_gt (x y : float64) : bool := SFltb y x.
Definition f64_ge (x y : float64) : bool := SFleb y x.

(** The constant [0.5]. *)
Definition f64_half : float64 := S754_finite false 4503599627370496 (-53).

(** [strings.Join] *)
Fixpoint Join (elems : list string) (sep : string) : string :=
  match elems with
  | [] => EmptyString
  | [a] => a
  | a :: rest => a +:+ sep +:+ Join rest sep
  end.

Definition Recommend (temp : float64) (humidity : Z) (rain : float64) : string :=
  let recommendations : list string := [] in
  let recommendations :=
    if f64_ge temp (f64_of_Z 20) && f64_le temp (f64_of_Z 30) then
      recommendations ++ ["✅ Suhu optimal untuk pertumbuhan tembakau (20-30°C)"]
    else if f64_lt temp (f64_of_Z 20) then
      recommendations ++ ["⚠️ Suhu terlalu dingin, pertumbuhan mungkin terhambat"]
    else
      recommendations ++ ["⚠️ Suhu terlalu panas, tingkatkan irigasi"] in
  let recommendations :=
    if (60 <=? humidity) && (humidity <=? 80) then
      recommendations ++ ["✅ Kelembaban ideal untuk tembakau (60-80%)"]
    else if humidity <? 60 then
      recommendations ++ ["⚠️ Kelembaban rendah, tingkatkan irigasi"]
    else
      recommendations ++ ["⚠️ Kelembaban tinggi, risiko penyakit jamur meningkat"] in
  let recommendations :=
    if f64_lt rain (f64_of_Z 1) then
      recommendations ++ ["☀️ Cuaca kering, cocok untuk pengeringan daun tembakau"]
    else if f64_ge rain (f64_of_Z 1) && f64_lt rain (f64_of_Z 5) then
      recommendations ++ ["🌦️ Hujan ringan, cocok untuk pertumbuhan"]
    else if f64_ge rain (f64_of_Z 5) && f64_lt rain (f64_of_Z 10) then
      recommendations ++ ["🌧️ Hujan sedang, pastikan drainase baik"]
    else
      recommendations ++ ["⛈️ Hujan lebat, tunda pemanenan, risiko busuk tinggi"] in
  Join recommendations " | ".

Definition GetRecommendationSummary (temp : float64) (humidity : Z)
    (rain : float64) : string :=
  Recommend temp humidity rain.

Module RecommendationResult.
Record t := mk {
  Status : string;
  MainAdvice : string;
  DetailedAdvice : list string;
  PlantingAdvice : string;
  HarvestAdvice : string;
  DryingAdvice : string;
  PestWarning : string;
  IrrigationAdvice : string;
  Temperature : float64;
  Humidity : Z;
  RainMM : float64;
  Region : string
}.
End RecommendationResult.

(** Whether a string is the empty string, as the tests of the code ask. *)
Definition is_empty (s : string) : bool :=
  match s with EmptyString => true | _ => false end.

(** [GetAdvancedRecommendation]: the fields of [result] that the code
    assigns one after the other are the local variables of the same
    names, empty at first as the fields of the struct are. *)
Definition GetAdvancedRecommendation (temp : float64) (humidity : Z)
    (rain : float64) (region : string) : RecommendationResult.t :=
  let PlantingAdvice := EmptyString in
  let HarvestAdvice := EmptyString in
  let DryingAdvice := EmptyString in
  let PestWarning := EmptyString in
  let IrrigationAdvice := EmptyString in
  let advice : list string := [] in
  let optimalTemp := f64_ge temp (f64_of_Z 20) && f64_le temp (f64_of_Z 30) in
  let optimalHumidity := (60 <=? humidity) && (humidity <=? 80) in
  let optimalRain := f64_ge rain (f64_of_Z 1) && f64_lt rain (f64_of_Z 5) in
  let '(Status, MainAdvice) :=
    if optimalTemp && optimalHumidity && optimalRain then
      ("optimal", "🌟 Kondisi OPTIMAL untuk budidaya tembakau!")
    else if optimalTemp || optimalHumidity then
      ("good", "✅ Kondisi BAIK untuk budidaya tembakau")
    else if f64_gt temp (f64_of_Z 35) || (90 <? humidity)
            || f64_gt rain (f64_of_Z 15) then
      ("not_recommended", "❌ Kondisi TIDAK DISARANKAN untuk aktivitas pertanian")
    else
      ("caution", "⚠️ Kondisi CUKUP - perhatikan faktor risiko") in
  let '(advice, PlantingAdvice) :=
    if f64_lt temp (f64_of_Z 15) then
      (advice ++ ["Suhu terlalu dingin (<15°C) - pertumbuhan sangat terhambat"], "❌ TIDAK disarankan menanam. Tunggu suhu naik minimal 18°C")
    else if f64_ge temp (f64_of_Z 15) && f64_lt temp (f64_of_Z 20) then
      (advice ++ ["Suhu sejuk (15-20°C) - pertumbuhan lambat"], "⚠️ Penanaman dimungkinkan tapi pertumbuhan akan lambat")
    else if f64_ge temp (f64_of_Z 20) && f64_le temp (f64_of_Z 30) then
      (advice ++ ["Suhu optimal (20-30°C) - pertumbuhan ideal"], "✅ SANGAT COCOK untuk penanaman bibit baru")
    else if f64_gt temp (f64_of_Z 30) && f64_le temp (f64_of_Z 35) then
      (advice ++ ["Suhu hangat (30-35°C) - perlu irigasi ekstra"], "⚠️ Bisa menanam tapi pastikan irigasi mencukupi")
    else
      (advice ++ ["Suhu sangat panas (>35°C) - stres tanaman tinggi"], "❌ TIDAK disarankan menanam. Tanaman akan stres") in
  let '(advice, IrrigationAdvice, PestWarning) :=
    if humidity <? 40 then
      (advice ++ ["Kelembaban sangat rendah (<40%) - tanaman bisa layu"], "💧 PENTING: Tingkatkan irigasi 2-3x sehari, gunakan mulsa", PestWarning)
    else if (40 <=? humidity) && (humidity <? 60) then
      (advice ++ ["Kelembaban rendah (40-60%) - perlu irigasi rutin"], "💧 Irigasi 1-2x sehari, pantau kondisi tanah", PestWarning)
    else if (60 <=? humidity) && (humidity <=? 80) then
      (advice ++ ["Kelembaban ideal (60-80%) - kondisi sempurna"], "✅ Irigasi normal sesuai jadwal standar", PestWarning)
    else if (80 <? humidity) && (humidity <=? 90) then
      (advice ++ ["Kelembaban tinggi (80-90%) - risiko penyakit jamur"], "⚠️ Kurangi irigasi, pastikan drainase baik", "⚠️ PERINGATAN: Risiko penyakit jamur tinggi! Semprot fungisida preventif, tingkatkan sirkulasi udara")
    else
      (advice ++ ["Kelembaban sangat tinggi (>90%) - bahaya penyakit"], "❌ STOP irigasi, perbaiki drainase segera", "🚨 BAHAYA: Risiko penyakit jamur sangat tinggi! Aplikasi fungisida darurat, cek tanaman busuk") in
  let '(advice, HarvestAdvice, DryingAdvice, PestWarning) :=
    if f64_lt rain f64_half then
      (advice ++ ["Cuaca kering - ideal untuk pengeringan"], "✅ SANGAT COCOK untuk panen dan pengeringan daun", "☀️ Kondisi SEMPURNA untuk penjemuran tembakau. Maksimalkan pengeringan hari ini!", PestWarning)
    else if f64_ge rain f64_half && f64_lt rain (f64_of_Z 2) then
      (advice ++ ["Hujan ringan - aman untuk pertumbuhan"], "✅ Bisa panen pagi hari sebelum hujan", "⚠️ Penjemuran bisa dilakukan dengan pengawasan ketat", PestWarning)
    else if f64_ge rain (f64_of_Z 2) && f64_lt rain (f64_of_Z 5) then
      (advice ++ ["Hujan sedang - baik untuk vegetatif"], "⚠️ Tunda panen jika memungkinkan, atau panen cepat sebelum hujan lebat", "❌ Tidak disarankan menjemur hari ini. Gunakan pengering mekanis jika mendesak", PestWarning)
    else if f64_ge rain (f64_of_Z 5) && f64_lt rain (f64_of_Z 10) then
      (advice ++ ["Hujan lebat - pastikan drainase baik"], "❌ TUNDA panen! Daun basah tidak layak dipanen", "❌ STOP penjemuran. Pindahkan tembakau ke tempat kering", PestWarning)
    else
      (advice ++ ["Hujan sangat lebat - risiko genangan"], "❌ JANGAN panen. Cek kondisi tanaman setelah hujan reda", "❌ Penjemuran tidak memungkinkan. Pastikan gudang kering dan ventilasi baik",
       if is_empty PestWarning then "⚠️ Cek tanaman setelah hujan reda - risiko busuk batang dan akar tinggi" else PestWarning) in
  let HarvestAdvice :=
    if f64_ge temp (f64_of_Z 25) && f64_le temp (f64_of_Z 32)
       && f64_lt rain (f64_of_Z 1) && (humidity <? 75)
    then "🌟 KONDISI PANEN SEMPURNA! Suhu, kelembaban, dan cuaca mendukung"
    else HarvestAdvice in
  let PestWarning :=
    if (80 <? humidity) && f64_gt temp (f64_of_Z 25) then
      if is_empty PestWarning then "🚨 Kombinasi panas + lembab: Risiko tinggi embun tepung, busuk daun, dan serangan ulat" else PestWarning
    else if f64_lt temp (f64_of_Z 18) && f64_gt rain (f64_of_Z 5) then
      if is_empty PestWarning then "⚠️ Kondisi dingin + basah: Waspadai penyakit busuk akar dan batang" else PestWarning
    else PestWarning in
  let PlantingAdvice :=
    if is_empty PlantingAdvice then "Evaluasi kondisi lebih lanjut sebelum penanaman" else PlantingAdvice in
  let HarvestAdvice :=
    if is_empty HarvestAdvice then "Pantau perkembangan cuaca untuk menentukan waktu panen" else HarvestAdvice in
  let DryingAdvice :=
    if is_empty DryingAdvice then "Sesuaikan metode pengeringan dengan kondisi cuaca" else DryingAdvice in
  let IrrigationAdvice :=
    if is_empty IrrigationAdvice then "Lakukan irigasi sesuai kebutuhan tanaman" else IrrigationAdvice in
  let PestWarning :=
    if is_empty PestWarning then "✅ Risiko hama dan penyakit dalam batas normal. Lakukan monitoring rutin" else PestWarning in
  RecommendationResult.mk Status MainAdvice advice PlantingAdvice
    HarvestAdvice DryingAdvice PestWarning IrrigationAdvice
    temp humidity rain region.

(** ** Notions used by the statements about the recommendations *)

(** The world with another order of the iterations over maps. *)
Definition with_map_seed (seed : nat -> nat -> nat) (w : World) : World :=
  mkWorld (clock w) (ticks w) (net w) (requests w) seed (ranges w)
    (db_fault w) (statements w) (prices w) (next_id w) (logs w).

(** The steps that the proofs about [GetAdvancedRecommendation] share:
    [split_let] names the outcome of the next group of tests together
    with its equation, and [tests_of] goes through the tests of such an
    equation. *)
Ltac split_let x y H :=
  match goal with
  | |- context [let '(_, _) := ?p in _] => destruct p as [x y] eqn:H
  end.

Ltac tests_of H :=
  repeat match type of H with
         | context [if ?c then _ else _] => destruct c eqn:?
         end.

Ltac tests :=
  repeat (cbn [andb orb is_empty];
          match goal with
          | |- context [if ?c then _ else _] =>
              lazymatch c with
              | context [if _ then _ else _] => fail
              | _ => destruct c eqn:?
              end
          end).

Ltac simplify_tests :=
  repeat (progress (cbn [andb orb is_empty] in *;
                    rewrite ?andb_true_r, ?andb_false_r, ?orb_true_r,
                      ?orb_false_r in *)).

Ltac order_facts :=
  repeat match goal with
         | E : @eq bool _ _ |- _ =>
             progress rewrite ?andb_true_iff, ?andb_false_iff, ?orb_true_iff,
               ?orb_false_iff, ?Z.leb_le, ?Z.leb_gt, ?Z.ltb_lt, ?Z.ltb_ge in E
         end.

(** * Properties *)

(** ** Computations in the environment *)

Lemma bind_run {A B} (m : M A) (k : A -> M B) (w : World) :
  (m ≫= k) w = k (m w).1 (m w).2.
Proof. unfold mbind, M_bind. destruct (m w); reflexivity. Qed.

Lemma ret_run {A} (a : A) (w : World) : (mret a : M A) w = (a, w).
Proof. reflexivity. Qed.

Lemma pair_eq {A B} (p : A * B) a b : p.1 = a -> p.2 = b -> p = (a, b).
Proof. destruct p; simpl; congruence. Qed.

Lemma log_run (e : LogEntry) (w : World) : log_Printf e w = (tt, logged e w).
Proof. reflexivity. Qed.

Ltac run := repeat (rewrite ?bind_run, ?ret_run, ?log_run; simpl).

(** A property of the accumulator that every turn of a loop keeps holds
    when the loop is left. *)
Lemma foldM_invariant {A B} (P : B -> Prop) (body : B -> A -> M B) :
  (forall acc x w, P acc -> P (body acc x w).1) ->
  forall xs acc w, P acc -> P (foldM body acc xs w).1.
Proof.
  intros Hbody xs. induction xs as [|x xs IH]; intros acc w Hacc; simpl.
  - exact Hacc.
  - rewrite bind_run. apply IH, Hbody, Hacc.
Qed.

(** ** The coordinator *)

Section Coordinator.

Implicit Types (sc : Scraper) (w : World) (prices acc : list ScrapedPrice.t).

Lemma ScrapeAll_loop_skip pre w w1 :
  exhausted pre w w1 ->
  forall post acc, ScrapeAll_loop (pre ++ post) acc w = ScrapeAll_loop post acc w1.
Proof.
  induction 1 as [w | sc rest w prices e w1 w2 Hsc _ IH
                    | sc rest w w1 w2 Hsc _ IH]; intros post acc.
  - reflexivity.
  - simpl. run. fold (logged (LogTrying (name_of sc)) w). rewrite Hsc. simpl.
    run. apply IH.
  - simpl. run. fold (logged (LogTrying (name_of sc)) w). rewrite Hsc. simpl.
    apply IH.
Qed.

Lemma ScrapeAll_loop_win sc post acc w prices w2 :
  scrape sc (logged (LogTrying (name_of sc)) w) = ((prices, None), w2) ->
  prices <> [] ->
  ScrapeAll_loop (sc :: post) acc w
  = (acc ++ prices, logged (LogReturned (name_of sc) (length prices)) w2).
Proof.
  intros Hsc Hne. simpl. run. fold (logged (LogTrying (name_of sc)) w).
  rewrite Hsc. simpl. destruct prices as [|p prices]; [done|]. reflexivity.
Qed.

(** Either every scraper is exhausted, or some scraper is the first to
    return records. *)
Lemma ScrapeAll_loop_cases scrapers : forall w acc,
  (exists w2, exhausted scrapers w w2 /\ ScrapeAll_loop scrapers acc w = (acc, w2))
  \/
  (exists pre sc post w1 prices w2,
      scrapers = pre ++ sc :: post /\ exhausted pre w w1 /\
      scrape sc (logged (LogTrying (name_of sc)) w1) = ((prices, None), w2) /\
      prices <> [] /\
      ScrapeAll_loop scrapers acc w
      = (acc ++ prices, logged (LogReturned (name_of sc) (length prices)) w2)).
Proof.
  induction scrapers as [|sc rest IH]; intros w acc.
  - left. exists w. split; [constructor | reflexivity].
  - destruct (scrape sc (logged (LogTrying (name_of sc)) w))
      as [[prices [e|]] w1] eqn:Hsc.
    + destruct (IH (logged (LogScraperFailed (name_of sc) e) w1) acc)
        as [(w2 & Hex & Hrun) | (pre & sc' & post & w' & ps & w2 & -> & Hex & Hsc' & Hne & Hrun)].
      * left. exists w2. split; [eapply exhausted_error; eauto|].
        simpl. run. fold (logged (LogTrying (name_of sc)) w). rewrite Hsc.
        simpl. run. exact Hrun.
      * right. exists (sc :: pre), sc', post, w', ps, w2.
        split_and!; [done | eapply exhausted_error; eauto | done | done |].
        simpl. run. fold (logged (LogTrying (name_of sc)) w). rewrite Hsc.
        simpl. run. exact Hrun.
    + destruct prices as [|p prices].
      * destruct (IH w1 acc)
          as [(w2 & Hex & Hrun) | (pre & sc' & post & w' & ps & w2 & -> & Hex & Hsc' & Hne & Hrun)].
        -- left. exists w2. split; [eapply exhausted_empty; eauto|].
           simpl. run. fold (logged (LogTrying (name_of sc)) w). rewrite Hsc.
           simpl. exact Hrun.
        -- right. exists (sc :: pre), sc', post, w', ps, w2.
           split_and!; [done | eapply exhausted_empty; eauto | done | done |].
           simpl. run. fold (logged (LogTrying (name_of sc)) w). rewrite Hsc.
           simpl. exact Hrun.
      * right. exists [], sc, rest, w, (p :: prices), w1.
        split_and!; [done | constructor | done | done |].
        apply ScrapeAll_loop_win; done.
Qed.

Lemma ScrapeAll_run sm w :
  ScrapeAll sm w =
  let r := ScrapeAll_loop (Scrapers sm) [] w in
  (if (length r.1 =? 0)%nat then ([], Some ErrAllFailed) else (r.1, None), r.2).
Proof.
  unfold ScrapeAll. rewrite bind_run.
  destruct (ScrapeAll_loop (Scrapers sm) [] w) as [all w']. simpl.
  destruct (length all =? 0)%nat; reflexivity.
Qed.

(** C1: when, in a pass of [ScrapeAll], the scrapers [pre] that come
    first in the list all fail or return nothing and the next scraper
    [sc] returns at least one record without an error, the pass returns
    exactly the records of [sc], in their order and with no error.  The
    world it leaves is the one [sc] left, with one more line in the log:
    whatever scrapers [post] follow [sc] in the list, the answer and the
    world are the same, so that none of them is called and nothing of
    theirs reaches the batch. *)
Theorem ScrapeAll_first_success pre sc post w w1 prices w2 :
  exhausted pre w w1 ->
  scrape sc (logged (LogTrying (name_of sc)) w1) = ((prices, None), w2) ->
  prices <> [] ->
  ScrapeAll {| Scrapers := pre ++ sc :: post |} w
  = ((prices, None), logged (LogReturned (name_of sc) (length prices)) w2)
  /\ forall post',
      ScrapeAll {| Scrapers := pre ++ sc :: post' |} w
      = ScrapeAll {| Scrapers := pre ++ sc :: post |} w.
Proof.
  intros Hpre Hsc Hne.
  assert (Hany : forall rest,
    ScrapeAll {| Scrapers := pre ++ sc :: rest |} w
    = ((prices, None), logged (LogReturned (name_of sc) (length prices)) w2)).
  { intros rest. rewrite ScrapeAll_run. simpl.
    rewrite (ScrapeAll_loop_skip _ _ _ Hpre).
    rewrite (ScrapeAll_loop_win _ _ _ _ _ _ Hsc Hne). simpl.
    destruct prices; [done | reflexivity]. }
  split; [apply Hany|]. intros post'. rewrite !Hany. reflexivity.
Qed.

Lemma ScrapeAll_first_success_witness :
  exhausted [live_scraper] offline_world offline_after_live /\
  offline_research.1.1 <> [] /\
  ScrapeAll {| Scrapers := [live_scraper] ++ research_scraper :: [news_scraper] |}
    offline_world
  = ((offline_research.1.1, None),
     logged (LogReturned (name_of research_scraper) (length offline_research.1.1))
       offline_research.2).
Proof.
  assert (Hpre : exhausted [live_scraper] offline_world offline_after_live).
  { apply exhausted_empty with (w1 := offline_after_live); [|constructor].
    apply pair_eq; [vm_compute; reflexivity | reflexivity]. }
  assert (Hsc : scrape research_scraper
                  (logged (LogTrying (name_of research_scraper)) offline_after_live)
                = ((offline_research.1.1, None), offline_research.2)).
  { apply pair_eq; [|reflexivity].
    apply pair_eq; [reflexivity | vm_compute; reflexivity]. }
  assert (Hne : offline_research.1.1 <> []) by (vm_compute; discriminate).
  split; [exact Hpre|]. split; [exact Hne|].
  exact (proj1 (ScrapeAll_first_success [live_scraper] research_scraper
                  [news_scraper] offline_world offline_after_live
                  offline_research.1.1 offline_research.2 Hpre Hsc Hne)).
Defined.

(** C2: a pass of [ScrapeAll] returns the error "all scrapers failed" if
    and only if every scraper, tried in order, returns an error or no
    record; it returns no other error, and with a nil error the records it
    returns are at least one. *)
Theorem ScrapeAll_error_iff_exhausted sm w :
  ((ScrapeAll sm w).1.2 = Some ErrAllFailed
   <-> exists w2, exhausted (Scrapers sm) w w2)
  /\ ((ScrapeAll sm w).1.2 = None \/ (ScrapeAll sm w).1.2 = Some ErrAllFailed)
  /\ ((ScrapeAll sm w).1.2 = None <-> (ScrapeAll sm w).1.1 <> []).
Proof.
  rewrite ScrapeAll_run.
  destruct (ScrapeAll_loop_cases (Scrapers sm) w [])
    as [(w2 & Hex & Hrun)
       | (pre & sc & post & w1 & ps & w2 & Hsm & Hex & Hsc & Hne & Hrun)];
    rewrite Hrun; simpl.
  - split_and!; [split; eauto | auto | split; done].
  - destruct ps as [|p ps]; [done|]. simpl. split_and!; [split | auto | split; done].
    + done.
    + intros [w3 Hall]. exfalso. rewrite Hsm in Hall.
      pose proof (ScrapeAll_loop_skip _ _ _ Hall [] []) as Hskip.
      rewrite app_nil_r, <- Hsm, Hrun in Hskip. simpl in Hskip. done.
Qed.

End Coordinator.

(** ** extractPrice *)

Section ExtractPrice.

Lemma dot_not_digit c : is_dot c = true -> is_digit c = false.
Proof.
  unfold is_dot. intros Hc. apply Ascii.eqb_eq in Hc. subst c. reflexivity.
Qed.

Lemma remove_non_numeric_cons c s :
  remove_non_numeric (String c s)
  = if is_digit c || is_dot c then String c (remove_non_numeric s)
    else remove_non_numeric s.
Proof. reflexivity. Qed.

(** What is left after the cleaning is made of digits and dots only. *)
Lemma remove_non_numeric_chars s :
  string_forall keep_numeric (remove_non_numeric s) = true.
Proof.
  induction s as [|c s IH]; [reflexivity|].
  rewrite remove_non_numeric_cons. fold (keep_numeric c).
  destruct (keep_numeric c) eqn:Hc; [simpl; rewrite Hc|]; exact IH.
Qed.

(** After the dot, a string with no further dot adds its digits. *)
Lemma readFloat_after_dot s : forall m k dg,
  string_count is_dot s = O ->
  readFloat (remove_non_numeric s)
    {| mantissa := m; fracdigits := k; sawdot := true; sawdigits := dg |}
  = Some {| mantissa := fold_left (fun a d => a * 10 + d)%N (all_digits s) m;
            fracdigits := k + string_count is_digit s;
            sawdot := true;
            sawdigits := dg || (0 <? string_count is_digit s)%nat |}.
Proof.
  induction s as [|c s IH]; intros m k dg Hdots; simpl.
  - rewrite Nat.add_0_r, orb_false_r. reflexivity.
  - simpl in Hdots. rewrite remove_non_numeric_cons.
    destruct (is_dot c) eqn:Hdot; [discriminate|].
    destruct (is_digit c) eqn:Hdig; simpl.
    + rewrite Hdot, Hdig. simpl. rewrite IH by exact Hdots.
      rewrite orb_true_r. simpl. do 2 f_equal. lia.
    + apply IH. exact Hdots.
Qed.

Lemma readFloat_before_dot s : forall m dg,
  (string_count is_dot s <= 1)%nat ->
  readFloat (remove_non_numeric s)
    {| mantissa := m; fracdigits := 0; sawdot := false; sawdigits := dg |}
  = Some {| mantissa := fold_left (fun a d => a * 10 + d)%N (all_digits s) m;
            fracdigits := digits_after_dot s;
            sawdot := (0 <? string_count is_dot s)%nat;
            sawdigits := dg || (0 <? string_count is_digit s)%nat |}.
Proof.
  induction s as [|c s IH]; intros m dg Hdots; simpl.
  - rewrite orb_false_r. reflexivity.
  - simpl in Hdots. rewrite remove_non_numeric_cons.
    destruct (is_dot c) eqn:Hdot.
    + rewrite (dot_not_digit _ Hdot). simpl. rewrite Hdot. simpl.
      rewrite readFloat_after_dot by lia. reflexivity.
    + destruct (is_digit c) eqn:Hdig; simpl.
      * rewrite Hdot, Hdig. simpl. rewrite IH by lia.
        rewrite orb_true_r. reflexivity.
      * apply IH. lia.
Qed.

Lemma readFloat_second_dot s : forall m k dg,
  (1 <= string_count is_dot s)%nat ->
  readFloat (remove_non_numeric s)
    {| mantissa := m; fracdigits := k; sawdot := true; sawdigits := dg |}
  = None.
Proof.
  induction s as [|c s IH]; intros m k dg Hdots; simpl in Hdots; [lia|].
  rewrite remove_non_numeric_cons.
  destruct (is_dot c) eqn:Hdot.
  - rewrite (dot_not_digit _ Hdot). simpl. rewrite Hdot. reflexivity.
  - destruct (is_digit c) eqn:Hdig; simpl.
    + rewrite Hdot, Hdig. apply IH. lia.
    + apply IH. lia.
Qed.

Lemma readFloat_two_dots s : forall m dg,
  (2 <= string_count is_dot s)%nat ->
  readFloat (remove_non_numeric s)
    {| mantissa := m; fracdigits := 0; sawdot := false; sawdigits := dg |}
  = None.
Proof.
  induction s as [|c s IH]; intros m dg Hdots; simpl in Hdots; [lia|].
  rewrite remove_non_numeric_cons.
  destruct (is_dot c) eqn:Hdot.
  - rewrite (dot_not_digit _ Hdot). simpl. rewrite Hdot. simpl.
    apply readFloat_second_dot. lia.
  - destruct (is_digit c) eqn:Hdig; simpl.
    + rewrite Hdot, Hdig. apply IH. lia.
    + apply IH. lia.
Qed.

Lemma extractPrice_well_formed s :
  (1 <= string_count is_digit s)%nat ->
  (string_count is_dot s <= 1)%nat ->
  extractPrice s = nearest_or_zero (numeral (all_digits s)) (digits_after_dot s).
Proof.
  intros Hdig Hdot. unfold extractPrice, ParseFloat, decimal_init.
  rewrite readFloat_before_dot by exact Hdot. simpl.
  destruct (0 <? string_count is_digit s)%nat eqn:E;
    [|apply Nat.ltb_ge in E; lia].
  unfold nearest_or_zero, numeral.
  destruct (fold_left _ (all_digits s) 0%N) as [|n]; [reflexivity|].
  destruct (f64_is_inf (f64_of_ratio n (pow10 (digits_after_dot s))));
    reflexivity.
Qed.

(** No digit, or more than one dot: the parse fails and the price is 0. *)
Lemma extractPrice_malformed s :
  string_count is_digit s = O \/ (2 <= string_count is_dot s)%nat ->
  extractPrice s = f64_zero.
Proof.
  intros Hbad. unfold extractPrice, ParseFloat, decimal_init.
  destruct (le_lt_dec 2 (string_count is_dot s)) as [Hd|Hd].
  - rewrite readFloat_two_dots by exact Hd. reflexivity.
  - destruct Hbad as [Hbad|Hbad]; [|lia].
    rewrite readFloat_before_dot by lia. simpl. rewrite Hbad. reflexivity.
Qed.

(** *** Integers below 2^53 are not rounded *)

Lemma digits2_pos_size n : digits2_pos n = Pos.size n.
Proof. induction n; simpl; congruence. Qed.

Lemma size_below_2_53 n : Zpos n < 2 ^ 53 -> Zpos (Pos.size n) <= 53.
Proof.
  intros Hn. destruct (Z_le_gt_dec (Zpos (Pos.size n)) 53) as [|Hgt]; [done|].
  exfalso. pose proof (Pos.size_le n) as Hle.
  assert (2 ^ 54 <= 2 ^ Zpos (Pos.size n)) by (apply Z.pow_le_mono_r; lia).
  assert (Zpos (2 ^ Pos.size n) = 2 ^ Zpos (Pos.size n)) as E
    by (rewrite Pos2Z.inj_pow; reflexivity).
  assert (Zpos (2 ^ Pos.size n) <= Zpos (n~0))
    by (apply Pos2Z.pos_le_pos; exact Hle).
  change (2 ^ 54) with (2 * 2 ^ 53) in *. lia.
Qed.

Lemma shiftl_shl n p : Z.shiftl (Zpos n) (Zpos p) = Zpos (shl n (Pos.to_nat p)).
Proof.
  unfold Z.shiftl, shl. rewrite Pos2Nat.inj_iter.
  induction (Pos.to_nat p) as [|k IH]; simpl; [reflexivity|].
  rewrite IH. reflexivity.
Qed.

Lemma size_shl n k : Zpos (Pos.size (shl n k)) = Zpos (Pos.size n) + Z.of_nat k.
Proof.
  induction k as [|k IH]; [simpl; lia|].
  change (shl n (S k)) with (xO (shl n k)). cbn [Pos.size]. lia.
Qed.

Lemma shl_value n k : Zpos (shl n k) = Zpos n * 2 ^ Z.of_nat k.
Proof.
  induction k as [|k IH]; [simpl; lia|].
  change (shl n (S k)) with (xO (shl n k)).
  rewrite Nat2Z.inj_succ, Z.pow_succ_r by lia. lia.
Qed.

Lemma div_eucl_1 a : Z.div_eucl a 1 = (a, 0).
Proof.
  rewrite (surjective_pairing (Z.div_eucl a 1)).
  change (Z.div_eucl a 1).1 with (a / 1).
  change (Z.div_eucl a 1).2 with (a mod 1).
  rewrite Z.div_1_r, Z.mod_1_r. reflexivity.
Qed.

(** The mantissa of the result is [n] moved up to 53 bits. *)
Lemma f64_of_ratio_integer (n : positive) :
  Zpos n < 2 ^ 53 ->
  f64_of_ratio n 1
  = S754_finite false (shl n (Z.to_nat (53 - Zpos (Pos.size n))))
      (Zpos (Pos.size n) - 53).
Proof.
  intros Hn. pose proof (size_below_2_53 n Hn) as Hs.
  unfold f64_of_ratio, SFdiv_core_binary.
  cbn [Zdigits2 digits2_pos]. rewrite digits2_pos_size.
  set (dn := Zpos (Pos.size n)) in *.
  assert (1 <= dn) by (unfold dn; lia).
  replace (Z.min (fexp prec emax (dn + 0 - (1 + 0))) (0 - 0)) with (dn - 54)
    by (unfold fexp, emin, prec, emax; lia).
  replace (0 - 0 - (dn - 54)) with (54 - dn) by lia.
  destruct (54 - dn) as [|p|p] eqn:Ep; try lia.
  rewrite div_eucl_1. cbn [new_location Z.even new_location_odd Z.eqb].
  unfold binary_round_aux, shr_fexp.
  rewrite shiftl_shl. cbn [Zdigits2]. rewrite digits2_pos_size, size_shl.
  fold dn. rewrite positive_nat_Z, <- Ep.
  replace (fexp prec emax (dn + (54 - dn) + (dn - 54)) - (dn - 54)) with 1
    by (unfold fexp, emin, prec, emax; lia).
  assert (Hk : Pos.to_nat p = S (Z.to_nat (53 - dn))) by lia.
  rewrite Hk. change (shl n (S ?k)) with (xO (shl n k)).
  cbn [shr shr_record_of_loc SpecFloat.iter_pos shr_1 orb shr_m
       loc_of_shr_record round_nearest_even Zdigits2].
  rewrite digits2_pos_size, size_shl. fold dn.
  replace (fexp prec emax (dn + Z.of_nat (Z.to_nat (53 - dn)) + (dn - 54 + 1))
           - (dn - 54 + 1)) with 0
    by (unfold fexp, emin, prec, emax; lia).
  cbn [shr shr_m].
  replace (dn - 54 + 1) with (dn - 53) by lia.
  destruct (dn - 53 <=? emax - prec) eqn:E; [reflexivity|].
  apply Z.leb_gt in E. unfold emax, prec in E. lia.
Qed.

Lemma Qpower_2_opp_nat k :
  (inject_Z (2 ^ Z.of_nat k) * Qpower (2 # 1) (- Z.of_nat k) == 1)%Q.
Proof.
  rewrite Qpower_opp. rewrite Zpower_Qpower by lia.
  change (inject_Z 2) with (2 # 1)%Q.
  apply Qmult_inv_r. apply Qpower_not_0. discriminate.
Qed.

Lemma f64_of_ratio_integer_exact (n : positive) :
  Zpos n < 2 ^ 53 -> (f64_to_Q (f64_of_ratio n 1) == inject_Z (Zpos n))%Q.
Proof.
  intros Hn. rewrite (f64_of_ratio_integer n Hn).
  pose proof (size_below_2_53 n Hn) as Hs.
  unfold f64_to_Q, cond_Zopp. rewrite shl_value, inject_Z_mult.
  replace (Zpos (Pos.size n) - 53)
    with (- Z.of_nat (Z.to_nat (53 - Zpos (Pos.size n)))) by lia.
  rewrite <- Qmult_assoc, Qpower_2_opp_nat. ring.
Qed.

Lemma f64_of_ratio_integer_finite (n : positive) :
  Zpos n < 2 ^ 53 -> f64_is_inf (f64_of_ratio n 1) = false.
Proof. intros Hn. rewrite (f64_of_ratio_integer n Hn). reflexivity. Qed.

(** C5, as amended: for a raw string with at least one digit and at
    most one dot, [extractPrice] returns the float64 to which the number
    written by the digits and the dot, in their order, is rounded, and 0
    when that number is beyond the largest float64.  When no digit stands
    after the dot and the number is below 2^53, the result is that number
    exactly. *)
Theorem extractPrice_numeric_value s :
  (1 <= string_count is_digit s)%nat ->
  (string_count is_dot s <= 1)%nat ->
  extractPrice s = nearest_or_zero (numeral (all_digits s)) (digits_after_dot s)
  /\ (digits_after_dot s = O ->
      (numeral (all_digits s) < 2 ^ 53)%N ->
      (f64_to_Q (extractPrice s) == numeric_value s)%Q).
Proof.
  intros Hdig Hdot. split; [apply extractPrice_well_formed; assumption|].
  intros Hk Hn. rewrite extractPrice_well_formed by assumption.
  unfold numeric_value. rewrite Hk. simpl pow10.
  destruct (numeral (all_digits s)) as [|n]; [reflexivity|].
  assert (Zpos n < 2 ^ 53) as Hz by lia.
  unfold nearest_or_zero. simpl pow10.
  rewrite (f64_of_ratio_integer_finite n Hz).
  apply (f64_of_ratio_integer_exact n Hz).
Qed.

Lemma extractPrice_numeric_value_witness :
  (1 <= string_count is_digit "Rp 85,000")%nat /\
  (string_count is_dot "Rp 85,000" <= 1)%nat /\
  (f64_to_Q (extractPrice "Rp 85,000") == 85000)%Q.
Proof.
  assert (Hdig : (1 <= string_count is_digit "Rp 85,000")%nat)
    by (vm_compute; lia).
  assert (Hdot : (string_count is_dot "Rp 85,000" <= 1)%nat)
    by (vm_compute; lia).
  split; [exact Hdig|]. split; [exact Hdot|].
  apply (proj2 (extractPrice_numeric_value "Rp 85,000" Hdig Hdot));
    [reflexivity | vm_compute; reflexivity].
Defined.

(** C5, as stated, fails: the digits of [huge_price] write 10^309, which
    is beyond the largest float64; [ParseFloat] reports a range error and
    [extractPrice] returns 0. *)
Lemma extractPrice_out_of_range :
  (1 <= string_count is_digit huge_price)%nat /\
  (string_count is_dot huge_price <= 1)%nat /\
  extractPrice huge_price = f64_zero /\
  ~ (f64_to_Q (extractPrice huge_price) == numeric_value huge_price)%Q.
Proof.
  split; [vm_compute; lia|]. split; [vm_compute; lia|].
  split; [vm_compute; reflexivity|].
  replace (extractPrice huge_price) with f64_zero by (vm_compute; reflexivity).
  unfold Qeq. vm_compute. discriminate.
Qed.

End ExtractPrice.

(** ** The research scraper *)

Lemma shuffle_Permutation {A} (pick : nat -> nat) : forall (l : list A),
  shuffle pick (length l) l ≡ₚ l.
Proof.
  intros l. remember (length l) as n eqn:Hn. revert l Hn.
  induction n as [|n IH]; intros l Hn.
  - destruct l; [reflexivity | discriminate].
  - cbn [shuffle]. rewrite <- Hn.
    assert (Hlt : (pick n mod S n < length l)%nat).
    { rewrite <- Hn. apply Nat.mod_upper_bound. lia. }
    destruct (lookup_lt_is_Some_2 l _ Hlt) as [x Hx]. rewrite Hx.
    etransitivity; [|symmetry; apply (delete_Permutation l _ x Hx)].
    constructor. apply IH. rewrite length_delete by eauto. lia.
Qed.

Lemma with_ticks_twice t1 t2 w : with_ticks t2 (with_ticks t1 w) = with_ticks t2 w.
Proof. reflexivity. Qed.

Lemma with_ticks_same w : with_ticks (ticks w) w = w.
Proof. destruct w; reflexivity. Qed.

Lemma Mock_entry_run prices region research w :
  Mock_entry prices (region, research) w
  = (prices ++ [ScrapedPrice.mk region
                  (f64_mul (PriceResearch.BasePrice research)
                     (dailyFactor (variation_at (clock w (ticks w)))))
                  "Standard" (last_checked_label research)
                  (clock w (S (ticks w))) "Manual Research + Market Data"],
     with_ticks (S (S (ticks w))) w).
Proof. reflexivity. Qed.

Lemma foldM_Mock_entry entries : forall acc w,
  foldM Mock_entry acc entries w
  = (acc ++ mock_batch (clock w) (ticks w) entries,
     with_ticks (ticks w + 2 * length entries) w).
Proof.
  induction entries as [|[region research] entries IH]; intros acc w.
  - simpl. rewrite app_nil_r, Nat.add_0_r, with_ticks_same. reflexivity.
  - cbn [foldM]. rewrite bind_run, Mock_entry_run. cbn [fst snd].
    rewrite IH. cbn [mock_batch with_ticks clock ticks length].
    rewrite <- app_assoc. cbn [app]. f_equal.
    unfold with_ticks; simpl. f_equal. lia.
Qed.

Lemma Mock_Scrape_run s w :
  Mock_Scrape s w
  = ((mock_batch (clock w) (ticks w)
        (shuffle (map_seed w (ranges w)) (length (map_to_list (LastResearch s)))
           (map_to_list (LastResearch s))), None),
     with_ticks (ticks w + 2 * length (map_to_list (LastResearch s)))
       (with_ranges (S (ranges w)) w)).
Proof.
  unfold Mock_Scrape. rewrite bind_run. cbn [range_map fst snd].
  rewrite bind_run, foldM_Mock_entry. cbn [fst snd app]. rewrite ret_run.
  f_equal. f_equal.
  pose proof (shuffle_Permutation (map_seed w (ranges w)) (map_to_list (LastResearch s))) as Hp.
  apply Permutation_length in Hp. cbn [ticks with_ranges]. rewrite Hp. reflexivity.
Qed.

Lemma research_entries_NoDup : NoDup research_entries.*1.
Proof. apply (bool_decide_unpack _). vm_compute. exact I. Qed.

Lemma NewMock_entries :
  map_to_list (LastResearch NewMockScraperWithRealData) ≡ₚ research_entries.
Proof. apply map_to_list_to_map, research_entries_NoDup. Qed.

Lemma NewMock_lookup region research :
  (region, research) ∈ research_entries <->
  LastResearch NewMockScraperWithRealData !! region = Some research.
Proof.
  unfold NewMockScraperWithRealData. cbn [LastResearch].
  apply elem_of_list_to_map, research_entries_NoDup.
Qed.

(** The records of a batch, one by one. *)
Lemma mock_batch_elem clk entries : forall t p,
  p ∈ mock_batch clk t entries ->
  exists region research n,
    (region, research) ∈ entries /\ (t <= n < t + 2 * length entries)%nat /\
    p = ScrapedPrice.mk region
          (f64_mul (PriceResearch.BasePrice research)
             (dailyFactor (variation_at (clk n))))
          "Standard" (last_checked_label research) (clk (S n))
          "Manual Research + Market Data".
Proof.
  induction entries as [|[region research] entries IH]; intros t p Hp;
    cbn [mock_batch] in Hp.
  - inversion Hp.
  - apply elem_of_cons in Hp as [-> | Hp].
    + exists region, research, t. cbn [length].
      split_and!; [left | lia | lia | reflexivity].
    + destruct (IH _ _ Hp) as (r & rs & n & Hin & Hn & ->).
      exists r, rs, n. cbn [length].
      split_and!; [right; exact Hin | lia | lia | reflexivity].
Qed.

Lemma mock_batch_regions clk entries : forall t,
  ScrapedPrice.Region <$> mock_batch clk t entries = entries.*1.
Proof.
  induction entries as [|[region research] entries IH]; intros t; simpl;
    [reflexivity | rewrite IH; reflexivity].
Qed.

Lemma variation_after_epoch now : 0 <= now -> -2 <= variation_at now <= 2.
Proof.
  intros Hnow. unfold variation_at, cycle.
  pose proof (Z.rem_bound_pos now 5 Hnow ltac:(lia)). lia.
Qed.

Lemma variation_bounds now : -6 <= variation_at now <= 2.
Proof.
  unfold variation_at, cycle.
  pose proof (Z.rem_bound_abs now 5 ltac:(lia)). lia.
Qed.

Ltac each_entry H :=
  repeat (apply elem_of_cons in H as [-> | H]); [..| inversion H].

Ltac each_value v lo hi :=
  let Hv := fresh in
  assert (Hv : v = lo \/ lo + 1 <= v <= hi) by lia;
  destruct Hv as [-> | Hv].

Lemma research_price_within entry v :
  entry ∈ research_entries -> -2 <= v <= 2 ->
  within_percent 2
    (f64_mul (PriceResearch.BasePrice entry.2) (dailyFactor v))
    (PriceResearch.BasePrice entry.2).
Proof.
  intros Hin Hv.
  assert (Hcases : v = -2 \/ v = -1 \/ v = 0 \/ v = 1 \/ v = 2) by lia.
  each_entry Hin;
    (destruct Hcases as [-> | [-> | [-> | [-> | ->]]]];
     (split; [vm_compute; reflexivity | vm_compute; discriminate])).
Qed.

Lemma research_price_positive entry v :
  entry ∈ research_entries -> -6 <= v <= 2 ->
  f64_pos (f64_mul (PriceResearch.BasePrice entry.2) (dailyFactor v)) = true.
Proof.
  intros Hin Hv.
  assert (Hcases : v = -6 \/ v = -5 \/ v = -4 \/ v = -3 \/ v = -2 \/ v = -1
                   \/ v = 0 \/ v = 1 \/ v = 2) by lia.
  each_entry Hin;
    (destruct Hcases as [-> | [-> | [-> | [-> | [-> | [-> | [-> | [-> | ->]]]]]]]];
     vm_compute; reflexivity).
Qed.

Lemma research_label_contains entry :
  entry ∈ research_entries ->
  Contains (last_checked_label entry.2) "Last checked:" = true.
Proof. intros Hin. each_entry Hin; vm_compute; reflexivity. Qed.

Section Providers.

Context `{lib : Library}.

Implicit Types (w : World) (prices : list ScrapedPrice.t).

Lemma BAPPEBTI_row_run s url prices cols w :
  BAPPEBTI_row s url prices cols w =
  if (length cols <? 4)%nat then (prices, w)
  else if f64_pos (extractPrice (TrimSpace (nth 2 cols ""))) then
    (prices ++ [ScrapedPrice.mk (TrimSpace (nth 1 cols ""))
                  (extractPrice (TrimSpace (nth 2 cols ""))) "Standard"
                  (BAPPEBTI_GetName s) (clock w (ticks w)) url],
     with_ticks (S (ticks w)) w)
  else (prices, w).
Proof.
  unfold BAPPEBTI_row. destruct (length cols <? 4)%nat; [reflexivity|].
  destruct (f64_pos _); reflexivity.
Qed.

Lemma BAPPEBTI_row_positive s url prices cols w :
  all_positive prices -> all_positive (BAPPEBTI_row s url prices cols w).1.
Proof.
  intros Hpos. rewrite BAPPEBTI_row_run.
  destruct (length cols <? 4)%nat; [exact Hpos|].
  destruct (f64_pos _) eqn:Hp; [|exact Hpos].
  apply Forall_app. split; [exact Hpos|]. repeat constructor. exact Hp.
Qed.

Lemma BAPPEBTI_url_positive s prices url w :
  all_positive prices -> all_positive (BAPPEBTI_url s prices url w).1.
Proof.
  intros Hpos. unfold BAPPEBTI_url. rewrite bind_run.
  destruct (http_Get url w).1 as [err | err | rows].
  - run. exact Hpos.
  - run. exact Hpos.
  - apply foldM_invariant; [|exact Hpos].
    intros acc cols w'. apply BAPPEBTI_row_positive.
Qed.

Lemma BAPPEBTI_Scrape_run s w :
  BAPPEBTI_Scrape s w
  = (((foldM (BAPPEBTI_url s) [] (BAPPEBTI_urls s) w).1, None),
     (foldM (BAPPEBTI_url s) [] (BAPPEBTI_urls s) w).2).
Proof. unfold BAPPEBTI_Scrape. rewrite bind_run. reflexivity. Qed.

Lemma BAPPEBTI_Scrape_positive s w : all_positive (BAPPEBTI_Scrape s w).1.1.
Proof.
  rewrite BAPPEBTI_Scrape_run. cbn [fst].
  apply foldM_invariant; [|constructor].
  intros acc url w'. apply BAPPEBTI_url_positive.
Qed.

Lemma Mock_Scrape_elem w p :
  p ∈ (Mock_Scrape NewMockScraperWithRealData w).1.1 ->
  exists region research n,
    (region, research) ∈ research_entries /\
    (ticks w <= n < ticks w + 10)%nat /\
    p = ScrapedPrice.mk region
          (f64_mul (PriceResearch.BasePrice research)
             (dailyFactor (variation_at (clock w n))))
          "Standard" (last_checked_label research) (clock w (S n))
          "Manual Research + Market Data".
Proof.
  rewrite Mock_Scrape_run. cbn [fst]. intros Hp.
  destruct (mock_batch_elem _ _ _ _ Hp) as (region & research & n & Hin & Hn & ->).
  rewrite shuffle_Permutation, NewMock_entries in Hin.
  rewrite (Permutation_length (shuffle_Permutation _ _)) in Hn.
  rewrite (Permutation_length NewMock_entries) in Hn.
  exists region, research, n. split_and!; [exact Hin | apply Hn | apply Hn | reflexivity].
Qed.

Lemma Mock_Scrape_regions w :
  ScrapedPrice.Region <$> (Mock_Scrape NewMockScraperWithRealData w).1.1
  ≡ₚ research_entries.*1.
Proof.
  rewrite Mock_Scrape_run. cbn [fst]. rewrite mock_batch_regions.
  rewrite shuffle_Permutation, NewMock_entries. reflexivity.
Qed.

Lemma Mock_Scrape_length w :
  length (Mock_Scrape NewMockScraperWithRealData w).1.1 = 5%nat.
Proof.
  rewrite <- (length_fmap ScrapedPrice.Region), (Permutation_length (Mock_Scrape_regions w)).
  reflexivity.
Qed.

Lemma Mock_Scrape_positive w :
  all_positive (Mock_Scrape NewMockScraperWithRealData w).1.1.
Proof.
  apply Forall_forall. intros p Hp.
  destruct (Mock_Scrape_elem w p Hp) as (region & research & n & Hin & _ & ->).
  apply (research_price_positive (region, research) _ Hin), variation_bounds.
Qed.

(** What a pass of the manager of the program does. *)
Lemma ScrapeAll_manager_run w :
  let live := BAPPEBTI_Scrape NewBAPPEBTIScraper
                (logged (LogTrying "BAPPEBTI Info Harga") w) in
  let research := Mock_Scrape NewMockScraperWithRealData
                    (logged (LogTrying "Real Data Research + Market Simulation") live.2) in
  ScrapeAll NewScraperManager w =
  match live.1.1 with
  | [] => ((research.1.1, None),
           logged (LogReturned "Real Data Research + Market Simulation" 5) research.2)
  | _ :: _ => ((live.1.1, None),
               logged (LogReturned "BAPPEBTI Info Harga" (length live.1.1)) live.2)
  end.
Proof.
  intros live research. rewrite ScrapeAll_run.
  unfold NewScraperManager. cbn [Scrapers].
  destruct live.1.1 as [|p ps] eqn:Hlive.
  - assert (Hex : exhausted [AsScraper NewBAPPEBTIScraper] w live.2).
    { eapply exhausted_empty; [|constructor]. cbn [scrape name_of GetName Scrape BAPPEBTI_TobaccoScraper BAPPEBTI_GetName].
      fold live. apply pair_eq; [|reflexivity].
      apply pair_eq; [exact Hlive|]. unfold live. rewrite BAPPEBTI_Scrape_run. reflexivity. }
    change [AsScraper NewBAPPEBTIScraper; AsScraper NewMockScraperWithRealData]
      with ([AsScraper NewBAPPEBTIScraper] ++ [AsScraper NewMockScraperWithRealData]).
    rewrite (ScrapeAll_loop_skip _ _ _ Hex [AsScraper NewMockScraperWithRealData] []).
    rewrite (ScrapeAll_loop_win (AsScraper NewMockScraperWithRealData) [] [] live.2 research.1.1 research.2).
    + cbn [fst snd app]. unfold research at 1. rewrite Mock_Scrape_length.
      cbn [Nat.eqb]. unfold research at 2. rewrite Mock_Scrape_length. reflexivity.
    + cbn [scrape name_of GetName Scrape Mock_TobaccoScraper Mock_GetName].
      fold research. apply pair_eq; [|reflexivity]. apply pair_eq; [reflexivity|].
      unfold research. rewrite Mock_Scrape_run. reflexivity.
    + intros Hnil. pose proof (Mock_Scrape_length (logged (LogTrying "Real Data Research + Market Simulation") live.2)) as Hlen.
      fold research in Hlen. rewrite Hnil in Hlen. discriminate.
  - rewrite (ScrapeAll_loop_win (AsScraper NewBAPPEBTIScraper) _ [] w live.1.1 live.2).
    + rewrite Hlive. reflexivity.
    + cbn [scrape name_of GetName Scrape BAPPEBTI_TobaccoScraper BAPPEBTI_GetName].
      fold live. apply pair_eq; [|reflexivity]. apply pair_eq; [reflexivity|].
      unfold live. rewrite BAPPEBTI_Scrape_run. reflexivity.
    + rewrite Hlive. discriminate.
Qed.

(** C3, as amended: [MockScraperWithRealData.Scrape] never fails and
    returns one record for each region of its research data, five in
    all; the source of each record is the source of the research, a
    space, and the date of the research in parentheses, as in
    [DPRD Jember Report (Last checked: 2024-09-15)], so that it contains
    [Last checked:]; when the clock is not read before 1970, each price is
    within 2 percent of the base price of its region.  Whenever the live
    source contributes no record, this batch is what [ScrapeAll]
    returns. *)
Theorem research_scraper_batch w :
  let r := Mock_Scrape NewMockScraperWithRealData w in
  r.1.2 = None /\
  length r.1.1 = size (LastResearch NewMockScraperWithRealData) /\
  length r.1.1 = 5%nat /\
  ScrapedPrice.Region <$> r.1.1
    ≡ₚ (map_to_list (LastResearch NewMockScraperWithRealData)).*1 /\
  (forall p, p ∈ r.1.1 ->
     exists research,
       LastResearch NewMockScraperWithRealData !! ScrapedPrice.Region p
         = Some research /\
       ScrapedPrice.Source p
         = PriceResearch.Source research +:+ " (Last checked: "
           +:+ Format_2006_01_02 (PriceResearch.DateChecked research) +:+ ")" /\
       Contains (ScrapedPrice.Source p) "Last checked:" = true /\
       (reads_after_epoch w 10 ->
        within_percent 2 (ScrapedPrice.Price p)
          (PriceResearch.BasePrice research))) /\
  (forall w0,
     let live := BAPPEBTI_Scrape NewBAPPEBTIScraper
                   (logged (LogTrying "BAPPEBTI Info Harga") w0) in
     live.1.1 = [] ->
     w = logged (LogTrying "Real Data Research + Market Simulation") live.2 ->
     (ScrapeAll NewScraperManager w0).1 = (r.1.1, None)).
Proof.
  intros r. split_and!.
  - unfold r. rewrite Mock_Scrape_run. reflexivity.
  - unfold r. rewrite Mock_Scrape_length, <- length_map_to_list.
    rewrite (Permutation_length NewMock_entries). reflexivity.
  - apply Mock_Scrape_length.
  - unfold r. rewrite Mock_Scrape_regions, NewMock_entries. reflexivity.
  - intros p Hp.
    destruct (Mock_Scrape_elem w p Hp) as (region & research & n & Hin & Hn & ->).
    exists research. cbn [ScrapedPrice.Region ScrapedPrice.Source ScrapedPrice.Price].
    split_and!.
    + apply NewMock_lookup, Hin.
    + reflexivity.
    + apply (research_label_contains (region, research) Hin).
    + intros Hepoch.
      apply (research_price_within (region, research) _ Hin).
      apply variation_after_epoch, Hepoch, Hn.
  - intros w0 live Hlive Hw. rewrite ScrapeAll_manager_run. cbv zeta.
    fold live. rewrite Hlive. cbn [fst]. unfold r. rewrite Hw. reflexivity.
Qed.

(** C4: every record that a pass of the manager returns has a price
    above zero, whichever scraper it comes from; a row of the table whose
    price string does not parse, or parses to nothing above zero, adds no
    record. *)
Theorem accepted_prices_positive w :
  all_positive (ScrapeAll NewScraperManager w).1.1 /\
  ((ScrapeAll NewScraperManager w).1.2 = None ->
   forall p, p ∈ (ScrapeAll NewScraperManager w).1.1 ->
     f64_pos (ScrapedPrice.Price p) = true) /\
  (forall s url prices cols w',
     let priceStr := TrimSpace (nth 2 cols "") in
     (ParseFloat (remove_non_numeric priceStr)).2 <> None \/
     f64_pos (extractPrice priceStr) = false ->
     BAPPEBTI_row s url prices cols w' = (prices, w')).
Proof.
  assert (Hpos : all_positive (ScrapeAll NewScraperManager w).1.1).
  { rewrite ScrapeAll_manager_run. cbv zeta.
    destruct (BAPPEBTI_Scrape NewBAPPEBTIScraper _).1.1 as [|p ps] eqn:Hlive.
    - apply Mock_Scrape_positive.
    - cbn [fst]. rewrite <- Hlive. apply BAPPEBTI_Scrape_positive. }
  split_and!.
  - exact Hpos.
  - intros _ p Hp. exact (proj1 (Forall_forall _ _) Hpos p Hp).
  - intros s url prices cols w' priceStr Hbad. rewrite BAPPEBTI_row_run.
    destruct (length cols <? 4)%nat; [reflexivity|]. fold priceStr.
    assert (Hneg : f64_pos (extractPrice priceStr) = false).
    { destruct Hbad as [Herr | Hneg]; [|exact Hneg].
      unfold extractPrice.
      destruct (ParseFloat (remove_non_numeric priceStr)) as [price [e|]];
        [reflexivity | done]. }
    rewrite Hneg. reflexivity.
Qed.

(** X25: two calls of [MockScraperWithRealData.Scrape] during which the
    clock shows one and the same cycle value return, in whatever order
    the map is visited, one record for each of the five regions of the
    research data, and give every region the same price in both calls:
    its base price times the factor of that cycle value.  When the cycle
    value is one of 0 to 4, as it is for a clock that is not before 1970,
    every price is within 2 percent of the base price of its region. *)
Theorem research_prices_by_cycle w1 w2 c :
  reads_cycle w1 10 c ->
  reads_cycle w2 10 c ->
  let prices1 := (Mock_Scrape NewMockScraperWithRealData w1).1.1 in
  let prices2 := (Mock_Scrape NewMockScraperWithRealData w2).1.1 in
  (forall region research,
     LastResearch NewMockScraperWithRealData !! region = Some research ->
     exists p1 p2,
       p1 ∈ prices1 /\ p2 ∈ prices2 /\
       ScrapedPrice.Region p1 = region /\ ScrapedPrice.Region p2 = region /\
       ScrapedPrice.Price p1
       = f64_mul (PriceResearch.BasePrice research) (dailyFactor (c - 2)) /\
       ScrapedPrice.Price p2 = ScrapedPrice.Price p1) /\
  (forall p1 p2, p1 ∈ prices1 -> p2 ∈ prices2 ->
     ScrapedPrice.Region p1 = ScrapedPrice.Region p2 ->
     ScrapedPrice.Price p1 = ScrapedPrice.Price p2) /\
  ScrapedPrice.Region <$> prices1 ≡ₚ research_entries.*1 /\
  ScrapedPrice.Region <$> prices2 ≡ₚ research_entries.*1 /\
  (0 <= c ->
   forall p, p ∈ prices1 ++ prices2 ->
     exists research,
       LastResearch NewMockScraperWithRealData !! ScrapedPrice.Region p
         = Some research /\
       within_percent 2 (ScrapedPrice.Price p)
         (PriceResearch.BasePrice research)).
Proof.
  intros Hc1 Hc2 prices1 prices2.
  assert (Hfound : forall w region research,
            reads_cycle w 10 c ->
            LastResearch NewMockScraperWithRealData !! region = Some research ->
            exists p,
              p ∈ (Mock_Scrape NewMockScraperWithRealData w).1.1 /\
              ScrapedPrice.Region p = region /\
              ScrapedPrice.Price p
              = f64_mul (PriceResearch.BasePrice research)
                  (dailyFactor (c - 2))).
  { intros w region research Hc Hlookup.
    assert (Hregion : region ∈ ScrapedPrice.Region
                        <$> (Mock_Scrape NewMockScraperWithRealData w).1.1).
    { rewrite Mock_Scrape_regions. apply list_elem_of_fmap.
      exists (region, research). split; [reflexivity|].
      apply NewMock_lookup, Hlookup. }
    apply list_elem_of_fmap in Hregion as (p & Hp & Hin).
    exists p. split; [exact Hin|]. split; [symmetry; exact Hp|].
    destruct (Mock_Scrape_elem w p Hin) as (r & rs & n & Hrs & Hn & ->).
    cbn [ScrapedPrice.Region ScrapedPrice.Price] in *. subst r.
    apply NewMock_lookup in Hrs. rewrite Hlookup in Hrs. injection Hrs as <-.
    unfold variation_at. rewrite (Hc n Hn). reflexivity. }
  split_and!.
  - intros region research Hlookup.
    destruct (Hfound w1 region research Hc1 Hlookup) as (p1 & Hp1 & Hr1 & Hv1).
    destruct (Hfound w2 region research Hc2 Hlookup) as (p2 & Hp2 & Hr2 & Hv2).
    exists p1, p2. split_and!; try assumption. congruence.
  - intros p1 p2 Hp1 Hp2 Hregion.
    destruct (Mock_Scrape_elem w1 p1 Hp1) as (r1 & rs1 & n1 & Hin1 & Hn1 & ->).
    destruct (Mock_Scrape_elem w2 p2 Hp2) as (r2 & rs2 & n2 & Hin2 & Hn2 & ->).
    cbn [ScrapedPrice.Region ScrapedPrice.Price] in *. subst r2.
    apply NewMock_lookup in Hin1, Hin2. rewrite Hin1 in Hin2.
    injection Hin2 as <-. unfold variation_at.
    rewrite (Hc1 n1 Hn1), (Hc2 n2 Hn2). reflexivity.
  - apply Mock_Scrape_regions.
  - apply Mock_Scrape_regions.
  - intros Hc p Hp.
    assert (Hcase : exists region research n w,
              (region, research) ∈ research_entries /\
              cycle (clock w n) = c /\
              p = ScrapedPrice.mk region
                    (f64_mul (PriceResearch.BasePrice research)
                       (dailyFactor (variation_at (clock w n))))
                    "Standard" (last_checked_label research) (clock w (S n))
                    "Manual Research + Market Data").
    { apply elem_of_app in Hp as [Hp | Hp].
      - destruct (Mock_Scrape_elem w1 p Hp) as (r & rs & n & Hin & Hn & ->).
        exists r, rs, n, w1. split_and!; [exact Hin | apply Hc1, Hn | reflexivity].
      - destruct (Mock_Scrape_elem w2 p Hp) as (r & rs & n & Hin & Hn & ->).
        exists r, rs, n, w2. split_and!; [exact Hin | apply Hc2, Hn | reflexivity]. }
    destruct Hcase as (region & research & n & w & Hin & Hcyc & ->).
    exists research. cbn [ScrapedPrice.Region ScrapedPrice.Price].
    split; [apply NewMock_lookup, Hin|].
    apply (research_price_within (region, research) _ Hin).
    unfold variation_at. rewrite Hcyc.
    assert (c < 5); [|lia]. subst c. unfold cycle.
    pose proof (Z.rem_bound_abs (clock w n) 5 ltac:(lia)). lia.
Qed.

End Providers.

Lemma research_scraper_batch_witness :
  reads_after_epoch offline_world 10 /\
  forall p, p ∈ (Mock_Scrape NewMockScraperWithRealData offline_world).1.1 ->
    exists research,
      LastResearch NewMockScraperWithRealData !! ScrapedPrice.Region p
        = Some research /\
      within_percent 2 (ScrapedPrice.Price p) (PriceResearch.BasePrice research).
Proof.
  assert (Hepoch : reads_after_epoch offline_world 10).
  { intros n _. change (0 <= Z.of_nat n + 1700000000). lia. }
  split; [exact Hepoch|]. intros p Hp.
  destruct (research_scraper_batch (lib := sample_library) offline_world)
    as (_ & _ & _ & _ & Hall & _).
  destruct (Hall p Hp) as (research & Hlook & _ & _ & Hwithin).
  exists research. split; [exact Hlook | exact (Hwithin Hepoch)].
Defined.

(** C3, as stated, fails on the format of the source: the record of
    Jember carries [DPRD Jember Report (Last checked: 2024-09-15)], with a
    space before the parenthesis. *)
Lemma research_label_has_space :
  exists p research,
    p ∈ (Mock_Scrape NewMockScraperWithRealData offline_world).1.1 /\
    LastResearch NewMockScraperWithRealData !! ScrapedPrice.Region p
      = Some research /\
    ScrapedPrice.Source p = "DPRD Jember Report (Last checked: 2024-09-15)" /\
    label_without_space research = "DPRD Jember Report(Last checked: 2024-09-15)" /\
    ScrapedPrice.Source p <> label_without_space research.
Proof.
  destruct ((Mock_Scrape NewMockScraperWithRealData offline_world).1.1 !! 1%nat)
    as [p|] eqn:Hp; [|vm_compute in Hp; discriminate].
  exists p, (PriceResearch.mk (f64_of_Z 85000)
               {| year := 2024; month := 9; day := 15 |}
               "DPRD Jember Report" "Harga tengkulak, kualitas standard").
  split; [eapply list_elem_of_lookup_2, Hp|].
  vm_compute in Hp. injection Hp as <-.
  split; [apply NewMock_lookup; left|]; split_and!; try reflexivity.
  vm_compute. discriminate.
Qed.

Lemma accepted_prices_positive_witness :
  (ScrapeAll (NewScraperManager (lib := sample_library)) online_world).1.2 = None /\
  (forall p,
     p ∈ (ScrapeAll (NewScraperManager (lib := sample_library)) online_world).1.1 ->
     f64_pos (ScrapedPrice.Price p) = true) /\
  BAPPEBTI_row (lib := sample_library) NewBAPPEBTIScraper "url" []
    ["2"; "Klaten"; "n/a"; "kg"] online_world = ([], online_world).
Proof.
  assert (Herr : (ScrapeAll (NewScraperManager (lib := sample_library))
                    online_world).1.2 = None) by (vm_compute; reflexivity).
  destruct (accepted_prices_positive (lib := sample_library) online_world)
    as (_ & Hok & Hrow).
  split; [exact Herr|]. split; [exact (Hok Herr)|].
  apply Hrow. left. vm_compute. discriminate.
Defined.

(** ** The current price and the preview *)

Section Preview.

Context `{lib : Library}.

Implicit Types (w : World) (prices : list ScrapedPrice.t).

Lemma find_region_spec region prices :
  match find_region region prices with
  | Some p =>
      exists pre post,
        prices = pre ++ p :: post /\
        EqualFold (ScrapedPrice.Region p) region = true /\
        Forall (fun q => EqualFold (ScrapedPrice.Region q) region = false) pre
  | None =>
      Forall (fun q => EqualFold (ScrapedPrice.Region q) region = false) prices
  end.
Proof.
  induction prices as [|q prices IH]; cbn [find_region]; [constructor|].
  destruct (EqualFold (ScrapedPrice.Region q) region) eqn:Hq.
  - exists [], prices. split_and!; [reflexivity | exact Hq | constructor].
  - destruct (find_region region prices) as [p|].
    + destruct IH as (pre & post & -> & Hp & Hpre).
      exists (q :: pre), post. split_and!; [reflexivity | exact Hp |].
      constructor; assumption.
    + constructor; assumption.
Qed.

Lemma GetScrapedPriceJSON_run region w :
  GetScrapedPriceJSON region w
  = (match (ScrapeAll NewScraperManager w).1.2 with
     | Some e => ("", Some e)
     | None =>
         match find_region region (ScrapeAll NewScraperManager w).1.1 with
         | Some price => (Marshal_ScrapedPrice price, None)
         | None => ("", Some ErrRegionNotFound)
         end
     end, (ScrapeAll NewScraperManager w).2).
Proof.
  unfold GetScrapedPriceJSON. rewrite bind_run.
  destruct (ScrapeAll NewScraperManager w) as [[prices [e|]] w']; cbn [fst snd];
    [reflexivity|].
  destruct (find_region region prices); reflexivity.
Qed.

Lemma DB_QueryRow_latest_run region w :
  DB_QueryRow_latest region w
  = (match db_fault w (statements w) with
     | Some e => (None, Some e)
     | None =>
         match order_by_created_at_desc
                 (filter (fun p => Price.Region p = region) (prices w)) with
         | [] => (None, Some ErrNoRows)
         | p :: _ => (Some p, None)
         end
     end, with_statements (S (statements w)) w).
Proof.
  unfold DB_QueryRow_latest. rewrite bind_run. cbn [db_begin fst snd].
  destruct (db_fault w (statements w)); [reflexivity|].
  rewrite bind_run. cbn [db_rows fst snd prices with_statements].
  destruct (order_by_created_at_desc _); reflexivity.
Qed.

Lemma GetLatestPriceJSON_world region w :
  (GetLatestPriceJSON region w).2 = with_statements (S (statements w)) w.
Proof.
  unfold GetLatestPriceJSON. rewrite bind_run, DB_QueryRow_latest_run.
  cbn [fst snd].
  destruct (db_fault w (statements w)); [reflexivity|].
  destruct (order_by_created_at_desc _) as [|p ?]; [reflexivity|].
  destruct (Marshal_Price p) as [? [?|]]; reflexivity.
Qed.

Lemma GetCurrentPriceHandler_run r w :
  let res := GetLatestPriceJSON (getRegionOrDefault (Query r "region"))
               (logged (LogRequest (Method r) (Path r) (RawQuery r)) w) in
  GetCurrentPriceHandler r w
  = (respond res.1,
     match res.1.2 with
     | Some e => logged (LogHandlerError e) res.2
     | None => res.2
     end).
Proof.
  intros res. unfold GetCurrentPriceHandler. rewrite bind_run, log_run.
  cbn [fst snd]. rewrite bind_run. fold res.
  destruct res as [[jsonData [e|]] w']; reflexivity.
Qed.

(** C7, as amended: the handler of [GET /harga/current] answers with the
    latest stored price of the region, [Jember] when none is given, as
    [GetLatestPriceJSON] reads it from the data base: it starts no pass of
    the scrapers, makes no request, and leaves the table as it is.  The
    preview [GetScrapedPriceJSON], which no handler calls, is what runs a
    full pass of [ScrapeAll] and returns the first record of the batch
    whose region matches under [strings.EqualFold], and an error when the
    pass fails or no region matches. *)
Theorem current_price_from_store r w :
  let res := GetLatestPriceJSON (getRegionOrDefault (Query r "region"))
               (logged (LogRequest (Method r) (Path r) (RawQuery r)) w) in
  let out := GetCurrentPriceHandler r w in
  (out.1 = respond res.1 /\
   requests out.2 = requests w /\ ranges out.2 = ranges w /\
   ticks out.2 = ticks w /\ prices out.2 = prices w /\
   statements out.2 = S (statements w)) /\
  (forall region w0,
     let pass := ScrapeAll NewScraperManager w0 in
     let preview := GetScrapedPriceJSON region w0 in
     preview.2 = pass.2 /\
     match pass.1.2 with
     | Some e => preview.1 = ("", Some e)
     | None =>
         (exists pre p post,
            pass.1.1 = pre ++ p :: post /\
            EqualFold (ScrapedPrice.Region p) region = true /\
            Forall (fun q => EqualFold (ScrapedPrice.Region q) region = false) pre /\
            preview.1 = (Marshal_ScrapedPrice p, None))
         \/
         (Forall (fun q => EqualFold (ScrapedPrice.Region q) region = false)
            pass.1.1 /\
          preview.1 = ("", Some ErrRegionNotFound))
     end).
Proof.
  intros res out. split.
  - unfold out. rewrite GetCurrentPriceHandler_run. cbv zeta. fold res.
    cbn [fst snd]. split; [reflexivity|].
    assert (Hw : res.2 = with_statements
                   (S (statements (logged (LogRequest (Method r) (Path r) (RawQuery r)) w)))
                   (logged (LogRequest (Method r) (Path r) (RawQuery r)) w))
      by apply GetLatestPriceJSON_world.
    destruct res.1.2; rewrite Hw; repeat split.
  - intros region w0 pass preview. unfold preview.
    rewrite GetScrapedPriceJSON_run. fold pass. cbn [fst snd].
    split; [reflexivity|]. destruct pass.1.2 as [e|]; [reflexivity|].
    pose proof (find_region_spec region pass.1.1) as Hfind.
    destruct (find_region region pass.1.1) as [p|].
    + left. destruct Hfind as (pre & post & Hsplit & Hp & Hpre).
      exists pre, p, post. split_and!; done.
    + right. split; [exact Hfind | reflexivity].
Qed.

End Preview.

(** C7, as stated, fails: with an empty table and the live source down,
    the handler answers a request for [jember] with a status 500 and has
    made no request, where the preview makes its three requests, falls
    back on the research data and finds the record of Jember. *)
Lemma current_price_is_not_a_preview :
  let r := current_price_request "jember" in
  let w := logged (LogRequest (Method r) (Path r) (RawQuery r)) offline_world in
  let out := GetCurrentPriceHandler (lib := sample_library) r offline_world in
  let preview := GetScrapedPriceJSON (lib := sample_library) (Query r "region") w in
  Status out.1 = 500 /\ requests out.2 = 0%nat /\
  Status (respond preview.1) = 200 /\ requests preview.2 = 3%nat /\
  out.1 <> respond preview.1.
Proof.
  cbv zeta. split_and!; try (vm_compute; reflexivity).
  vm_compute. discriminate.
Qed.

(** ** The latest stored price *)

Section Latest.

Context `{lib : Library}.

Implicit Types (p q x : Price.t) (rows sorted : list Price.t).

Lemma ltb_not_le (a b : string) : String.ltb a b = true <-> ~ String.le b a.
Proof.
  unfold String.ltb, String.le, String.leb. rewrite (String.compare_antisym a b).
  destruct (String.compare b a); simpl; intuition congruence.
Qed.

Lemma insert_desc_Permutation x sorted : insert_desc x sorted ≡ₚ x :: sorted.
Proof.
  induction sorted as [|y r IH]; cbn [insert_desc]; [reflexivity|].
  destruct (String.ltb _ _); [reflexivity|].
  rewrite IH. apply perm_swap.
Qed.

Lemma order_by_Permutation rows : order_by_created_at_desc rows ≡ₚ rows.
Proof.
  unfold order_by_created_at_desc.
  induction rows as [|x rows IH] using rev_ind; [reflexivity|].
  rewrite fold_left_app. cbn [fold_left].
  rewrite insert_desc_Permutation, IH. apply Permutation_cons_append.
Qed.


Lemma order_by_head rows :
  match order_by_created_at_desc rows with
  | [] => rows = []
  | p :: _ => first_latest rows p
  end.
Proof.
  unfold order_by_created_at_desc.
  induction rows as [|x rows IH] using rev_ind; [reflexivity|].
  rewrite fold_left_app. cbn [fold_left].
  destruct (fold_left _ rows []) as [|y r]; cbn [insert_desc].
  - subst rows. split.
    + intros q Hq. apply list_elem_of_singleton in Hq as ->. reflexivity.
    + exists [], []. split; [reflexivity|]. intros q Hq. inversion Hq.
  - destruct IH as [Hmax (pre & post & -> & Hpre)].
    destruct (String.ltb (Price.CreatedAt y) (Price.CreatedAt x)) eqn:Hlt.
    + apply ltb_not_le in Hlt.
      assert (Hxy : String.le (Price.CreatedAt y) (Price.CreatedAt x)).
      { destruct (total String.le (Price.CreatedAt y) (Price.CreatedAt x)); done. }
      split.
      * intros q Hq. apply elem_of_app in Hq as [Hq | Hq].
        -- etransitivity; [apply Hmax, Hq | exact Hxy].
        -- apply list_elem_of_singleton in Hq as ->. reflexivity.
      * exists (pre ++ y :: post), []. split; [reflexivity|].
        intros q Hq Hle. apply Hlt. etransitivity; [exact Hle | apply Hmax, Hq].
    + assert (Hxy : String.le (Price.CreatedAt x) (Price.CreatedAt y)).
      { destruct (decide (String.le (Price.CreatedAt x) (Price.CreatedAt y)))
          as [|Hn]; [done|]. apply ltb_not_le in Hn. congruence. }
      split.
      * intros q Hq. apply elem_of_app in Hq as [Hq | Hq]; [apply Hmax, Hq|].
        apply list_elem_of_singleton in Hq as ->. exact Hxy.
      * exists pre, (post ++ [x]). split; [|exact Hpre].
        rewrite <- app_assoc. reflexivity.
Qed.
End Latest.

Section LatestClaim.

Context `{lib : Library}.

(** C9, as amended: for every region, when the data base answers and
    holds a row of the region, the row that [GetLatestPriceJSON] encodes
    is a stored row of that region whose [created_at] is the greatest of
    the region.  The query has no second sort key: rows of one and the
    same [created_at] are not ranked by their [id], and the first of them
    in the order of the table is returned.  With no row of the region, or
    when the data base fails, the result is an error. *)
Theorem latest_price_by_created_at region w :
  let res := GetLatestPriceJSON region w in
  let rows := filter (fun p => Price.Region p = region) (prices w) in
  match db_fault w (statements w) with
  | Some e => res.1 = ("", Some (no_price_data region e))
  | None =>
      (rows = [] /\ res.1 = ("", Some (no_price_data region ErrNoRows)))
      \/
      (exists p,
         p ∈ prices w /\ Price.Region p = region /\
         (forall q, q ∈ prices w -> Price.Region q = region ->
            String.le (Price.CreatedAt q) (Price.CreatedAt p)) /\
         (exists pre post,
            rows = pre ++ p :: post /\
            forall q, q ∈ pre ->
              ~ String.le (Price.CreatedAt p) (Price.CreatedAt q)) /\
         res.1 = match Marshal_Price p with
                 | (_, Some e) => ("", Some e)
                 | (jsonData, None) => (jsonData, None)
                 end)
  end.
Proof.
  intros res rows. unfold res, GetLatestPriceJSON.
  rewrite bind_run, DB_QueryRow_latest_run. cbn [fst snd].
  destruct (db_fault w (statements w)) as [e|]; [reflexivity|]. fold rows.
  pose proof (order_by_head rows) as Hhead.
  destruct (order_by_created_at_desc rows) as [|p sorted].
  - left. split; [exact Hhead | reflexivity].
  - right. exists p. destruct Hhead as [Hmax (pre & post & Hrows & Hpre)].
    assert (Hp : p ∈ rows)
      by (rewrite Hrows; apply elem_of_app; right; left).
    apply list_elem_of_filter in Hp as [Hregion Hp].
    split_and!; [exact Hp | exact Hregion | | by exists pre, post |].
    + intros q Hq Hqr. apply Hmax. apply list_elem_of_filter. done.
    + destruct (Marshal_Price p) as [jsonData [e|]]; reflexivity.
Qed.

End LatestClaim.

(** C9, as stated, fails: after two passes within one second the table
    holds two rows of Jember with one and the same [created_at], of ids 2
    and 7, and the query returns the row of id 2. *)
Lemma latest_price_ignores_id :
  exists p q,
    (DB_QueryRow_latest "Jember" fetched_twice).1 = (Some p, None) /\
    (GetLatestPriceJSON (lib := sample_library) "Jember" fetched_twice).1
      = ((Marshal_Price (Library := sample_library) p).1, None) /\
    q ∈ prices fetched_twice /\
    Price.Region p = "Jember" /\ Price.Region q = "Jember" /\
    Price.CreatedAt q = Price.CreatedAt p /\
    Price.ID p = 2 /\ Price.ID q = 7 /\
    ~ latest_then_max_id "Jember" (prices fetched_twice) p.
Proof.
  destruct (prices fetched_twice !! 1%nat) as [p|] eqn:Hp;
    [|vm_compute in Hp; discriminate].
  destruct (prices fetched_twice !! 6%nat) as [q|] eqn:Hq;
    [|vm_compute in Hq; discriminate].
  exists p, q.
  assert (Hqin : q ∈ prices fetched_twice) by (eapply list_elem_of_lookup_2, Hq).
  vm_compute in Hp, Hq. injection Hp as <-. injection Hq as <-.
  split_and!; try (vm_compute; reflexivity); [exact Hqin|].
  intros (_ & _ & Hall). destruct (Hall _ Hqin eq_refl) as [Hlt | [_ Hid]].
  - vm_compute in Hlt. discriminate.
  - vm_compute in Hid. apply Hid. reflexivity.
Qed.

(** ** Persistence *)

Section Persistence.

Context `{lib : Library}.

Implicit Types (w : World) (p data : ScrapedPrice.t) (batch : list ScrapedPrice.t).

Lemma DB_Exec_insert_run region price unit source recorded_at w :
  DB_Exec_insert region price unit source recorded_at w =
  match db_fault w (statements w) with
  | Some e => (Some e, with_statements (S (statements w)) w)
  | None =>
      if f64_is_nan price then
        (Some "NOT NULL constraint failed: prices.price",
         with_statements (S (statements w)) w)
      else
        (None,
         with_prices
           (prices w ++ [Price.mk (next_id w) region price unit source
                           recorded_at (sqlite_datetime (clock w (ticks w)))])
           (next_id w + 1)
           (with_ticks (S (ticks w)) (with_statements (S (statements w)) w)))
  end.
Proof.
  unfold DB_Exec_insert. rewrite bind_run. cbn [db_begin fst snd].
  destruct (db_fault w (statements w)); [reflexivity|].
  destruct (f64_is_nan price); reflexivity.
Qed.

Lemma SaveScrapedPrice_run data w :
  SaveScrapedPrice data w =
  match insert_outcome w 0 data with
  | Some e => (Some e, with_statements (S (statements w)) w)
  | None =>
      (None,
       with_prices
         (prices w ++
          [Price.mk (next_id w) (ScrapedPrice.Region data)
             (ScrapedPrice.Price data) "kg"
             (ScrapedPrice.Source data +:+ " (Scraped: "
              +:+ ScrapedPrice.Quality data +:+ ")")
             (Format_datetime (ScrapedPrice.ScrapedAt data))
             (sqlite_datetime (clock w (ticks w)))])
         (next_id w + 1)
         (with_ticks (S (ticks w)) (with_statements (S (statements w)) w)))
  end.
Proof.
  unfold SaveScrapedPrice, insert_outcome. rewrite DB_Exec_insert_run.
  rewrite Nat.add_0_r.
  destruct (db_fault w (statements w)); [reflexivity|].
  destruct (f64_is_nan _); reflexivity.
Qed.

(** What one turn of the loop of [AutoFetchPricesFromScraper] does. *)
Lemma save_one_run p w :
  save_one tt p w =
  (tt,
   match insert_outcome w 0 p with
   | Some e =>
       logged (LogSaveError (ScrapedPrice.Region p) e)
         (with_statements (S (statements w)) w)
   | None =>
       logged (LogSaved (ScrapedPrice.Region p) (ScrapedPrice.Price p)
                 (ScrapedPrice.Source p))
         (SaveScrapedPrice p w).2
   end).
Proof.
  unfold save_one. rewrite bind_run, SaveScrapedPrice_run.
  destruct (insert_outcome w 0 p); reflexivity.
Qed.

Lemma append_assoc (a b c : string) : (a +:+ b) +:+ c = a +:+ (b +:+ c).
Proof.
  induction a as [|x a IH]; [reflexivity|].
  change (String x ((a +:+ b) +:+ c) = String x (a +:+ (b +:+ c))).
  rewrite IH. reflexivity.
Qed.

Lemma elem_of_middle {A} (x : A) (l1 l2 : list A) : x ∈ (l1 ++ [x]) ++ l2.
Proof. apply elem_of_app. left. apply elem_of_app. right. left. Qed.

Lemma save_one_world p w :
  let w' := (save_one tt p w).2 in
  db_fault w' = db_fault w /\ statements w' = S (statements w) /\
  requests w' = requests w /\
  match insert_outcome w 0 p with
  | Some e =>
      prices w' = prices w /\ next_id w' = next_id w /\
      logs w' = logs w ++ [LogSaveError (ScrapedPrice.Region p) e]
  | None =>
      (exists row, prices w' = prices w ++ [row] /\
                   Price.ID row = next_id w /\ stored_as p row) /\
      next_id w' = next_id w + 1 /\
      logs w' = logs w ++ [LogSaved (ScrapedPrice.Region p)
                             (ScrapedPrice.Price p) (ScrapedPrice.Source p)]
  end.
Proof.
  cbv zeta. rewrite save_one_run. cbn [snd].
  destruct (insert_outcome w 0 p) as [e|] eqn:Hout.
  - repeat split.
  - rewrite SaveScrapedPrice_run, Hout. cbn [snd]. split_and!; try reflexivity.
    eexists. split; [reflexivity|]. repeat split.
Qed.

Lemma insert_outcome_shift w w' i p :
  db_fault w' = db_fault w -> statements w' = S (statements w) ->
  insert_outcome w' i p = insert_outcome w (S i) p.
Proof.
  intros Hf Hs. unfold insert_outcome. rewrite Hf, Hs.
  replace (S (statements w) + i)%nat with (statements w + S i)%nat by lia.
  reflexivity.
Qed.

Lemma count_saved_shift w w' batch :
  db_fault w' = db_fault w -> statements w' = S (statements w) ->
  forall i, count_saved w' i batch = count_saved w (S i) batch.
Proof.
  intros Hf Hs. induction batch as [|p rest IH]; intros i; cbn [count_saved];
    [reflexivity|].
  rewrite (insert_outcome_shift w w' i p Hf Hs), IH. reflexivity.
Qed.

(** The data base and the log after the loop over a batch. *)
Lemma save_all_spec batch : forall w,
  let w2 := (foldM save_one tt batch w).2 in
  db_fault w2 = db_fault w /\
  statements w2 = (statements w + length batch)%nat /\
  requests w2 = requests w /\
  next_id w <= next_id w2 /\
  (exists added,
     prices w2 = prices w ++ added /\
     length added = count_saved w 0 batch /\
     Forall (fun row => next_id w <= Price.ID row /\
                        exists p, p ∈ batch /\ stored_as p row) added) /\
  (exists lines, logs w2 = logs w ++ lines) /\
  (forall i p, batch !! i = Some p ->
     match insert_outcome w i p with
     | Some e => LogSaveError (ScrapedPrice.Region p) e ∈ logs w2
     | None =>
         LogSaved (ScrapedPrice.Region p) (ScrapedPrice.Price p)
           (ScrapedPrice.Source p) ∈ logs w2 /\
         exists row, row ∈ prices w2 /\ next_id w <= Price.ID row /\
                     stored_as p row
     end).
Proof.
  induction batch as [|p rest IH]; intros w; cbv zeta.
  - cbn [foldM]. rewrite ret_run. cbn [snd length count_saved].
    split_and!; [reflexivity | lia | reflexivity | lia | | |].
    + exists []. rewrite app_nil_r. split_and!; [reflexivity | reflexivity | constructor].
    + exists []. rewrite app_nil_r. reflexivity.
    + intros i q Hq. inversion Hq.
  - cbn [foldM]. rewrite bind_run.
    replace (save_one tt p w).1 with tt by (destruct (save_one tt p w).1; reflexivity).
    destruct (save_one_world p w) as (Hf & Hs & Hr & Hone).
    set (w' := (save_one tt p w).2) in *.
    destruct (IH w') as (Hf2 & Hs2 & Hr2 & Hid2 & (added & Hadded & Hlen & Hids)
                         & (lines & Hlines) & Heach).
    set (w2 := (foldM save_one tt rest w').2) in *.
    assert (Hid : next_id w <= next_id w').
    { destruct (insert_outcome w 0 p); [|lia]. destruct Hone as (_ & -> & _). lia. }
    assert (Hlog : exists first, logs w' = logs w ++ [first]).
    { destruct (insert_outcome w 0 p).
      - destruct Hone as (_ & _ & ->). eauto.
      - destruct Hone as (_ & _ & ->). eauto. }
    destruct Hlog as [first Hfirst].
    split_and!.
    + congruence.
    + rewrite Hs2, Hs. cbn [length]. lia.
    + congruence.
    + lia.
    + cbn [count_saved]. rewrite <- (count_saved_shift w w' rest Hf Hs 0), <- Hlen.
      destruct (insert_outcome w 0 p) as [e|].
      * destruct Hone as (Hp & _ & _). exists added. rewrite Hadded, Hp.
        split_and!; [reflexivity | reflexivity |].
        eapply Forall_impl; [exact Hids|]. intros row [Hrow (q & Hq & Hst)].
        split; [lia|]. exists q. split; [right; exact Hq | exact Hst].
      * destruct Hone as ((row & Hp & Hrid & Hst) & _ & _). exists (row :: added).
        rewrite Hadded, Hp, <- app_assoc. split_and!; [reflexivity | reflexivity |].
        constructor; [split; [lia|]; exists p; split; [left | exact Hst]|].
        eapply Forall_impl; [exact Hids|]. intros r [Hrow (q & Hq & Hst')].
        split; [lia|]. exists q. split; [right; exact Hq | exact Hst'].
    + exists (first :: lines). rewrite Hlines, Hfirst, <- app_assoc. reflexivity.
    + intros [|i] q Hq.
      * cbn in Hq. injection Hq as <-.
        destruct (insert_outcome w 0 p) as [e|].
        -- destruct Hone as (_ & _ & Hl). rewrite Hlines, Hl. apply elem_of_middle.
        -- destruct Hone as ((row & Hp & Hrid & Hst) & _ & Hl). split.
           ++ rewrite Hlines, Hl. apply elem_of_middle.
           ++ exists row. split_and!; [rewrite Hadded, Hp; apply elem_of_middle | lia | exact Hst].
      * cbn in Hq. specialize (Heach i q Hq).
        rewrite (insert_outcome_shift w w' i q Hf Hs) in Heach.
        destruct (insert_outcome w (S i) q) as [e|]; [exact Heach|].
        destruct Heach as (Hl & row & Hrow & Hrid & Hst). split; [exact Hl|].
        exists row. split_and!; [exact Hrow | lia | exact Hst].
Qed.


(** A property of the world that every turn of a loop keeps holds when
    the loop is left. *)
Lemma foldM_world_invariant {A B} (P : World -> Prop) (body : B -> A -> M B) :
  (forall acc x w, P w -> P (body acc x w).2) ->
  forall xs acc w, P w -> P (foldM body acc xs w).2.
Proof.
  intros Hbody xs. induction xs as [|x xs IH]; intros acc w Hw; simpl.
  - exact Hw.
  - rewrite bind_run. apply IH, Hbody, Hw.
Qed.


Lemma BAPPEBTI_Scrape_store s w : same_store w (BAPPEBTI_Scrape s w).2.
Proof.
  rewrite BAPPEBTI_Scrape_run. cbn [snd].
  apply (foldM_world_invariant (same_store w)); [|repeat split].
  intros acc url w1 Hw1. unfold BAPPEBTI_url. rewrite bind_run.
  destruct (http_Get url w1).1 as [e | e | rows] eqn:Hget.
  - run. exact Hw1.
  - run. exact Hw1.
  - apply (foldM_world_invariant (same_store w)); [|exact Hw1].
    intros acc' cols w2 Hw2. rewrite BAPPEBTI_row_run.
    destruct (length cols <? 4)%nat; [exact Hw2|].
    destruct (f64_pos _); exact Hw2.
Qed.

Lemma ScrapeAll_manager_store w :
  same_store w (ScrapeAll NewScraperManager w).2.
Proof.
  rewrite ScrapeAll_manager_run. cbv zeta.
  pose proof (BAPPEBTI_Scrape_store NewBAPPEBTIScraper
                (logged (LogTrying "BAPPEBTI Info Harga") w)) as Hlive.
  destruct (BAPPEBTI_Scrape NewBAPPEBTIScraper _).1.1.
  - cbn [snd]. rewrite Mock_Scrape_run. cbn [snd]. exact Hlive.
  - cbn [snd]. exact Hlive.
Qed.


Lemma ScrapeAll_manager_standard w :
  all_standard (ScrapeAll NewScraperManager w).1.1.
Proof.
  rewrite ScrapeAll_manager_run. cbv zeta.
  destruct (BAPPEBTI_Scrape NewBAPPEBTIScraper _).1.1 as [|p ps] eqn:Hlive.
  - cbn [fst]. apply Forall_forall. intros q Hq.
    destruct (Mock_Scrape_elem _ q Hq) as (? & ? & ? & _ & _ & ->). reflexivity.
  - cbn [fst]. rewrite <- Hlive. rewrite BAPPEBTI_Scrape_run. cbn [fst].
    apply (foldM_invariant all_standard); [|constructor].
    intros acc url w1 Hacc. unfold BAPPEBTI_url. rewrite bind_run.
    destruct (http_Get url w1).1 as [e | e | rows].
    + run. exact Hacc.
    + run. exact Hacc.
    + apply (foldM_invariant all_standard); [|exact Hacc].
      intros acc' cols w2 Hacc'. rewrite BAPPEBTI_row_run.
      destruct (length cols <? 4)%nat; [exact Hacc'|].
      destruct (f64_pos _); [|exact Hacc'].
      apply Forall_app. split; [exact Hacc'|]. repeat constructor.
Qed.

Lemma AutoFetch_run w :
  AutoFetchPricesFromScraper w =
  match (ScrapeAll NewScraperManager w).1.2 with
  | Some e => (Some e, (ScrapeAll NewScraperManager w).2)
  | None =>
      (None, (foldM save_one tt (ScrapeAll NewScraperManager w).1.1
                (ScrapeAll NewScraperManager w).2).2)
  end.
Proof.
  unfold AutoFetchPricesFromScraper. rewrite bind_run.
  destruct (ScrapeAll NewScraperManager w) as [[batch [e|]] w1]; cbn [fst snd];
    [reflexivity|].
  rewrite bind_run. reflexivity.
Qed.

(** C8: when a pass has accepted a batch, [AutoFetchPricesFromScraper]
    sends one insert for each record of the batch, in their order,
    whatever the inserts before it have answered; a record whose insert
    fails leaves a line with the error in the log and no row in the table,
    every other record has its row in the table, and the result is nil. *)
Theorem persistence_skips_failed_inserts w :
  let pass := ScrapeAll NewScraperManager w in
  let out := AutoFetchPricesFromScraper w in
  pass.1.2 = None ->
  out.1 = None /\
  statements out.2 = (statements pass.2 + length pass.1.1)%nat /\
  length (prices out.2)
    = (length (prices pass.2) + count_saved pass.2 0 pass.1.1)%nat /\
  forall i p, pass.1.1 !! i = Some p ->
    match insert_outcome pass.2 i p with
    | Some e => LogSaveError (ScrapedPrice.Region p) e ∈ logs out.2
    | None =>
        LogSaved (ScrapedPrice.Region p) (ScrapedPrice.Price p)
          (ScrapedPrice.Source p) ∈ logs out.2 /\
        exists row, row ∈ prices out.2 /\ next_id pass.2 <= Price.ID row /\
                    stored_as p row
    end.
Proof.
  intros pass out Hok. unfold out. rewrite AutoFetch_run. fold pass.
  rewrite Hok. cbn [fst snd].
  destruct (save_all_spec pass.1.1 pass.2)
    as (_ & Hs & _ & _ & (added & Hadded & Hlen & _) & _ & Heach).
  split_and!; [reflexivity | exact Hs | | exact Heach].
  rewrite Hadded, length_app, Hlen. reflexivity.
Qed.

(** C10: [SaveScrapedPrice] stores the unit [kg] and, as source, the
    source of the record followed by [ (Scraped: ], its quality and [)],
    whatever the record holds; so every row that
    [AutoFetchPricesFromScraper] adds has the unit [kg] and a source that
    is not empty and ends in [ (Scraped: Standard)], and a record of the
    research scraper is stored with both labels, as in
    [DPRD Jember Report (Last checked: 2024-09-15) (Scraped: Standard)]. *)
Theorem saved_price_unit_and_source data w :
  let out := SaveScrapedPrice data w in
  (out.1 = None ->
   exists row,
     prices out.2 = prices w ++ [row] /\
     Price.Unit row = "kg" /\
     Price.Source row
       = ScrapedPrice.Source data +:+ " (Scraped: "
         +:+ ScrapedPrice.Quality data +:+ ")" /\
     Price.Source row <> "") /\
  (out.1 <> None -> prices out.2 = prices w) /\
  (forall w0,
     exists added,
       prices (AutoFetchPricesFromScraper w0).2 = prices w0 ++ added /\
       Forall (fun row =>
                 Price.Unit row = "kg" /\ Price.Source row <> "" /\
                 exists p, p ∈ (ScrapeAll NewScraperManager w0).1.1 /\
                   Price.Source row
                     = ScrapedPrice.Source p +:+ " (Scraped: Standard)") added) /\
  (forall w1 p,
     p ∈ (Mock_Scrape NewMockScraperWithRealData w1).1.1 ->
     exists research,
       LastResearch NewMockScraperWithRealData !! ScrapedPrice.Region p
         = Some research /\
       ScrapedPrice.Source p +:+ " (Scraped: " +:+ ScrapedPrice.Quality p +:+ ")"
       = PriceResearch.Source research +:+ " (Last checked: "
         +:+ Format_2006_01_02 (PriceResearch.DateChecked research)
         +:+ ") (Scraped: Standard)").
Proof.
  assert (Hne : forall (a b : string), a +:+ " (Scraped: " +:+ b <> "").
  { intros [|c a] b; discriminate. }
  intros out. split_and!.
  - intros Hok. unfold out in *. rewrite SaveScrapedPrice_run in *.
    destruct (insert_outcome w 0 data); [discriminate|]. cbn [snd].
    eexists. split; [reflexivity|]. cbn [Price.Unit Price.Source].
    split_and!; [reflexivity | reflexivity | apply Hne].
  - intros Herr. unfold out in *. rewrite SaveScrapedPrice_run in *.
    destruct (insert_outcome w 0 data); [reflexivity | done].
  - intros w0. rewrite AutoFetch_run.
    destruct (ScrapeAll_manager_store w0) as (Hprices & _).
    pose proof (ScrapeAll_manager_standard w0) as Hstd.
    destruct (ScrapeAll NewScraperManager w0).1.2.
    + exists []. cbn [snd]. rewrite app_nil_r. split; [exact Hprices | constructor].
    + cbn [snd].
      destruct (save_all_spec (ScrapeAll NewScraperManager w0).1.1
                  (ScrapeAll NewScraperManager w0).2)
        as (_ & _ & _ & _ & (added & Hadded & _ & Hrows) & _).
      exists added. rewrite Hadded, Hprices. split; [reflexivity|].
      eapply Forall_impl; [exact Hrows|].
      intros row (_ & p & Hp & _ & _ & Hunit & Hsrc & _).
      split_and!; [exact Hunit | rewrite Hsrc; apply Hne |].
      exists p. split; [exact Hp|]. rewrite Hsrc.
      rewrite (proj1 (Forall_forall _ _) Hstd p Hp). reflexivity.
  - intros w1 p Hp.
    destruct (Mock_Scrape_elem w1 p Hp) as (region & research & n & Hin & _ & ->).
    exists research. split; [apply NewMock_lookup, Hin|].
    cbn [ScrapedPrice.Source ScrapedPrice.Quality]. unfold last_checked_label.
    rewrite !append_assoc. reflexivity.
Qed.

End Persistence.

(** ** The claims at work on the worlds of the examples *)

Lemma research_prices_by_cycle_witness :
  reads_cycle still_world 10 3 /\
  reads_cycle later_world 10 3 /\
  forall region research,
    LastResearch NewMockScraperWithRealData !! region = Some research ->
    exists p1 p2,
      p1 ∈ (Mock_Scrape NewMockScraperWithRealData still_world).1.1 /\
      p2 ∈ (Mock_Scrape NewMockScraperWithRealData later_world).1.1 /\
      ScrapedPrice.Region p1 = region /\ ScrapedPrice.Region p2 = region /\
      ScrapedPrice.Price p1
      = f64_mul (PriceResearch.BasePrice research) (dailyFactor (3 - 2)) /\
      ScrapedPrice.Price p2 = ScrapedPrice.Price p1.
Proof.
  assert (H1 : reads_cycle still_world 10 3) by (intros n _; reflexivity).
  assert (H2 : reads_cycle later_world 10 3) by (intros n _; reflexivity).
  split; [exact H1|]. split; [exact H2|].
  exact (proj1 (research_prices_by_cycle still_world later_world 3 H1 H2)).
Defined.

(** The two worlds visit the map in different orders, and at another
    cycle value the price of a region is another one. *)
Example research_prices_across_cycles :
  ScrapedPrice.Region <$> (Mock_Scrape NewMockScraperWithRealData still_world).1.1
    <> ScrapedPrice.Region <$> (Mock_Scrape NewMockScraperWithRealData later_world).1.1
  /\ cycle (other_clock 0) = 0 /\ cycle (still_clock 0) = 3 /\
  exists p1 p2,
    p1 ∈ (Mock_Scrape NewMockScraperWithRealData still_world).1.1 /\
    p2 ∈ (Mock_Scrape NewMockScraperWithRealData other_world).1.1 /\
    ScrapedPrice.Region p1 = "Jember" /\ ScrapedPrice.Region p2 = "Jember" /\
    ScrapedPrice.Price p1 = f64_of_Z 85850 /\
    ScrapedPrice.Price p2 = f64_of_Z 83300.
Proof.
  split; [vm_compute; discriminate|]. split; [reflexivity|].
  split; [reflexivity|].
  destruct ((Mock_Scrape NewMockScraperWithRealData still_world).1.1 !! 1%nat)
    as [p1|] eqn:Hp1; [|vm_compute in Hp1; discriminate].
  destruct ((Mock_Scrape NewMockScraperWithRealData other_world).1.1 !! 1%nat)
    as [p2|] eqn:Hp2; [|vm_compute in Hp2; discriminate].
  exists p1, p2.
  split; [eapply list_elem_of_lookup_2, Hp1|].
  split; [eapply list_elem_of_lookup_2, Hp2|].
  vm_compute in Hp1, Hp2. injection Hp1 as <-. injection Hp2 as <-.
  split_and!; vm_compute; reflexivity.
Qed.

(** C6: on a host whose clock stands four seconds before 1970 the
    remainder that Go takes is negative: every reading of the clock has
    the cycle value -4, the variation is -6, and the record of Jember, of
    the base price 85000, carries the price 79900, which is 6 percent
    below it and so not within 2 percent of it, where the comment of the
    code has a variation from -2 to +2. *)
Lemma research_price_before_epoch :
  reads_cycle early_world 10 (-4) /\
  variation_at (clock early_world 0) = -6 /\
  exists p research,
    p ∈ (Mock_Scrape NewMockScraperWithRealData early_world).1.1 /\
    ScrapedPrice.Region p = "Jember" /\
    LastResearch NewMockScraperWithRealData !! "Jember" = Some research /\
    PriceResearch.BasePrice research = f64_of_Z 85000 /\
    ScrapedPrice.Price p = f64_of_Z 79900 /\
    ~ within_percent 2 (ScrapedPrice.Price p)
        (PriceResearch.BasePrice research).
Proof.
  split; [intros n _; reflexivity|]. split; [reflexivity|].
  destruct ((Mock_Scrape NewMockScraperWithRealData early_world).1.1 !! 1%nat)
    as [p|] eqn:Hp; [|vm_compute in Hp; discriminate].
  destruct (research_entries !! 0%nat) as [[region research]|] eqn:Hentry;
    [|discriminate].
  exists p, research.
  split; [eapply list_elem_of_lookup_2, Hp|].
  vm_compute in Hp. injection Hp as <-.
  cbn in Hentry. injection Hentry as <- <-.
  split; [reflexivity|].
  split; [apply NewMock_lookup; left|].
  split; [reflexivity|]. split; [vm_compute; reflexivity|].
  intros [_ Hbound]. vm_compute in Hbound. apply Hbound. reflexivity.
Qed.

Lemma persistence_skips_failed_inserts_witness :
  (ScrapeAll (NewScraperManager (lib := sample_library)) faulty_world).1.2 = None /\
  (AutoFetchPricesFromScraper (lib := sample_library) faulty_world).1 = None.
Proof.
  assert (Hok : (ScrapeAll (NewScraperManager (lib := sample_library))
                   faulty_world).1.2 = None) by (vm_compute; reflexivity).
  split; [exact Hok|].
  exact (proj1 (persistence_skips_failed_inserts (lib := sample_library)
                  faulty_world Hok)).
Defined.

(** In that world the second of the five inserts fails: the statements
    are five, the rows four, and the error is in the log. *)
Example persistence_in_faulty_world :
  let out := AutoFetchPricesFromScraper (lib := sample_library) faulty_world in
  out.1 = None /\ statements out.2 = 5%nat /\ length (prices out.2) = 4%nat /\
  LogSaveError "Jember" "database is locked" ∈ logs out.2.
Proof.
  cbv zeta. split_and!; try (vm_compute; reflexivity).
  apply (list_elem_of_lookup_2 _ 7). vm_compute. reflexivity.
Qed.

Lemma saved_price_unit_and_source_witness :
  (SaveScrapedPrice (lib := sample_library) boyolali offline_world).1 = None /\
  exists row,
    prices (SaveScrapedPrice (lib := sample_library) boyolali offline_world).2
    = prices offline_world ++ [row] /\
    Price.Unit row = "kg" /\
    Price.Source row
      = ScrapedPrice.Source boyolali +:+ " (Scraped: "
        +:+ ScrapedPrice.Quality boyolali +:+ ")" /\
    Price.Source row <> "".
Proof.
  assert (Hok : (SaveScrapedPrice (lib := sample_library) boyolali
                   offline_world).1 = None) by (vm_compute; reflexivity).
  split; [exact Hok|].
  exact (proj1 (saved_price_unit_and_source (lib := sample_library)
                  boyolali offline_world) Hok).
Defined.

(** The number of requests counts the calls: behind the research
    scraper the news scraper makes no request, before it it makes one. *)
Example later_scrapers_make_no_request :
  requests (ScrapeAll {| Scrapers := [live_scraper; research_scraper; news_scraper] |}
              offline_world).2 = 3%nat /\
  requests (ScrapeAll {| Scrapers := [live_scraper; news_scraper; research_scraper] |}
              offline_world).2 = 4%nat.
Proof. split; vm_compute; reflexivity. Qed.

(** ** Rounding to float64 *)

Section Rounding.

Lemma shr_1_repr mrs N D :
  0 < D -> repr mrs N D -> repr (shr_1 mrs) N (2 * D).
Proof.
  intros HD [Hm Hloc]. destruct mrs as [m r s]. cbn [shr_m] in *.
  unfold repr.
  destruct m as [|[p|p|]|p]; try lia;
    destruct r, s; cbn [shr_1 loc_of_shr_record orb at_loc shr_m] in *;
    (split; [lia|]);
    try rewrite (Pos2Z.inj_xI p) in *; try rewrite (Pos2Z.inj_xO p) in *;
    timeout 20 lia.
Qed.

Lemma shr_1_m mrs : shr_m (shr_1 mrs) = Z.div2 (shr_m mrs) \/ shr_m mrs < 0.
Proof.
  destruct mrs as [m r s]. destruct m as [|[p|p|]|p]; cbn; auto. right; lia.
Qed.

Lemma div2_half m : Z.div2 m = m / 2.
Proof. apply Z.div2_div. Qed.

Lemma shr_1_value mrs : 0 <= shr_m mrs -> shr_m (shr_1 mrs) = shr_m mrs / 2.
Proof.
  destruct mrs as [m r s]. cbn [shr_m]. intros Hm.
  destruct m as [|[p|p|]|p]; cbn [shr_1 shr_m]; [reflexivity | | | reflexivity | lia].
  - rewrite (Pos2Z.inj_xI p). apply Z.div_unique with 1; lia.
  - rewrite (Pos2Z.inj_xO p). apply Z.div_unique with 0; lia.
Qed.

(** [k] shifts to the right divide by [2 ^ k] and keep the location. *)
Lemma iter_shr_1_repr p : forall mrs N D,
  0 < D -> repr mrs N D ->
  repr (SpecFloat.iter_pos shr_1 p mrs) N (D * 2 ^ Zpos p) /\
  shr_m (SpecFloat.iter_pos shr_1 p mrs) = shr_m mrs / 2 ^ Zpos p.
Proof.
  induction p as [p IH | p IH |]; intros mrs N D HD Hrepr;
    cbn [SpecFloat.iter_pos].
  - pose proof (shr_1_repr mrs N D HD Hrepr) as H1.
    destruct (IH (shr_1 mrs) N (2 * D) ltac:(lia) H1) as [H2 E2].
    assert (HD2 : 0 < 2 * D * 2 ^ Zpos p) by (apply Z.mul_pos_pos; lia).
    destruct (IH _ N _ HD2 H2) as [H3 E3].
    rewrite (Pos2Z.inj_xI p).
    replace (D * 2 ^ (2 * Z.pos p + 1)) with (2 * D * 2 ^ Z.pos p * 2 ^ Z.pos p)
      by (rewrite Z.pow_add_r, Z.pow_1_r by lia;
          replace (2 * Z.pos p) with (Z.pos p + Z.pos p) by lia;
          rewrite Z.pow_add_r by lia; ring).
    split; [exact H3|].
    rewrite E3, E2, shr_1_value by apply Hrepr.
    rewrite !Z.div_div by lia. f_equal.
    rewrite Z.pow_add_r, Z.pow_1_r by lia.
    replace (2 * Z.pos p) with (Z.pos p + Z.pos p) by lia.
    rewrite Z.pow_add_r by lia. ring.
  - destruct (IH mrs N D HD Hrepr) as [H2 E2].
    assert (HD2 : 0 < D * 2 ^ Zpos p) by (apply Z.mul_pos_pos; lia).
    destruct (IH _ N _ HD2 H2) as [H3 E3].
    rewrite (Pos2Z.inj_xO p).
    replace (2 * Z.pos p) with (Z.pos p + Z.pos p) by lia.
    rewrite Z.pow_add_r, Z.mul_assoc by lia.
    split; [exact H3|].
    rewrite E3, E2, Z.div_div by lia. reflexivity.
  - rewrite Z.pow_1_r, (Z.mul_comm D 2). split.
    + apply shr_1_repr; assumption.
    + apply shr_1_value, Hrepr.
Qed.

(** The number of binary digits. *)
Lemma digits_bounds m :
  0 < m -> 2 ^ (Zdigits2 m - 1) <= m < 2 ^ Zdigits2 m.
Proof.
  destruct m as [|p|p]; try lia. intros _. cbn [Zdigits2].
  rewrite digits2_pos_size.
  pose proof (Pos.size_le p) as Hle. pose proof (Pos.size_gt p) as Hgt.
  apply Pos2Z.pos_le_pos in Hle. apply Pos2Z.pos_lt_pos in Hgt.
  rewrite Pos2Z.inj_pow in Hle, Hgt. rewrite (Pos2Z.inj_xO p) in Hle.
  replace (Z.pos (Pos.size p)) with (Z.pos (Pos.size p) - 1 + 1) in Hle at 1 by lia.
  rewrite Z.pow_add_r, Z.pow_1_r in Hle by lia. lia.
Qed.

Lemma digits_unique m a :
  0 < m -> 2 ^ (a - 1) <= m < 2 ^ a -> Zdigits2 m = a.
Proof.
  intros Hm [Hlo Hhi]. pose proof (digits_bounds m Hm) as [Blo Bhi].
  assert (0 < a).
  { destruct (Z_lt_le_dec 0 a); [done|]. exfalso.
    assert (2 ^ a <= 1); [|lia].
    destruct (Z.eq_dec a 0) as [->|]; [simpl; lia|].
    rewrite Z.pow_neg_r by lia. lia. }
  assert (0 < Zdigits2 m) by (destruct m; simpl in *; lia).
  assert (a - 1 < Zdigits2 m).
  { apply (Z.pow_lt_mono_r_iff 2); lia. }
  assert (Zdigits2 m - 1 < a).
  { apply (Z.pow_lt_mono_r_iff 2); lia. }
  lia.
Qed.

Lemma digits_nonneg m : 0 <= m -> 0 <= Zdigits2 m.
Proof. destruct m; simpl; lia. Qed.

Lemma digits_shift m k :
  0 < m -> 0 <= k < Zdigits2 m -> Zdigits2 (m / 2 ^ k) = Zdigits2 m - k.
Proof.
  intros Hm Hk. pose proof (digits_bounds m Hm) as [Blo Bhi].
  assert (Hp : 0 < 2 ^ k) by (apply Z.pow_pos_nonneg; lia).
  assert (Hlo : 2 ^ (Zdigits2 m - k - 1) <= m / 2 ^ k).
  { apply Z.div_le_lower_bound; [lia|].
    rewrite <- Z.pow_add_r by lia.
    replace (k + (Zdigits2 m - k - 1)) with (Zdigits2 m - 1) by lia. exact Blo. }
  assert (Hhi : m / 2 ^ k < 2 ^ (Zdigits2 m - k)).
  { apply Z.div_lt_upper_bound; [lia|].
    rewrite <- Z.pow_add_r by lia.
    replace (k + (Zdigits2 m - k)) with (Zdigits2 m) by lia. exact Bhi. }
  apply digits_unique; [|split; assumption].
  assert (0 < 2 ^ (Zdigits2 m - k - 1)) by (apply Z.pow_pos_nonneg; lia). lia.
Qed.

Lemma new_location_at q d r N :
  0 < d -> 0 <= r < d -> N = q * d + r -> at_loc q N d (new_location d r).
Proof.
  intros Hd Hr ->. unfold new_location, new_location_even, new_location_odd.
  destruct (Z.even d) eqn:Heven.
  - destruct (Z.eqb_spec r 0) as [->|Hr0]; [cbn; lia|].
    destruct (Z.compare_spec (2 * r) d); cbn [at_loc]; lia.
  - destruct (Z.eqb_spec r 0) as [->|Hr0]; [cbn; lia|].
    assert (Hodd : Z.odd d = true) by (rewrite <- Z.negb_even, Heven; reflexivity).
    apply Z.odd_spec in Hodd as [j ->].
    destruct (Z.compare_spec (2 * r + 1) (2 * j + 1)); cbn [at_loc]; lia.
Qed.

Lemma round_nearest_even_near mrs N D :
  0 < D -> repr mrs N D ->
  let m := round_nearest_even (shr_m mrs) (loc_of_shr_record mrs) in
  (m = shr_m mrs \/ m = shr_m mrs + 1) /\
  - D <= 2 * (m * D - N) <= D.
Proof.
  intros HD [Hm Hloc]. cbv zeta. unfold round_nearest_even.
  destruct (loc_of_shr_record mrs) as [|[| |]]; cbn [at_loc] in Hloc.
  - split; [left; reflexivity | lia].
  - destruct (Z.even (shr_m mrs)); split; auto; lia.
  - split; [left; reflexivity | lia].
  - split; [right; reflexivity | lia].
Qed.

Lemma repr_of_loc q l N D :
  0 <= q -> at_loc q N D l -> repr (shr_record_of_loc q l) N D.
Proof.
  intros Hq Hloc. destruct l as [|[| |]]; split; cbn; assumption.
Qed.

Lemma fexp_eq e : fexp prec emax e = Z.max (e - 53) (-1074).
Proof. reflexivity. Qed.

(** The shift that brings a mantissa to its exponent. *)
Lemma shr_fexp_spec q e l N D :
  0 <= q -> 0 < D -> at_loc q N D l ->
  e <= fexp prec emax (Zdigits2 q + e) ->
  exists k mrs,
    shr_fexp prec emax q e l = (mrs, e + k) /\ 0 <= k /\
    e + k = fexp prec emax (Zdigits2 q + e) /\
    repr mrs N (D * 2 ^ k) /\ shr_m mrs = q / 2 ^ k.
Proof.
  intros Hq HD Hloc Hk. unfold shr_fexp, shr.
  pose proof (repr_of_loc q l N D Hq Hloc) as Hrepr.
  destruct (fexp prec emax (Zdigits2 q + e) - e) as [|p|p] eqn:Ek; try lia.
  - exists 0, (shr_record_of_loc q l).
    rewrite Z.add_0_r, Z.pow_0_r, Z.mul_1_r, Z.div_1_r.
    split_and!; try done; try lia.
    destruct l as [|[| |]]; reflexivity.
  - destruct (iter_shr_1_repr p _ N D HD Hrepr) as [H1 H2].
    exists (Z.pos p), (SpecFloat.iter_pos shr_1 p (shr_record_of_loc q l)).
    split_and!; try done; try lia.
    rewrite H2. destruct l as [|[| |]]; reflexivity.
Qed.

Lemma digits_le_of_lt m a : 0 <= a -> 0 <= m < 2 ^ a -> Zdigits2 m <= a.
Proof.
  intros Ha [Hm Hlt]. destruct (Z.eq_dec m 0) as [->|Hne]; [simpl; lia|].
  pose proof (digits_bounds m ltac:(lia)) as [Blo _].
  destruct (Z_le_gt_dec (Zdigits2 m) a) as [|Hgt]; [done|]. exfalso.
  assert (2 ^ a <= 2 ^ (Zdigits2 m - 1)) by (apply Z.pow_le_mono_r; lia). lia.
Qed.

Lemma binary_round_aux_cases q e l N D :
  0 <= q -> 0 < D -> at_loc q N D l ->
  -1074 <= e -> e <= fexp prec emax (Zdigits2 q + e) ->
  exists m3 K,
    0 <= m3 /\ 0 <= K /\
    binary_round_aux prec emax false q e l
      = match m3 with
        | 0 => S754_zero false
        | Zpos m =>
            if e + K <=? 971 then S754_finite false m (e + K)
            else S754_infinity false
        | Zneg _ => S754_nan
        end /\
    fexp prec emax (Zdigits2 m3 + (e + K)) = e + K /\
    - (D * 2 ^ K) <= 2 * (m3 * (D * 2 ^ K) - N) <= D * 2 ^ K /\
    (m3 = 0 -> K = 0) /\
    (-1074 < e + K -> (2 ^ 54 - 1) * (D * 2 ^ K) <= 4 * N).
Proof.
  intros Hq HD Hloc He Hfe. unfold binary_round_aux.
  destruct (shr_fexp_spec q e l N D Hq HD Hloc Hfe)
    as (k & mrs1 & E1 & Hk & He1 & Hrepr1 & Hm1).
  rewrite E1.
  assert (HD1 : 0 < D * 2 ^ k) by (apply Z.mul_pos_pos; [lia | apply Z.pow_pos_nonneg; lia]).
  destruct (round_nearest_even_near mrs1 N (D * 2 ^ k) HD1 Hrepr1) as [Hm2 Hb2].
  set (m2 := round_nearest_even (shr_m mrs1) (loc_of_shr_record mrs1)) in *.
  set (D1 := D * 2 ^ k) in *.
  assert (Hm1pos : 0 <= shr_m mrs1) by apply Hrepr1.
  assert (Htrunc : shr_m mrs1 * D1 <= N).
  { destruct Hrepr1 as [_ Hat].
    destruct (loc_of_shr_record mrs1) as [|[| |]]; cbn [at_loc] in Hat; lia. }
  rewrite fexp_eq in He1.
  destruct (Z_le_gt_dec (-1074) (Zdigits2 q + e - 53)) as [Hnormal | Hsub].
  - (* normal *)
    assert (Ek : k = Zdigits2 q - 53) by lia.
    assert (Hqpos : 0 < q) by (destruct q; simpl in *; lia).
    assert (Hd1 : Zdigits2 (shr_m mrs1) = 53).
    { rewrite Hm1, digits_shift by lia. lia. }
    assert (Hm1gt : 0 < shr_m mrs1) by (destruct (shr_m mrs1); simpl in *; lia).
    pose proof (digits_bounds _ Hm1gt) as [Blo Bhi]. rewrite Hd1 in Blo, Bhi.
    change (2 ^ (53 - 1)) with 4503599627370496 in Blo.
    change (2 ^ 53) with 9007199254740992 in Bhi.
    assert (Hfe2 : e + k <= fexp prec emax (Zdigits2 m2 + (e + k))).
    { rewrite fexp_eq.
      assert (53 <= Zdigits2 m2); [|lia].
      destruct (Z_le_gt_dec 53 (Zdigits2 m2)) as [|Hlt]; [done|]. exfalso.
      pose proof (digits_bounds m2 ltac:(lia)) as [_ B2].
      assert (2 ^ Zdigits2 m2 <= 2 ^ 52)
        by (apply Z.pow_le_mono_r; [lia | pose proof (digits_nonneg m2); lia]).
      change (2 ^ 52) with 4503599627370496 in *. lia. }
    destruct (shr_fexp_spec m2 (e + k) loc_Exact m2 1 ltac:(lia) ltac:(lia)
                ltac:(cbn; lia) Hfe2)
      as (k2 & mrs2 & E2 & Hk2 & He2 & _ & Hm3).
    rewrite E2. rewrite fexp_eq in He2.
    destruct (Z_lt_le_dec m2 9007199254740992) as [Hlt | Hge].
    + (* the mantissa still has 53 digits *)
      assert (Hd2 : Zdigits2 m2 = 53).
      { apply digits_unique; [lia|].
        change (2 ^ (53 - 1)) with 4503599627370496.
        change (2 ^ 53) with 9007199254740992. lia. }
      assert (k2 = 0) by lia. subst k2.
      rewrite Z.pow_0_r, Z.div_1_r in Hm3. rewrite Hm3, Z.add_0_r.
      exists m2, k. fold D1.
      split_and!; [lia | lia | reflexivity | rewrite fexp_eq; lia | lia | lia | lia |].
      intros _. change (2 ^ 54 - 1) with 18014398509481983.
      assert (4503599627370496 * D1 <= shr_m mrs1 * D1)
        by (apply Z.mul_le_mono_nonneg_r; lia).
      lia.
    + (* the mantissa has become 2^53 *)
      assert (Em2 : m2 = 9007199254740992) by lia.
      assert (Hd2 : Zdigits2 m2 = 54) by (rewrite Em2; reflexivity).
      assert (k2 = 1) by lia. subst k2.
      rewrite Em2 in Hm3. change (9007199254740992 / 2 ^ 1) with 4503599627370496 in Hm3.
      rewrite Hm3. exists 4503599627370496, (k + 1).
      replace (D * 2 ^ (k + 1)) with (2 * D1)
        by (unfold D1; rewrite Z.pow_add_r, Z.pow_1_r by lia; ring).
      rewrite Z.add_assoc.
      split_and!; [lia | lia | reflexivity | rewrite fexp_eq; cbn [Zdigits2 digits2_pos]; lia
                  | lia | lia | lia |].
      intros _. change (2 ^ 54 - 1) with 18014398509481983. lia.
  - (* subnormal *)
    assert (e = -1074 /\ k = 0) as [-> ->] by lia.
    rewrite Z.pow_0_r, Z.div_1_r in Hm1.
    assert (Hq52 : q < 4503599627370496).
    { destruct (Z.eq_dec q 0) as [->|]; [lia|].
      pose proof (digits_bounds q ltac:(lia)) as [_ B].
      assert (2 ^ Zdigits2 q <= 2 ^ 52)
        by (apply Z.pow_le_mono_r; [lia | pose proof (digits_nonneg q); lia]).
      change (2 ^ 52) with 4503599627370496 in *. lia. }
    assert (Hd2 : Zdigits2 m2 <= 53).
    { apply digits_le_of_lt; [lia|]. change (2 ^ 53) with 9007199254740992. lia. }
    assert (Hfe2 : -1074 + 0 <= fexp prec emax (Zdigits2 m2 + (-1074 + 0)))
      by (rewrite fexp_eq; lia).
    destruct (shr_fexp_spec m2 (-1074 + 0) loc_Exact m2 1 ltac:(lia) ltac:(lia)
                ltac:(cbn; lia) Hfe2)
      as (k2 & mrs2 & E2 & Hk2 & He2 & _ & Hm3).
    rewrite E2. rewrite fexp_eq in He2.
    assert (k2 = 0) by lia. subst k2.
    rewrite Z.pow_0_r, Z.div_1_r in Hm3. rewrite Hm3, !Z.add_0_r.
    exists m2, 0. fold D1. rewrite !Z.add_0_r.
    split_and!; [lia | lia | reflexivity | rewrite fexp_eq; lia | lia | lia | lia | lia].
Qed.

(** The division step: the quotient of [n * 2 ^ s] by [d], with the place
    of the remainder, at the exponent [- s]. *)
Lemma SFdiv_core_spec (n d : positive) :
  exists q s l,
    SFdiv_core_binary prec emax (Zpos n) 0 (Zpos d) 0 = (q, - s, l) /\
    0 <= s <= 1074 /\ 0 <= q /\
    at_loc q (Zpos n * 2 ^ s) (Zpos d) l /\
    - s <= fexp prec emax (Zdigits2 q + - s).
Proof.
  unfold SFdiv_core_binary.
  set (d1 := Zdigits2 (Zpos n)). set (d2 := Zdigits2 (Zpos d)).
  pose proof (digits_bounds (Zpos n) ltac:(lia)) as [Nlo Nhi].
  pose proof (digits_bounds (Zpos d) ltac:(lia)) as [Dlo Dhi].
  fold d1 in Nlo, Nhi. fold d2 in Dlo, Dhi.
  assert (Hd1 : 0 < d1) by (unfold d1; simpl; lia).
  assert (Hd2 : 0 < d2) by (unfold d2; simpl; lia).
  rewrite !Z.add_0_r, Z.sub_0_r.
  set (e' := Z.min (fexp prec emax (d1 - d2)) 0).
  assert (He' : e' = Z.min (Z.max (d1 - d2 - 53) (-1074)) 0) by reflexivity.
  set (s := - e').
  assert (Hs : 0 <= s <= 1074) by lia.
  replace (0 - e') with s by lia.
  assert (Em' : match s with
                | 0 => Zpos n
                | Zpos _ => Z.shiftl (Zpos n) s
                | Zneg _ => 0
                end = Zpos n * 2 ^ s).
  { destruct s as [|p|p] eqn:Es; [rewrite Z.pow_0_r; lia | | lia].
    rewrite Z.shiftl_mul_pow2 by lia. reflexivity. }
  rewrite Em'.
  assert (Hpow : 0 < 2 ^ s) by (apply Z.pow_pos_nonneg; lia).
  pose proof (Z_div_mod (Zpos n * 2 ^ s) (Zpos d) ltac:(lia)) as Hdiv.
  destruct (Z.div_eucl (Zpos n * 2 ^ s) (Zpos d)) as [q r].
  destruct Hdiv as [Hq Hr].
  assert (Hq0 : 0 <= q) by nia.
  exists q, s, (new_location (Zpos d) r).
  replace e' with (- s) by lia.
  split_and!; [reflexivity | lia | lia | exact Hq0 | |].
  - apply new_location_at; [lia | exact Hr | lia].
  - rewrite fexp_eq.
    destruct (Z.eq_dec s 1074) as [E|Hne]; [lia|].
    (* the quotient has at least 53 digits *)
    assert (Ht : 52 <= d1 - 1 + s - d2) by lia.
    assert (Hbig : 2 ^ 52 * Zpos d <= Zpos n * 2 ^ s).
    { assert (2 ^ 52 * 2 ^ d2 <= 2 ^ (d1 - 1) * 2 ^ s).
      { rewrite <- !Z.pow_add_r by lia. apply Z.pow_le_mono_r; lia. }
      assert (2 ^ 52 * Zpos d <= 2 ^ 52 * 2 ^ d2)
        by (apply Z.mul_le_mono_nonneg_l; lia).
      assert (2 ^ (d1 - 1) * 2 ^ s <= Zpos n * 2 ^ s)
        by (apply Z.mul_le_mono_nonneg_r; lia).
      lia. }
    assert (Hq52 : 2 ^ 52 <= q).
    { destruct (Z_le_gt_dec (2 ^ 52) q) as [|Hlt]; [done|]. exfalso.
      assert (Zpos d * q <= Zpos d * (2 ^ 52 - 1))
        by (apply Z.mul_le_mono_nonneg_l; lia).
      lia. }
    assert (53 <= Zdigits2 q); [|lia].
    destruct (Z_le_gt_dec 53 (Zdigits2 q)) as [|Hlt]; [done|]. exfalso.
    pose proof (digits_bounds q ltac:(lia)) as [_ B].
    assert (2 ^ Zdigits2 q <= 2 ^ 52)
      by (apply Z.pow_le_mono_r; [lia | pose proof (digits_nonneg q); lia]).
    lia.
Qed.

(** [f64_of_ratio n d] is a float64 in canonical form that lies within
    half a unit in the last place of [n / d]; it is zero only when [n / d]
    is at most [2 ^ -1075], and infinite only when [n / d] is at least
    [2 ^ 1024 - 2 ^ 970]. *)
Lemma f64_of_ratio_cases (n d : positive) :
  match f64_of_ratio n d with
  | S754_zero false => Zpos n * 2 ^ 1075 <= Zpos d
  | S754_finite false m e =>
      bounded prec emax m e = true /\
      exists s K, 0 <= s /\ 0 <= K /\ e = K - s /\
        - (Zpos d * 2 ^ K) <= 2 * (Zpos m * (Zpos d * 2 ^ K) - Zpos n * 2 ^ s)
          <= Zpos d * 2 ^ K
  | S754_infinity false => (2 ^ 1024 - 2 ^ 970) * Zpos d <= Zpos n
  | _ => False
  end.
Proof.
  unfold f64_of_ratio.
  destruct (SFdiv_core_spec n d) as (q & s & l & -> & Hs & Hq & Hloc & Hfe).
  destruct (binary_round_aux_cases q (- s) l (Zpos n * 2 ^ s) (Zpos d)
              Hq ltac:(lia) Hloc ltac:(lia) Hfe)
    as (m3 & K & Hm3 & HK & -> & Hcanon & Hnear & Hzero & Hnormal).
  assert (Hpow : 0 < 2 ^ s) by (apply Z.pow_pos_nonneg; lia).
  assert (HpowK : 0 < 2 ^ K) by (apply Z.pow_pos_nonneg; lia).
  destruct m3 as [|m|m]; [| |lia].
  - specialize (Hzero eq_refl). subst K.
    rewrite fexp_eq in Hcanon. cbn [Zdigits2] in Hcanon.
    assert (s = 1074) by lia. subst s.
    rewrite Z.pow_0_r, Z.mul_1_r in Hnear.
    change (2 ^ 1075) with (2 ^ 1074 * 2). lia.
  - destruct (- s + K <=? 971) eqn:Hle.
    + apply Z.leb_le in Hle. split.
      * unfold bounded, canonical_mantissa. apply andb_true_intro. split.
        -- apply Z.eqb_eq. cbn [Zdigits2] in Hcanon. exact Hcanon.
        -- apply Z.leb_le. unfold emax, prec. lia.
      * exists s, K. split_and!; [lia | lia | lia | lia | lia].
    + apply Z.leb_gt in Hle. specialize (Hnormal ltac:(lia)).
      (* K is at least s + 972 *)
      assert (HK2 : 2 ^ K = 2 ^ (K - s - 972) * (2 ^ 972 * 2 ^ s)).
      { rewrite <- !Z.pow_add_r by lia. f_equal. lia. }
      assert (1 <= 2 ^ (K - s - 972)) by (apply (Z.pow_le_mono_r 2 0); lia).
      assert (Hge : Zpos d * (2 ^ 972 * 2 ^ s) <= Zpos d * 2 ^ K).
      { rewrite HK2. apply Z.mul_le_mono_nonneg_l; [lia|]. nia. }
      assert (H4 : (2 ^ 54 - 1) * (Zpos d * (2 ^ 972 * 2 ^ s)) <= 4 * (Zpos n * 2 ^ s)).
      { etransitivity; [|exact Hnormal].
        apply Z.mul_le_mono_nonneg_l; [simpl; lia | exact Hge]. }
      replace ((2 ^ 54 - 1) * (Zpos d * (2 ^ 972 * 2 ^ s)))
        with (4 * ((2 ^ 1024 - 2 ^ 970) * Zpos d) * 2 ^ s) in H4
        by (change (2 ^ 972) with (4 * 2 ^ 970);
            change (2 ^ 1024) with (2 ^ 54 * 2 ^ 970); ring).
      replace (4 * (Zpos n * 2 ^ s)) with (4 * Zpos n * 2 ^ s) in H4 by ring.
      apply Z.mul_le_mono_pos_r in H4; [lia | exact Hpow].
Qed.

Lemma Qpower_2_diff (K s : Z) (Sp : positive) :
  0 <= K -> 0 <= s -> 2 ^ s = Zpos Sp ->
  (Qpower (2 # 1) (K - s) == 2 ^ K # Sp)%Q.
Proof.
  intros HK Hs HS.
  replace (K - s) with (K + - s) by lia.
  rewrite Qpower_plus by discriminate.
  rewrite Qpower_opp.
  change (2 # 1)%Q with (inject_Z 2).
  rewrite <- !Zpower_Qpower by lia. rewrite HS.
  unfold Qeq, Qmult, Qinv, inject_Z. simpl. lia.
Qed.

(** A finite result is within half a unit in the last place of the
    quotient. *)
Lemma f64_of_ratio_half_ulp (n d m : positive) (e : Z) :
  f64_of_ratio n d = S754_finite false m e ->
  (Qabs (f64_to_Q (S754_finite false m e) - (Zpos n # d))
   <= (1 # 2) * Qpower (2 # 1) e)%Q.
Proof.
  intros Hf. pose proof (f64_of_ratio_cases n d) as Hc. rewrite Hf in Hc.
  destruct Hc as (_ & s & K & Hs & HK & -> & Hlo & Hhi).
  assert (Hpow : 0 < 2 ^ s) by (apply Z.pow_pos_nonneg; lia).
  destruct (2 ^ s) as [|Sp|] eqn:HS; try lia.
  unfold f64_to_Q, cond_Zopp.
  rewrite (Qpower_2_diff K s Sp HK Hs HS).
  assert (HP : 0 < 2 ^ K) by (apply Z.pow_pos_nonneg; lia).
  set (P := 2 ^ K) in *.
  apply Qabs_Qle_condition. split.
  - unfold Qle, Qminus, Qplus, Qmult, Qopp, inject_Z. simpl.
    rewrite ?Pos2Z.inj_mul. nia.
  - unfold Qle, Qminus, Qplus, Qmult, Qopp, inject_Z. simpl.
    rewrite ?Pos2Z.inj_mul. nia.
Qed.

End Rounding.

(** ** What [extractPrice] returns *)

Section ExtractPriceRange.

Lemma f64_of_ratio_sign (n d : positive) :
  f64_of_ratio n d = f64_zero \/
  f64_is_inf (f64_of_ratio n d) = true \/
  exists m e, f64_of_ratio n d = S754_finite false m e /\
              bounded prec emax m e = true.
Proof.
  pose proof (f64_of_ratio_cases n d) as Hc.
  destruct (f64_of_ratio n d) as [[|] | [|] | | [|] m e]; try done.
  - left. reflexivity.
  - right. left. reflexivity.
  - right. right. exists m, e. split; [reflexivity | apply Hc].
Qed.

(** X1: the price that [extractPrice] returns is never negative, never
    infinite and never a NaN, whatever the string: it is 0, with the sign
    plus, or a float64 above zero in canonical form. *)
Theorem extractPrice_zero_or_positive s :
  extractPrice s = f64_zero \/
  exists m e,
    extractPrice s = S754_finite false m e /\
    bounded prec emax m e = true /\
    f64_pos (extractPrice s) = true.
Proof.
  unfold extractPrice, ParseFloat.
  destruct (readFloat (remove_non_numeric s) decimal_init) as [d|];
    [|left; reflexivity].
  destruct (sawdigits d); [|left; reflexivity].
  destruct (mantissa d) as [|n]; [left; reflexivity|].
  destruct (f64_of_ratio_sign n (pow10 (fracdigits d)))
    as [Hz | [Hinf | (m & e & Hf & Hb)]].
  - rewrite Hz. left. reflexivity.
  - rewrite Hinf. left. reflexivity.
  - rewrite Hf. cbn [f64_is_inf]. right. exists m, e.
    split_and!; [reflexivity | exact Hb | reflexivity].
Qed.

Lemma numeric_value_ratio s n :
  numeral (all_digits s) = Npos n ->
  numeric_value s = (Zpos n # pow10 (digits_after_dot s)).
Proof. intros Hn. unfold numeric_value. rewrite Hn. reflexivity. Qed.

(** X2: for a string with at least one digit and at most one dot,
    [extractPrice] rounds the number that the digits and the dot write to
    a nearest float64: a result other than 0 is in canonical form and
    within half a unit in its last place of that number; the result is 0
    only when the number is at most [2 ^ -1075], or at least
    [2 ^ 1024 - 2 ^ 970], where float64 ends. *)
Theorem extractPrice_rounds_to_nearest s :
  (1 <= string_count is_digit s)%nat ->
  (string_count is_dot s <= 1)%nat ->
  match extractPrice s with
  | S754_finite sign m e =>
      sign = false /\ bounded prec emax m e = true /\
      (Qabs (f64_to_Q (extractPrice s) - numeric_value s)
       <= (1 # 2) * Qpower (2 # 1) e)%Q
  | _ =>
      extractPrice s = f64_zero /\
      ((numeric_value s <= 1 # 2 ^ 1075)%Q \/
       (inject_Z (2 ^ 1024 - 2 ^ 970) <= numeric_value s)%Q)
  end.
Proof.
  intros Hdig Hdot. rewrite (extractPrice_well_formed s Hdig Hdot).
  unfold nearest_or_zero.
  destruct (numeral (all_digits s)) as [|n] eqn:Hn.
  - split; [reflexivity|]. left. unfold numeric_value. rewrite Hn.
    unfold Qle. simpl. lia.
  - rewrite (numeric_value_ratio s n Hn).
    set (d := pow10 (digits_after_dot s)).
    pose proof (f64_of_ratio_cases n d) as Hc.
    pose proof (f64_of_ratio_half_ulp n d) as Hulp.
    destruct (f64_of_ratio n d) as [[|] | [|] | | [|] m e]; try done;
      cbn [f64_is_inf].
    + split; [reflexivity|]. left. unfold Qle. cbn [Qnum Qden].
      rewrite Pos2Z.inj_pow. lia.
    + split; [reflexivity|]. right. unfold Qle, inject_Z. cbn [Qnum Qden].
      lia.
    + split_and!; [reflexivity | apply Hc | apply Hulp; reflexivity].
Qed.

End ExtractPriceRange.

Lemma extractPrice_rounds_to_nearest_witness :
  (1 <= string_count is_digit "Rp 150000.50 /kg")%nat /\
  (string_count is_dot "Rp 150000.50 /kg" <= 1)%nat /\
  match extractPrice "Rp 150000.50 /kg" with
  | S754_finite sign m e =>
      sign = false /\ bounded prec emax m e = true /\
      (Qabs (f64_to_Q (extractPrice "Rp 150000.50 /kg")
             - numeric_value "Rp 150000.50 /kg")
       <= (1 # 2) * Qpower (2 # 1) e)%Q
  | _ =>
      extractPrice "Rp 150000.50 /kg" = f64_zero /\
      ((numeric_value "Rp 150000.50 /kg" <= 1 # 2 ^ 1075)%Q \/
       (inject_Z (2 ^ 1024 - 2 ^ 970) <= numeric_value "Rp 150000.50 /kg")%Q)
  end.
Proof.
  assert (Hdig : (1 <= string_count is_digit "Rp 150000.50 /kg")%nat)
    by (vm_compute; lia).
  assert (Hdot : (string_count is_dot "Rp 150000.50 /kg" <= 1)%nat)
    by (vm_compute; lia).
  split; [exact Hdig|]. split; [exact Hdot|].
  exact (extractPrice_rounds_to_nearest "Rp 150000.50 /kg" Hdig Hdot).
Defined.

(** ** Integers as float64 *)

Section Integers.

Lemma iter_xO_shl p n : Pos.iter xO n p = shl n (Pos.to_nat p).
Proof.
  unfold shl. rewrite Pos2Nat.inj_iter.
  induction (Pos.to_nat p) as [|k IH]; simpl; [reflexivity|].
  rewrite IH. reflexivity.
Qed.

(** An integer from 1 to [2 ^ 53 - 1] is a float64: its mantissa is moved
    up to 53 bits and nothing is rounded. *)
Lemma f64_of_Z_small (n : positive) :
  Zpos n < 2 ^ 53 ->
  f64_of_Z (Zpos n)
  = S754_finite false (shl n (Z.to_nat (53 - Zpos (Pos.size n))))
      (Zpos (Pos.size n) - 53).
Proof.
  intros Hn. pose proof (size_below_2_53 n Hn) as Hs.
  unfold f64_of_Z, binary_normalize, binary_round, shl_align.
  rewrite digits2_pos_size.
  set (dn := Zpos (Pos.size n)) in *.
  assert (1 <= dn) by (unfold dn; lia).
  replace (fexp prec emax (dn + 0) - 0) with (dn - 53)
    by (unfold fexp, emin, prec, emax; lia).
  replace (fexp prec emax (dn + 0)) with (dn - 53)
    by (unfold fexp, emin, prec, emax; lia).
  assert (Hmz : exists mz,
            match dn - 53 with
            | Z.neg d => (Pos.iter xO n d, dn - 53)
            | _ => (n, 0)
            end = (mz, dn - 53) /\
            mz = shl n (Z.to_nat (53 - dn))).
  { destruct (dn - 53) as [|p|p] eqn:E; try lia.
    - exists n. replace (53 - dn) with 0 by lia. split; reflexivity.
    - exists (Pos.iter xO n p). split; [reflexivity|].
      rewrite iter_xO_shl. f_equal. lia. }
  destruct Hmz as (mz & -> & Hmz).
  unfold binary_round_aux, shr_fexp. cbn [Zdigits2].
  rewrite digits2_pos_size, Hmz, size_shl. fold dn.
  replace (fexp prec emax (dn + Z.of_nat (Z.to_nat (53 - dn)) + (dn - 53))
           - (dn - 53)) with 0
    by (unfold fexp, emin, prec, emax; lia).
  cbn [shr shr_record_of_loc shr_m loc_of_shr_record round_nearest_even Zdigits2].
  rewrite digits2_pos_size, size_shl. fold dn.
  replace (fexp prec emax (dn + Z.of_nat (Z.to_nat (53 - dn)) + (dn - 53))
           - (dn - 53)) with 0
    by (unfold fexp, emin, prec, emax; lia).
  cbn [shr shr_m shr_record_of_loc].
  destruct (dn - 53 <=? emax - prec) eqn:E; [reflexivity|].
  apply Z.leb_gt in E. unfold emax, prec in E. lia.
Qed.

Lemma f64_of_Z_exact (z : Z) :
  0 < z < 2 ^ 53 ->
  f64_is_nan (f64_of_Z z) = false /\
  f64_pos (f64_of_Z z) = true /\
  (f64_to_Q (f64_of_Z z) == inject_Z z)%Q.
Proof.
  intros [Hz Hlt]. destruct z as [|n|n]; try lia.
  rewrite (f64_of_Z_small n Hlt). split_and!; [reflexivity | reflexivity |].
  rewrite <- (f64_of_ratio_integer n Hlt).
  apply (f64_of_ratio_integer_exact n Hlt).
Qed.

End Integers.

(** ** The live scraper, request by request *)

Section LiveScraper.

Context `{lib : Library}.

Implicit Types (w : World) (s : BAPPEBTIScraper).

Lemma after_fetches_twice t1 r1 l1 t2 r2 l2 w :
  after_fetches t2 r2 l2 (after_fetches t1 r1 l1 w)
  = after_fetches (t1 + t2) (r1 + r2) (l1 ++ l2) w.
Proof.
  unfold after_fetches. cbn [clock ticks net requests map_seed ranges db_fault
                              statements prices next_id logs].
  rewrite <- app_assoc. f_equal; lia.
Qed.

Lemma after_fetches_none w : after_fetches 0 0 [] w = w.
Proof.
  destruct w. unfold after_fetches. cbn. rewrite app_nil_r.
  f_equal; lia.
Qed.

Lemma BAPPEBTI_rows_run s url rows : forall acc w,
  foldM (BAPPEBTI_row s url) acc rows w
  = (acc ++ live_records (BAPPEBTI_GetName s) url (clock w) (ticks w) rows,
     after_fetches
       (length (live_records (BAPPEBTI_GetName s) url (clock w) (ticks w) rows))
       0 [] w).
Proof.
  induction rows as [|cols rows IH]; intros acc w; cbn [foldM live_records].
  - rewrite ret_run, app_nil_r, after_fetches_none. reflexivity.
  - rewrite bind_run, BAPPEBTI_row_run. unfold row_record.
    destruct (length cols <? 4)%nat; cbn [fst snd].
    + apply IH.
    + destruct (f64_pos (extractPrice (TrimSpace (nth 2 cols "")))); cbn [fst snd].
      * rewrite IH. cbn [clock ticks with_ticks]. rewrite <- app_assoc.
        cbn [app length]. f_equal.
        unfold after_fetches, with_ticks; cbn. f_equal; lia.
      * apply IH.
Qed.

Lemma BAPPEBTI_url_run s acc url w :
  let a := net w (requests w) url in
  let recs := live_records (BAPPEBTI_GetName s) url (clock w) (ticks w)
                (table_rows a) in
  BAPPEBTI_url s acc url w
  = (acc ++ recs,
     after_fetches (length recs) 1 (option_list (fetch_log url a)) w).
Proof.
  intros a recs. unfold BAPPEBTI_url. rewrite bind_run.
  cbn [http_Get fst snd]. fold a. unfold recs.
  destruct a as [e | e | rows]; cbn [table_rows live_records fetch_log option_list length].
  - run. rewrite app_nil_r. unfold after_fetches, logged, with_logs, with_requests; cbn.
    f_equal. f_equal; lia.
  - run. rewrite app_nil_r. unfold after_fetches, logged, with_logs, with_requests; cbn.
    f_equal. f_equal; lia.
  - rewrite BAPPEBTI_rows_run. cbn [clock ticks with_requests].
    f_equal. unfold after_fetches, with_requests; cbn.
    rewrite !app_nil_r. f_equal; lia.
Qed.

Lemma live_records_view name url clk rows : forall t,
  record_view <$> live_records name url clk t rows
  = answer_views (url, Document rows).
Proof.
  unfold answer_views. cbn [fst snd table_rows].
  induction rows as [|cols rows IH]; intros t; cbn [live_records omap list_omap];
    [reflexivity|].
  destruct (row_record cols) as [[region price]|]; cbn [fmap list_fmap].
  - rewrite (IH (S t)). reflexivity.
  - apply IH.
Qed.

Lemma live_records_origin name url clk rows : forall t,
  Forall (fun p => ScrapedPrice.Quality p = "Standard" /\
                   ScrapedPrice.Source p = name)
    (live_records name url clk t rows).
Proof.
  induction rows as [|cols rows IH]; intros t; cbn [live_records];
    [constructor|].
  destruct (row_record cols) as [[region price]|]; [|apply IH].
  constructor; [split; reflexivity | apply IH].
Qed.

Lemma live_records_times name url clk rows : forall t,
  ScrapedPrice.ScrapedAt <$> live_records name url clk t rows
  = (fun j => clk (t + j)%nat)
      <$> seq 0 (length (live_records name url clk t rows)).
Proof.
  induction rows as [|cols rows IH]; intros t; cbn [live_records];
    [reflexivity|].
  destruct (row_record cols) as [[region price]|]; [|apply IH].
  cbn [fmap list_fmap length seq]. rewrite Nat.add_0_r. f_equal.
  rewrite IH, <- seq_shift, <- list_fmap_compose.
  apply list_fmap_ext. intros _ j _. cbn. f_equal. lia.
Qed.

Lemma answer_views_failed url a :
  table_rows a = [] -> answer_views (url, a) = [].
Proof. intros Ha. unfold answer_views. cbn [snd]. rewrite Ha. reflexivity. Qed.

(** The loop over the URLs, from the request number [requests w]. *)
Lemma BAPPEBTI_urls_run s urls : forall acc w,
  exists recs lines,
    foldM (BAPPEBTI_url s) acc urls w
    = (acc ++ recs, after_fetches (length recs) (length urls) lines w) /\
    record_view <$> recs
    = imap (fun i url => (url, net w (requests w + i)%nat url)) urls
      ≫= answer_views /\
    lines = omap (fun ua : string * Fetched => fetch_log ua.1 ua.2)
              (imap (fun i url => (url, net w (requests w + i)%nat url)) urls) /\
    Forall (fun p => ScrapedPrice.Quality p = "Standard" /\
                     ScrapedPrice.Source p = BAPPEBTI_GetName s) recs /\
    ScrapedPrice.ScrapedAt <$> recs
    = (fun j => clock w (ticks w + j)%nat) <$> seq 0 (length recs).
Proof.
  induction urls as [|url urls IH]; intros acc w.
  - exists [], []. cbn [foldM]. rewrite ret_run, app_nil_r, after_fetches_none.
    split_and!; try reflexivity. constructor.
  - cbn [foldM]. rewrite bind_run, BAPPEBTI_url_run. cbv zeta. cbn [fst snd].
    set (a := net w (requests w) url).
    set (recs1 := live_records (BAPPEBTI_GetName s) url (clock w) (ticks w)
                    (table_rows a)).
    set (w1 := after_fetches (length recs1) 1 (option_list (fetch_log url a)) w).
    destruct (IH (acc ++ recs1) w1) as (recs2 & lines2 & Hrun & Hview & Hlines & Horigin & Htimes).
    exists (recs1 ++ recs2), (option_list (fetch_log url a) ++ lines2).
    assert (Himap : imap (fun i u => (u, net w1 (requests w1 + i)%nat u)) urls
                    = imap ((fun i u => (u, net w (requests w + i)%nat u)) ∘ S) urls).
    { apply imap_ext. intros i u _. cbn. do 2 f_equal. lia. }
    rewrite Himap in Hview, Hlines.
    split_and!.
    + rewrite Hrun. unfold w1. rewrite after_fetches_twice, <- app_assoc.
      f_equal. rewrite length_app. cbn [length]. f_equal.
    + rewrite fmap_app, Hview. cbn [imap mbind list_bind]. rewrite Nat.add_0_r.
      fold a. f_equal. unfold recs1. rewrite live_records_view.
      unfold answer_views. cbn [fst snd].
      destruct a; reflexivity.
    + cbn [imap omap list_omap fst snd]. rewrite Nat.add_0_r. fold a.
      rewrite Hlines. destruct (fetch_log url a); reflexivity.
    + apply Forall_app. split; [apply live_records_origin | exact Horigin].
    + rewrite fmap_app, length_app, seq_app, fmap_app. f_equal.
      * apply live_records_times.
      * rewrite Htimes. cbn [Nat.add].
        replace (seq (length recs1) (length recs2))
          with (Nat.add (length recs1) <$> seq 0 (length recs2))
          by (rewrite fmap_add_seq; f_equal; lia).
        rewrite <- list_fmap_compose. apply list_fmap_ext. intros _ j _. cbn.
        unfold w1, after_fetches. cbn [clock ticks]. f_equal. lia.
Qed.

Lemma BAPPEBTI_Scrape_world s w :
  requests (BAPPEBTI_Scrape s w).2 = (requests w + 3)%nat /\
  ranges (BAPPEBTI_Scrape s w).2 = ranges w.
Proof.
  rewrite BAPPEBTI_Scrape_run. cbn [snd].
  destruct (BAPPEBTI_urls_run s (BAPPEBTI_urls s) [] w) as (recs & lines & Hrun & _).
  rewrite Hrun. split; reflexivity.
Qed.

(** X3: the live scraper sends its three requests one after the other,
    whatever the answers, and never fails: a fetch or a parse that fails
    leaves one line in the log and costs the rows of that URL only.  Its
    batch lists, URL by URL and row by row in the order of the documents,
    one record for each row of at least four cells whose third cell holds
    a price above zero: the region is the second cell without the blanks
    around it, the price is what [extractPrice] reads, and the clock is
    read once for each record. *)
Theorem BAPPEBTI_Scrape_batch s w :
  let out := BAPPEBTI_Scrape s w in
  out.1.2 = None /\
  record_view <$> out.1.1 = live_answers s w ≫= answer_views /\
  Forall (fun p => ScrapedPrice.Quality p = "Standard" /\
                   ScrapedPrice.Source p = "BAPPEBTI Info Harga") out.1.1 /\
  ScrapedPrice.ScrapedAt <$> out.1.1
    = (fun j => clock w (ticks w + j)%nat) <$> seq 0 (length out.1.1) /\
  requests out.2 = (requests w + 3)%nat /\
  ticks out.2 = (ticks w + length out.1.1)%nat /\
  logs out.2
    = logs w ++ omap (fun ua : string * Fetched => fetch_log ua.1 ua.2)
                  (live_answers s w) /\
  same_store w out.2.
Proof.
  intros out. unfold out. rewrite BAPPEBTI_Scrape_run. cbn [fst snd].
  destruct (BAPPEBTI_urls_run s (BAPPEBTI_urls s) [] w)
    as (recs & lines & Hrun & Hview & Hlines & Horigin & Htimes).
  rewrite Hrun. cbn [fst snd app after_fetches requests ticks logs].
  unfold live_answers. rewrite <- Hlines.
  split_and!; done.
Qed.

End LiveScraper.

(** ** The fallback *)

Section Fallback.

Context `{lib : Library}.

Implicit Types (w : World).

Lemma NewsPortal_Scrape_run (s : NewsPortalScraper) w :
  (NewsPortal_Scrape s w).1.1 = [] /\
  (NewsPortal_Scrape s w).2 = with_requests (S (requests w)) w.
Proof.
  unfold NewsPortal_Scrape. cbv zeta. rewrite bind_run. cbn [http_Get fst snd].
  destruct (net w (requests w) _); split; reflexivity.
Qed.

Lemma news_exhausted (l : list NewsPortalScraper) : forall w,
  exists w2,
    exhausted ((fun s => AsScraper s) <$> l) w w2 /\
    requests w2 = (requests w + length l)%nat /\
    same_store w w2 /\ ticks w2 = ticks w.
Proof.
  induction l as [|s l IH]; intros w.
  - exists w. split_and!; [constructor | cbn; lia | repeat split | reflexivity].
  - set (sc := AsScraper s).
    destruct (NewsPortal_Scrape_run s (logged (LogTrying (name_of sc)) w))
      as [Hnone Hworld].
    destruct (NewsPortal_Scrape s (logged (LogTrying (name_of sc)) w))
      as [[prices err] w1] eqn:Hsc.
    cbn [fst snd] in Hnone, Hworld. subst prices.
    destruct err as [e|].
    + destruct (IH (logged (LogScraperFailed (name_of sc) e) w1))
        as (w2 & Hex & Hreq & Hstore & Hticks).
      exists w2. split_and!.
      * cbn [fmap list_fmap]. eapply exhausted_error; [exact Hsc | exact Hex].
      * rewrite Hreq, Hworld. cbn. lia.
      * rewrite Hworld in Hstore. exact Hstore.
      * rewrite Hticks, Hworld. reflexivity.
    + destruct (IH w1) as (w2 & Hex & Hreq & Hstore & Hticks).
      exists w2. split_and!.
      * cbn [fmap list_fmap]. eapply exhausted_empty; [exact Hsc | exact Hex].
      * rewrite Hreq, Hworld. cbn. lia.
      * rewrite Hworld in Hstore. exact Hstore.
      * rewrite Hticks, Hworld. reflexivity.
Qed.

(** X4: [NewsPortalScraper.Scrape] sends its request and returns no record,
    whatever the answer; so a manager whose scrapers are all of this kind
    ends every pass with the error "all scrapers failed", after one
    request for each of them, and leaves the clock and the data base as
    they are. *)
Theorem news_scrapers_never_deliver (l : list NewsPortalScraper) w :
  let out := ScrapeAll {| Scrapers := (fun s => AsScraper s) <$> l |} w in
  (forall s w0, (NewsPortal_Scrape s w0).1.1 = []) /\
  out.1 = ([], Some ErrAllFailed) /\
  requests out.2 = (requests w + length l)%nat /\
  ticks out.2 = ticks w /\
  same_store w out.2.
Proof.
  intros out. split; [intros s w0; apply NewsPortal_Scrape_run|].
  unfold out. rewrite ScrapeAll_run. cbv zeta. cbn [Scrapers].
  destruct (news_exhausted l w) as (w2 & Hex & Hreq & Hstore & Hticks).
  pose proof (ScrapeAll_loop_skip _ _ _ Hex [] []) as Hskip.
  rewrite app_nil_r in Hskip. rewrite Hskip. cbn [ScrapeAll_loop fst snd].
  rewrite ret_run. cbn [fst snd length Nat.eqb]. split_and!; done.
Qed.

Lemma ScrapeAll_manager_ok w : (ScrapeAll NewScraperManager w).1.2 = None.
Proof.
  rewrite ScrapeAll_manager_run. cbv zeta.
  destruct (BAPPEBTI_Scrape NewBAPPEBTIScraper _).1.1; reflexivity.
Qed.

Lemma AutoFetch_never_fails w : (AutoFetchPricesFromScraper w).1 = None.
Proof. rewrite AutoFetch_run, ScrapeAll_manager_ok. reflexivity. Qed.

(** X5: with the manager of the program a pass never fails: when the live
    scraper returns records they are the batch, and otherwise the batch
    is the five records of the research scraper; the two are never mixed.
    So [AutoFetchPricesFromScraper] always returns nil, and the preview
    never reports "all scrapers failed". *)
Theorem default_pass_never_fails w :
  let live := BAPPEBTI_Scrape NewBAPPEBTIScraper
                (logged (LogTrying "BAPPEBTI Info Harga") w) in
  let research := Mock_Scrape NewMockScraperWithRealData
                    (logged (LogTrying "Real Data Research + Market Simulation")
                       live.2) in
  let pass := ScrapeAll NewScraperManager w in
  pass.1.2 = None /\
  pass.1.1 <> [] /\
  ((live.1.1 <> [] /\ pass.1.1 = live.1.1 /\ ranges pass.2 = ranges w) \/
   (live.1.1 = [] /\ pass.1.1 = research.1.1 /\ length pass.1.1 = 5%nat /\
    ranges pass.2 = S (ranges w))) /\
  (AutoFetchPricesFromScraper w).1 = None /\
  (forall region,
     (GetScrapedPriceJSON region w).1.2 = None \/
     (GetScrapedPriceJSON region w).1.2 = Some ErrRegionNotFound).
Proof.
  intros live research pass.
  pose proof (ScrapeAll_manager_run w) as Hrun. cbv zeta in Hrun.
  fold live in Hrun. fold research in Hrun. fold pass in Hrun.
  pose proof (Mock_Scrape_length
                (logged (LogTrying "Real Data Research + Market Simulation") live.2))
    as Hlen. fold research in Hlen.
  assert (Hrr : ranges research.2 = S (ranges live.2))
    by (unfold research; rewrite Mock_Scrape_run; reflexivity).
  assert (Hranges : ranges live.2 = ranges w)
    by (unfold live;
        exact (proj2 (BAPPEBTI_Scrape_world NewBAPPEBTIScraper
                        (logged (LogTrying "BAPPEBTI Info Harga") w)))).
  pose proof (AutoFetch_run w) as Hauto. fold pass in Hauto.
  assert (Hprev : forall region,
            (GetScrapedPriceJSON region w).1
            = match pass.1.2 with
              | Some e => ("", Some e)
              | None =>
                  match find_region region pass.1.1 with
                  | Some price => (Marshal_ScrapedPrice price, None)
                  | None => ("", Some ErrRegionNotFound)
                  end
              end).
  { intros region. rewrite GetScrapedPriceJSON_run. reflexivity. }
  clearbody pass research live.
  destruct live as [[lprices lerr] lw]. destruct research as [[rprices rerr] rw].
  cbn [fst snd] in *.
  assert (Hpass : pass.1.2 = None /\ pass.1.1 <> [] /\
    ((lprices <> [] /\ pass.1.1 = lprices /\ ranges pass.2 = ranges w) \/
     (lprices = [] /\ pass.1.1 = rprices /\ length pass.1.1 = 5%nat /\
      ranges pass.2 = S (ranges w)))).
  { rewrite Hrun. destruct lprices as [|p ps]; cbn [fst snd].
    - split_and!; [reflexivity | | right].
      + intros Hnil. rewrite Hnil in Hlen. discriminate.
      + split_and!; [reflexivity | reflexivity | exact Hlen |].
        cbn [ranges logged with_logs]. rewrite Hrr, Hranges. reflexivity.
    - split_and!; [reflexivity | discriminate | left].
      split_and!; [discriminate | reflexivity | exact Hranges]. }
  destruct Hpass as (Hok & Hne & Hcases).
  split_and!; [exact Hok | exact Hne | exact Hcases | |].
  - rewrite Hauto, Hok. reflexivity.
  - intros region. rewrite Hprev, Hok.
    destruct (find_region region pass.1.1); [left | right]; reflexivity.
Qed.

(** X6: when the live scraper returns no record, the preview of each of the
    five regions of the research data succeeds, in whatever case the
    name of the region is written as long as [EqualFold] matches it: the
    answer is the encoding of a record of the research scraper for that
    region.  The preview has then made the three requests of the live
    scraper, and has left the data base as it is. *)
Theorem preview_finds_research_regions region w :
  (forall a, EqualFold a a = true) ->
  (BAPPEBTI_Scrape NewBAPPEBTIScraper
     (logged (LogTrying "BAPPEBTI Info Harga") w)).1.1 = [] ->
  region ∈ research_entries.*1 ->
  let preview := GetScrapedPriceJSON region w in
  (exists p,
     preview.1 = (Marshal_ScrapedPrice p, None) /\
     EqualFold (ScrapedPrice.Region p) region = true /\
     Contains (ScrapedPrice.Source p) "Last checked:" = true /\
     ScrapedPrice.SourceURL p = "Manual Research + Market Data") /\
  requests preview.2 = (requests w + 3)%nat /\
  same_store w preview.2.
Proof.
  intros Hrefl Hlive Hregion preview. unfold preview.
  rewrite GetScrapedPriceJSON_run. cbn [fst snd].
  pose proof (ScrapeAll_manager_store w) as Hstore.
  pose proof (ScrapeAll_manager_run w) as Hrun. cbv zeta in Hrun.
  destruct (BAPPEBTI_Scrape_world NewBAPPEBTIScraper
              (logged (LogTrying "BAPPEBTI Info Harga") w)) as [Hreq _].
  rewrite Hlive in Hrun.
  set (w1 := logged (LogTrying "Real Data Research + Market Simulation")
               (BAPPEBTI_Scrape NewBAPPEBTIScraper
                  (logged (LogTrying "BAPPEBTI Info Harga") w)).2) in *.
  rewrite Hrun. cbn [fst snd].
  split_and!.
  - pose proof (find_region_spec region (Mock_Scrape NewMockScraperWithRealData w1).1.1)
      as Hfind.
    destruct (find_region region (Mock_Scrape NewMockScraperWithRealData w1).1.1)
      as [p|].
    + destruct Hfind as (pre & post & Hsplit & Hp & _).
      assert (Hin : p ∈ (Mock_Scrape NewMockScraperWithRealData w1).1.1)
        by (rewrite Hsplit; apply elem_of_app; right; left).
      destruct (Mock_Scrape_elem w1 p Hin) as (rg & research & n & Hentry & _ & ->).
      exists (ScrapedPrice.mk rg
                (f64_mul (PriceResearch.BasePrice research)
                   (dailyFactor (variation_at (clock w1 n))))
                "Standard" (last_checked_label research) (clock w1 (S n))
                "Manual Research + Market Data").
      split_and!; [reflexivity | exact Hp | | reflexivity].
      apply (research_label_contains (rg, research) Hentry).
    + exfalso.
      assert (Hsome : region ∈ ScrapedPrice.Region
                        <$> (Mock_Scrape NewMockScraperWithRealData w1).1.1)
        by (rewrite Mock_Scrape_regions; exact Hregion).
      apply list_elem_of_fmap in Hsome as (q & -> & Hq).
      pose proof (proj1 (Forall_forall _ _) Hfind q Hq) as Hfalse.
      cbn beta in Hfalse. rewrite Hrefl in Hfalse. discriminate.
  - rewrite Mock_Scrape_run. cbn [snd requests logged with_logs with_ticks with_ranges].
    unfold w1. cbn [requests logged with_logs]. rewrite Hreq. reflexivity.
  - rewrite Hrun in Hstore. cbn [snd] in Hstore. exact Hstore.
Qed.

End Fallback.

Lemma ascii_EqualFold_refl a : ascii_EqualFold a a = true.
Proof.
  induction a as [|c a IH]; [reflexivity|]. cbn [ascii_EqualFold].
  rewrite IH, Ascii.eqb_refl. reflexivity.
Qed.

Lemma preview_finds_research_regions_witness :
  (forall a, EqualFold (Library := sample_library) a a = true) /\
  (BAPPEBTI_Scrape (lib := sample_library) NewBAPPEBTIScraper
     (logged (LogTrying "BAPPEBTI Info Harga") offline_world)).1.1 = [] /\
  "Temanggung" ∈ research_entries.*1 /\
  exists p,
    (GetScrapedPriceJSON (lib := sample_library) "Temanggung" offline_world).1
      = (Marshal_ScrapedPrice (Library := sample_library) p, None) /\
    EqualFold (Library := sample_library) (ScrapedPrice.Region p) "Temanggung" = true /\
    Contains (ScrapedPrice.Source p) "Last checked:" = true /\
    ScrapedPrice.SourceURL p = "Manual Research + Market Data".
Proof.
  assert (H1 : forall a, EqualFold (Library := sample_library) a a = true)
    by exact ascii_EqualFold_refl.
  assert (H2 : (BAPPEBTI_Scrape (lib := sample_library) NewBAPPEBTIScraper
                  (logged (LogTrying "BAPPEBTI Info Harga") offline_world)).1.1 = [])
    by (vm_compute; reflexivity).
  assert (H3 : "Temanggung" ∈ research_entries.*1)
    by (apply (list_elem_of_lookup_2 _ 1); reflexivity).
  split; [exact H1|]. split; [exact H2|]. split; [exact H3|].
  exact (proj1 (preview_finds_research_regions (lib := sample_library)
                  "Temanggung" offline_world H1 H2 H3)).
Defined.

(** ** A saved price read back *)

Section ReadBack.

Context `{lib : Library}.

Implicit Types (w : World) (p q row : Price.t) (rows : list Price.t).

Lemma GetLatestPriceJSON_run region w :
  (GetLatestPriceJSON region w).1
  = match db_fault w (statements w) with
    | Some e => ("", Some (no_price_data region e))
    | None =>
        match order_by_created_at_desc
                (filter (fun p => Price.Region p = region) (prices w)) with
        | [] => ("", Some (no_price_data region ErrNoRows))
        | p :: _ => marshalled p
        end
    end.
Proof.
  unfold GetLatestPriceJSON. rewrite bind_run, DB_QueryRow_latest_run.
  cbn [fst snd].
  destruct (db_fault w (statements w)) as [e|]; [reflexivity|].
  destruct (order_by_created_at_desc _) as [|p sorted]; [reflexivity|].
  unfold marshalled. destruct (Marshal_Price p) as [jsonData [e|]]; reflexivity.
Qed.

(** The head of the sorted rows when a row is added at the end of the
    table. *)
Lemma order_by_head_snoc rows row :
  match order_by_created_at_desc (rows ++ [row]) with
  | [] => False
  | p :: _ =>
      ((forall q, q ∈ rows ->
          String.ltb (Price.CreatedAt q) (Price.CreatedAt row) = true) ->
       p = row) /\
      ((exists q, q ∈ rows /\
          String.ltb (Price.CreatedAt q) (Price.CreatedAt row) = false) ->
       p ∈ rows)
  end.
Proof.
  pose proof (order_by_head (rows ++ [row])) as Hhead.
  destruct (order_by_created_at_desc (rows ++ [row])) as [|p sorted].
  - destruct rows; discriminate.
  - destruct Hhead as [Hmax (pre & post & Hsplit & Hpre)]. split.
    + intros Hall.
      assert (Hp : p ∈ rows ++ [row])
        by (rewrite Hsplit; apply elem_of_app; right; left).
      apply elem_of_app in Hp as [Hp | Hp].
      * exfalso. apply (proj1 (ltb_not_le _ _) (Hall p Hp)).
        apply Hmax. apply elem_of_app. right. left.
      * apply list_elem_of_singleton in Hp. exact Hp.
    + intros (q & Hq & Hge).
      destruct post as [|x post _] using rev_ind.
      * apply app_inj_tail in Hsplit as [-> ->].
        exfalso. apply (Hpre q Hq).
        destruct (decide (String.le (Price.CreatedAt p) (Price.CreatedAt q)))
          as [|Hn]; [done|].
        apply ltb_not_le in Hn. congruence.
      * change (p :: post ++ [x]) with ((p :: post) ++ [x]) in Hsplit.
        rewrite app_assoc in Hsplit.
        apply app_inj_tail in Hsplit as [-> _].
        apply elem_of_app. right. left.
Qed.

(** X7: after [SaveScrapedPrice] has stored a record, the latest price of its
    region is the new row when every row that the region had is older by
    its [created_at], the text of the second in which it was stored; when
    a row of the region bears the same second or a later one, that is
    when it was stored within the same second, the new row is not the
    latest: an older row of the region is returned. *)
Theorem saved_price_read_back data w :
  (SaveScrapedPrice data w).1 = None ->
  db_fault w (S (statements w)) = None ->
  let region := ScrapedPrice.Region data in
  let read := GetLatestPriceJSON region (SaveScrapedPrice data w).2 in
  exists row,
    prices (SaveScrapedPrice data w).2 = prices w ++ [row] /\
    Price.ID row = next_id w /\
    stored_as data row /\
    Price.CreatedAt row = sqlite_datetime (clock w (ticks w)) /\
    ((forall q, q ∈ prices w -> Price.Region q = region ->
        String.ltb (Price.CreatedAt q) (Price.CreatedAt row) = true) ->
     read.1 = marshalled row) /\
    ((exists q, q ∈ prices w /\ Price.Region q = region /\
        String.ltb (Price.CreatedAt q) (Price.CreatedAt row) = false) ->
     exists old,
       old ∈ prices w /\ Price.Region old = region /\ read.1 = marshalled old).
Proof.
  intros Hok Hfault region read. unfold read.
  rewrite GetLatestPriceJSON_run.
  rewrite SaveScrapedPrice_run in *.
  destruct (insert_outcome w 0 data) as [e|]; [discriminate|].
  cbn [snd db_fault statements prices with_prices with_ticks with_statements].
  rewrite Hfault.
  set (row := Price.mk (next_id w) (ScrapedPrice.Region data)
                (ScrapedPrice.Price data) "kg"
                (ScrapedPrice.Source data +:+ " (Scraped: "
                 +:+ ScrapedPrice.Quality data +:+ ")")
                (Format_datetime (ScrapedPrice.ScrapedAt data))
                (sqlite_datetime (clock w (ticks w)))).
  exists row.
  rewrite filter_app, filter_cons_True, filter_nil by reflexivity.
  pose proof (order_by_head_snoc
                (filter (fun p => Price.Region p = region) (prices w)) row)
    as Hhead.
  destruct (order_by_created_at_desc _) as [|p sorted]; [done|].
  destruct Hhead as [Hnew Hold].
  split_and!; [reflexivity | reflexivity | repeat split | reflexivity | |].
  - intros Hall. rewrite Hnew; [reflexivity|].
    intros q Hq. apply list_elem_of_filter in Hq as [Hr Hq]. apply Hall; done.
  - intros (q & Hq & Hr & Hge). exists p.
    assert (Hp : p ∈ filter (fun p => Price.Region p = region) (prices w)).
    { apply Hold. exists q. split; [|exact Hge]. apply list_elem_of_filter. done. }
    apply list_elem_of_filter in Hp as [Hpr Hp]. done.
Qed.

End ReadBack.

Lemma saved_price_read_back_witness :
  (SaveScrapedPrice (lib := sample_library) boyolali offline_world).1 = None /\
  db_fault offline_world (S (statements offline_world)) = None /\
  exists row,
    prices (SaveScrapedPrice (lib := sample_library) boyolali offline_world).2
      = prices offline_world ++ [row] /\
    Price.ID row = next_id offline_world /\
    stored_as (lib := sample_library) boyolali row /\
    Price.CreatedAt row
      = sqlite_datetime (Library := sample_library)
          (clock offline_world (ticks offline_world)) /\
    ((forall q, q ∈ prices offline_world ->
        Price.Region q = ScrapedPrice.Region boyolali ->
        String.ltb (Price.CreatedAt q) (Price.CreatedAt row) = true) ->
     (GetLatestPriceJSON (lib := sample_library) (ScrapedPrice.Region boyolali)
        (SaveScrapedPrice (lib := sample_library) boyolali offline_world).2).1
     = marshalled (lib := sample_library) row) /\
    ((exists q, q ∈ prices offline_world /\
        Price.Region q = ScrapedPrice.Region boyolali /\
        String.ltb (Price.CreatedAt q) (Price.CreatedAt row) = false) ->
     exists old,
       old ∈ prices offline_world /\
       Price.Region old = ScrapedPrice.Region boyolali /\
       (GetLatestPriceJSON (lib := sample_library) (ScrapedPrice.Region boyolali)
          (SaveScrapedPrice (lib := sample_library) boyolali offline_world).2).1
       = marshalled (lib := sample_library) old).
Proof.
  assert (H1 : (SaveScrapedPrice (lib := sample_library) boyolali
                  offline_world).1 = None) by (vm_compute; reflexivity).
  assert (H2 : db_fault offline_world (S (statements offline_world)) = None)
    by reflexivity.
  split; [exact H1|]. split; [exact H2|].
  exact (saved_price_read_back (lib := sample_library) boyolali offline_world
           H1 H2).
Defined.

(** ** The server *)

Section ServerRuns.

Context `{lib : Library} `{codec : Codec}.

Implicit Types (s : Server) (w : World).

Lemma hbind_run {A B} (m : H A) (k : A -> H B) s :
  (m ≫= k) s = k (m s).1 (m s).2.
Proof. unfold mbind, H_bind. destruct (m s); reflexivity. Qed.

Lemma hret_run {A} (a : A) s : (mret a : H A) s = (a, s).
Proof. reflexivity. Qed.

Lemma lift_run {A} (m : M A) s :
  lift m s = ((m (world s)).1, with_world (m (world s)).2 s).
Proof. unfold lift. destruct (m (world s)); reflexivity. Qed.

Lemma accepted_before_fault_le fault n : forall i,
  (accepted_before_fault fault i n <= n)%nat.
Proof.
  induction n as [|n IH]; intros i; cbn [accepted_before_fault]; [lia|].
  destruct (fault i); [lia|]. specialize (IH (S i)). lia.
Qed.

(** The loop of [AutoFetchPrices] over any list of regions. *)
Lemma AutoFetchPrices_loop_run source regions : forall s,
  let out := AutoFetchPrices_loop source regions s in
  let k := accepted_before_fault (db_fault (world s)) (statements (world s))
             (length regions) in
  (exists added,
     prices (world out.2) = prices (world s) ++ added /\
     Price.Region <$> added = take k regions /\
     Forall (fun row =>
               Price.Unit row = "per kg" /\ Price.Source row = source /\
               exists z : Z,
                 5000 <= z < 8000 /\ Price.Price row = f64_of_Z z /\
                 (f64_to_Q (Price.Price row) == inject_Z z)%Q) added) /\
  out.1 = (if (k =? length regions)%nat then None
           else db_fault (world s) (statements (world s) + k)) /\
  statements (world out.2)
    = (statements (world s) + Nat.min (length regions) (S k))%nat /\
  draws out.2 = (draws s + Nat.min (length regions) (S k))%nat /\
  db_fault (world out.2) = db_fault (world s) /\
  requests (world out.2) = requests (world s).
Proof.
  induction regions as [|region rest IH]; intros s; cbv zeta.
  - cbn [AutoFetchPrices_loop length accepted_before_fault]. rewrite hret_run.
    cbn [fst snd Nat.eqb Nat.min]. split_and!; try reflexivity; try lia.
    exists []. rewrite app_nil_r. split_and!; [reflexivity | reflexivity | constructor].
  - cbn [AutoFetchPrices_loop length accepted_before_fault].
    rewrite hbind_run. cbn [rand_Intn fst snd].
    set (n := rand_source s (draws s) mod 3000).
    assert (Hn : 0 <= n < 3000) by (apply Z.mod_pos_bound; lia).
    rewrite hbind_run, lift_run. cbn [time_Now fst snd world with_world].
    rewrite hbind_run, lift_run, DB_Exec_insert_run.
    cbn [world with_world db_fault statements with_ticks].
    destruct (db_fault (world s) (statements (world s))) as [e|] eqn:Hfault.
    + cbn [fst snd]. rewrite hbind_run. cbn [server_log fst snd].
      rewrite hret_run. cbn [fst snd world with_world prices statements draws
                             db_fault requests with_statements with_ticks].
      rewrite Nat.add_0_r, Hfault.
      split_and!; try reflexivity; try lia.
      exists []. rewrite app_nil_r. split_and!; [reflexivity | reflexivity | constructor].
    + destruct (f64_of_Z_exact (5000 + n) ltac:(change (2 ^ 53) with 9007199254740992; lia))
        as (Hnan & _ & Hexact).
      rewrite Hnan. cbn [fst snd]. rewrite hbind_run. cbn [server_log fst snd].
      match goal with |- context [AutoFetchPrices_loop source rest ?s1] =>
        set (s1' := s1) end.
      specialize (IH s1'). cbv zeta in IH.
      assert (Hw1 : db_fault (world s1') = db_fault (world s) /\
                    statements (world s1') = S (statements (world s)) /\
                    draws s1' = S (draws s) /\
                    requests (world s1') = requests (world s) /\
                    prices (world s1')
                    = prices (world s)
                      ++ [Price.mk (next_id (world s)) region (f64_of_Z (5000 + n))
                            "per kg" source
                            (Format_datetime (clock (world s) (ticks (world s))))
                            (sqlite_datetime (clock (world s) (S (ticks (world s)))))])
        by (repeat split).
      destruct Hw1 as (Hf1 & Hs1 & Hd1 & Hr1 & Hp1).
      rewrite Hf1, Hs1, Hd1, Hr1, Hp1 in IH.
      set (k := accepted_before_fault (db_fault (world s))
                  (S (statements (world s))) (length rest)) in *.
      destruct IH as ((added & Hadded & Hregions & Hrows) & Hres & Hst & Hdr & Hfl & Hrq).
      split_and!.
      * eexists (_ :: added). rewrite Hadded, <- app_assoc. cbn [app].
        split_and!; [reflexivity | cbn [fmap list_fmap take]; rewrite Hregions; reflexivity |].
        constructor; [|exact Hrows].
        split_and!; [reflexivity | reflexivity |].
        exists (5000 + n). split_and!; [lia | lia | reflexivity | exact Hexact].
      * rewrite Hres. cbn [Nat.eqb].
        replace (statements (world s) + S k)%nat
          with (S (statements (world s)) + k)%nat by lia. reflexivity.
      * rewrite Hst. pose proof (accepted_before_fault_le (db_fault (world s)) (length rest) (S (statements (world s)))) as Hle. fold k in Hle. lia.
      * rewrite Hdr. pose proof (accepted_before_fault_le (db_fault (world s)) (length rest) (S (statements (world s)))) as Hle. fold k in Hle. lia.
      * exact Hfl.
      * exact Hrq.
Qed.

End ServerRuns.

Section Middleware.

Context `{lib : Library} `{codec : Codec}.

Implicit Types (s : Server) (w : ResponseWriter) (r : HttpRequest)
  (next : HandlerFunc).

Lemma accepted_before_fault_spec fault n : forall i,
  let k := accepted_before_fault fault i n in
  (forall j, (j < k)%nat -> fault (i + j)%nat = None) /\
  ((k < n)%nat -> exists e, fault (i + k)%nat = Some e).
Proof.
  induction n as [|n IH]; intros i; cbn [accepted_before_fault]; cbv zeta.
  - split; [intros j Hj; lia | lia].
  - destruct (fault i) as [e|] eqn:Hi.
    + split; [intros j Hj; lia|]. intros _. exists e.
      rewrite Nat.add_0_r. exact Hi.
    + destruct (IH (S i)) as [Hbefore Hat]. split.
      * intros [|j] Hj; [rewrite Nat.add_0_r; exact Hi|].
        replace (i + S j)%nat with (S i + j)%nat by lia. apply Hbefore. lia.
      * intros Hk.
        replace (i + S (accepted_before_fault fault (S i) n))%nat
          with (S i + accepted_before_fault fault (S i) n)%nat by lia.
        apply Hat. lia.
Qed.

(** X8: [AutoFetchPrices] inserts one row for each of its four regions, in
    their order, and stops at the first insert that the data base fails:
    it then returns that error, and the rows inserted before it stay in
    the table.  Every row it stores is a whole price from 5000 to 7999
    [per kg] from [Market Data API]; one number is drawn for each insert
    sent. *)
Theorem AutoFetchPrices_stops_at_first_failure s :
  let out := AutoFetchPrices s in
  let k := accepted_before_fault (db_fault (world s)) (statements (world s)) 4 in
  (exists added,
     prices (world out.2) = prices (world s) ++ added /\
     Price.Region <$> added = take k ["Jember"; "Malang"; "Surabaya"; "Bondowoso"] /\
     Forall simulated_row added) /\
  (out.1 = None <-> k = 4%nat) /\
  ((k < 4)%nat ->
   exists e, out.1 = Some e /\
             db_fault (world s) (statements (world s) + k)%nat = Some e) /\
  statements (world out.2) = (statements (world s) + Nat.min 4 (S k))%nat /\
  draws out.2 = (draws s + Nat.min 4 (S k))%nat.
Proof.
  intros out k.
  pose proof (AutoFetchPrices_loop_run "Market Data API"
                ["Jember"; "Malang"; "Surabaya"; "Bondowoso"] s) as Hloop.
  cbv zeta in Hloop. cbn [length] in Hloop. fold k in Hloop.
  change (AutoFetchPrices_loop "Market Data API"
            ["Jember"; "Malang"; "Surabaya"; "Bondowoso"] s) with out in Hloop.
  destruct Hloop as (Hadded & Hres & Hst & Hdr & _ & _).
  pose proof (accepted_before_fault_le (db_fault (world s)) 4 (statements (world s)))
    as Hle. fold k in Hle.
  destruct (accepted_before_fault_spec (db_fault (world s)) 4 (statements (world s)))
    as [_ Hat]. fold k in Hat.
  split_and!; [exact Hadded | | | exact Hst | exact Hdr].
  - rewrite Hres. destruct (Nat.eqb_spec k 4) as [Hk|Hk]; [done|].
    destruct (Hat ltac:(lia)) as [e He]. rewrite He. split; [done | lia].
  - intros Hk. destruct (Hat Hk) as [e He]. exists e. split; [|exact He].
    rewrite Hres. destruct (Nat.eqb_spec k 4); [lia | exact He].
Qed.

(** *** The layers of a handler *)

Lemma http_Error_answer w message code :
  Answer (http_Error w message code)
  = {| Status := match sent w with Some (c, _) => c | None => code end;
       Body := written w +:+ message +:+ newline |}.
Proof.
  destruct w as [h [[c h']|] b];
    cbv [http_Error Answer Write WriteHeader Header_Set Header sent written];
    reflexivity.
Qed.

Lemma http_Error_header w message code :
  sent w = None ->
  AnswerHeader (http_Error w message code)
  = <["X-Content-Type-Options" := "nosniff"]>
      (<["Content-Type" := "text/plain; charset=utf-8"]> (Header w)).
Proof.
  destruct w as [h [[c h']|] b]; [discriminate|]. intros _.
  cbv [http_Error AnswerHeader Write WriteHeader Header_Set Header sent written].
  reflexivity.
Qed.

Lemma withErrorHandling_run handler w r s :
  withErrorHandling handler w r s
  = match (handler w r s).1.2 with
    | Some e =>
        (respondError (handler w r s).1.1 e StatusInternalServerError,
         with_world (logged (LogHandlerError e) (world (handler w r s).2))
           (handler w r s).2)
    | None => ((handler w r s).1.1, (handler w r s).2)
    end.
Proof.
  unfold withErrorHandling. rewrite hbind_run.
  destruct (handler w r s) as [[w1 [e|]] s1]; cbn [fst snd]; [|reflexivity].
  rewrite hbind_run, lift_run, hret_run. reflexivity.
Qed.

(** [chain] puts the first middleware of its list outermost. *)
Lemma chain_nested next (middlewares : list MiddlewareFunc) :
  chain next middlewares = fold_right (fun m h => m h) next middlewares.
Proof.
  unfold chain.
  rewrite <- (fold_left_rev_right (fun (m : MiddlewareFunc) h => m h)).
  rewrite rev_involutive. reflexivity.
Qed.

(** The request as [withLogging] notes it. *)
Lemma withLogging_run next w r s :
  withLogging next w r s
  = next w r (with_world
                (logged (LogRequest (Method r) (Path r) (RawQuery r)) (world s)) s).
Proof. unfold withLogging. rewrite hbind_run, lift_run. reflexivity. Qed.

(** The three layers that every handler has. *)
Lemma chain_get next w r s :
  chain next [withJSONContentType; withLogging; withRecovery] w r s
  = next (Header_Set "Content-Type" "application/json" w) r
      (with_world
         (logged (LogRequest (Method r) (Path r) (RawQuery r)) (world s)) s).
Proof.
  rewrite chain_nested. cbn [fold_right]. unfold withJSONContentType.
  rewrite withLogging_run. reflexivity.
Qed.

(** The four layers of the handlers that take a POST only. *)
Lemma chain_post next w r s :
  chain next [withMethodValidation [MethodPost]; withJSONContentType;
              withLogging; withRecovery] w r s
  = if String.eqb (Method r) "POST" then
      next (Header_Set "Content-Type" "application/json" w) r
        (with_world
           (logged (LogRequest (Method r) (Path r) (RawQuery r)) (world s)) s)
    else (respondError w "Method tidak didukung" StatusMethodNotAllowed, s).
Proof.
  rewrite chain_nested. cbn [fold_right].
  unfold withMethodValidation. cbn [withMethodValidation_loop].
  unfold MethodPost. destruct (String.eqb (Method r) "POST"); [|reflexivity].
  unfold withJSONContentType. rewrite withLogging_run. reflexivity.
Qed.

(** X9: a request to [/harga/add] or [/harga/fetch] whose method is not POST
    is answered with the status 405 before anything else is done: the
    request is not even logged, no number is drawn, and the world, with
    its data base, stays as it is. *)
Theorem other_methods_are_refused_first w r s :
  Method r <> "POST" ->
  sent w = None ->
  AddPriceHandler w r s = FetchPricesHandler w r s /\
  (FetchPricesHandler w r s).2 = s /\
  Answer (FetchPricesHandler w r s).1
  = {| Status := 405; Body := written w +:+ "Method tidak didukung" +:+ newline |} /\
  AnswerHeader (FetchPricesHandler w r s).1 !! "Content-Type"
  = Some "text/plain; charset=utf-8".
Proof.
  intros Hmethod Hsent. unfold AddPriceHandler, FetchPricesHandler.
  rewrite !chain_post.
  destruct (String.eqb_spec (Method r) "POST") as [|_]; [done|].
  cbn [fst snd]. unfold respondError.
  rewrite http_Error_answer, Hsent, http_Error_header by exact Hsent.
  split_and!; try reflexivity.
  rewrite lookup_insert_ne by done. apply lookup_insert_eq.
Qed.

End Middleware.

Section PriceHandlers.

Context `{lib : Library} `{codec : Codec}.

Implicit Types (s : Server) (w : ResponseWriter) (r : HttpRequest).

Lemma respondJSON_answer w code bytes :
  sent w = None ->
  Answer (respondJSON w code (bytes, None)).1 = answered w code bytes /\
  AnswerHeader (respondJSON w code (bytes, None)).1 = Header w /\
  (respondJSON w code (bytes, None)).2 = None.
Proof.
  destruct w as [h [[c h']|] b]; [discriminate|]. intros _.
  cbv [respondJSON Answer AnswerHeader answered Write WriteHeader Header sent
       written fst snd].
  split_and!; reflexivity.
Qed.

Lemma respondError_answer w message code :
  sent w = None ->
  Answer (respondError w message code) = answered w code message.
Proof.
  intros Hsent. unfold respondError. rewrite http_Error_answer, Hsent.
  reflexivity.
Qed.

Lemma Header_Set_fresh key value w :
  sent w = None ->
  sent (Header_Set key value w) = None /\
  written (Header_Set key value w) = written w /\
  Header (Header_Set key value w) = <[key := value]> (Header w).
Proof. intros Hsent. split_and!; [exact Hsent | reflexivity | reflexivity]. Qed.

Lemma tryFetch_run s :
  tryFetch s = (None, with_world (AutoFetchPricesFromScraper (world s)).2 s).
Proof.
  unfold tryFetch. rewrite hbind_run, lift_run. cbn [fst snd].
  rewrite AutoFetch_never_fails. reflexivity.
Qed.

Lemma count_saved_all_fail (w0 : World) batch :
  (forall n, db_fault w0 n <> None) -> forall i, count_saved w0 i batch = O.
Proof.
  intros Hfail. induction batch as [|p rest IH]; intros i; cbn [count_saved];
    [reflexivity|].
  rewrite IH. unfold insert_outcome.
  destruct (db_fault w0 (statements w0 + i)) eqn:E; [reflexivity|].
  exfalso. exact (Hfail _ E).
Qed.

(** What [AutoFetchPricesFromScraper] adds to the table. *)
Lemma AutoFetch_rows (w0 : World) :
  exists added,
    prices (AutoFetchPricesFromScraper w0).2 = prices w0 ++ added /\
    Forall (fun row => Price.Unit row = "kg") added /\
    ((forall n, db_fault w0 n <> None) -> added = []).
Proof.
  rewrite AutoFetch_run, ScrapeAll_manager_ok. cbn [snd].
  destruct (ScrapeAll_manager_store w0) as (Hprices & _ & _ & Hfault).
  destruct (save_all_spec (ScrapeAll NewScraperManager w0).1.1
              (ScrapeAll NewScraperManager w0).2)
    as (_ & _ & _ & _ & (added & Hadded & Hlen & Hrows) & _).
  exists added. rewrite Hadded, Hprices. split_and!; [reflexivity | |].
  - eapply Forall_impl; [exact Hrows|].
    intros row (_ & p & _ & _ & _ & Hunit & _). exact Hunit.
  - intros Hfail. apply length_zero_iff_nil. rewrite Hlen.
    apply count_saved_all_fail. rewrite Hfault. exact Hfail.
Qed.

(** X10: a POST to [/harga/fetch] is always answered with the status 200 and
    the body that reports success: as a pass of the manager of the
    program never fails, the simulated feed [AutoFetchPrices] is never
    started, no number is drawn, and every row that the request adds has
    the unit [kg] of the acquisition path.  The answer is the same when
    the data base fails every insert and nothing has been stored. *)
Theorem fetch_handler_never_simulates w r s :
  Method r = "POST" ->
  sent w = None ->
  let w0 := logged (LogRequest (Method r) (Path r) (RawQuery r)) (world s) in
  let out := FetchPricesHandler w r s in
  out.2 = with_world (AutoFetchPricesFromScraper w0).2 s /\
  draws out.2 = draws s /\ journal out.2 = journal s /\
  Answer out.1
  = answered w 200
      (ok_body "Berhasil fetch dan simpan harga (Web Scraping + Market Data)") /\
  AnswerHeader out.1 !! "Content-Type" = Some "application/json" /\
  exists added,
    prices (world out.2) = prices (world s) ++ added /\
    Forall (fun row => Price.Unit row = "kg") added /\
    ((forall n, db_fault (world s) n <> None) -> added = []).
Proof.
  intros Hmethod Hsent w0 out. unfold out, FetchPricesHandler.
  rewrite chain_post.
  destruct (String.eqb_spec (Method r) "POST") as [_|Hne]; [|done].
  rewrite withErrorHandling_run, hbind_run, tryFetch_run. cbn [fst snd].
  rewrite hret_run. cbn [fst snd world with_world]. fold w0.
  destruct (Header_Set_fresh "Content-Type" "application/json" w Hsent)
    as (Hs1 & Hw1 & Hh1).
  destruct (respondJSON_answer (Header_Set "Content-Type" "application/json" w)
              StatusOK
              (Marshal_map
                 (buildStatusResponse "ok"
                    "Berhasil fetch dan simpan harga (Web Scraping + Market Data)"))
              Hs1) as (Hans & Hhead & Hnone).
  rewrite Hnone. cbn [fst snd].
  split_and!; [reflexivity | reflexivity | reflexivity | exact Hans | |].
  - rewrite Hhead, Hh1. apply lookup_insert_eq.
  - cbn [world with_world].
    destruct (AutoFetch_rows w0) as (added & Hadded & Hunit & Hnone').
    exists added. split_and!; [exact Hadded | exact Hunit | exact Hnone'].
Qed.

(** X11: a POST to [/harga/add] stores the posted price as it is: the row
    takes the region, the price, the unit, the source and the
    [recorded_at] of the body, whatever they are, a price of zero or
    below and an empty region included; its [id] and its [created_at]
    come from the data base, not from the body.  A body that cannot be
    decoded is answered with the status 400 and a failed insert with the
    status 500 and the text of the error, and neither stores a row. *)
Theorem add_handler_stores_as_posted w r s :
  Method r = "POST" ->
  sent w = None ->
  let w0 := logged (LogRequest (Method r) (Path r) (RawQuery r)) (world s) in
  let out := AddPriceHandler w r s in
  draws out.2 = draws s /\ journal out.2 = journal s /\
  match Decode_Price (RequestBody r) with
  | inr _ =>
      Answer out.1 = answered w 400 "Request body tidak valid" /\
      world out.2 = w0
  | inl p =>
      let failure :=
        match db_fault (world s) (statements (world s)) with
        | Some e => Some e
        | None =>
            if f64_is_nan (Price.Price p)
            then Some "NOT NULL constraint failed: prices.price"
            else None
        end in
      statements (world out.2) = S (statements (world s)) /\
      match failure with
      | Some e =>
          Answer out.1 = answered w 500 e /\
          prices (world out.2) = prices (world s) /\
          logs (world out.2) = logs w0 ++ [LogHandlerError e]
      | None =>
          Answer out.1 = answered w 200 (ok_body "Data harga berhasil ditambahkan") /\
          prices (world out.2)
          = prices (world s)
            ++ [Price.mk (next_id (world s)) (Price.Region p) (Price.Price p)
                  (Price.Unit p) (Price.Source p) (Price.RecordedAt p)
                  (sqlite_datetime (clock (world s) (ticks (world s))))] /\
          logs (world out.2) = logs w0
      end
  end.
Proof.
  intros Hmethod Hsent w0 out. unfold out, AddPriceHandler.
  rewrite chain_post.
  destruct (String.eqb_spec (Method r) "POST") as [_|Hne]; [|done].
  rewrite withErrorHandling_run. fold w0.
  destruct (Header_Set_fresh "Content-Type" "application/json" w Hsent)
    as (Hs1 & Hw1 & Hh1).
  destruct (Decode_Price (RequestBody r)) as [p | err].
  - rewrite hbind_run, lift_run, DB_Exec_insert_run.
    cbn [world with_world]. cbv zeta.
    change (db_fault w0) with (db_fault (world s)).
    change (statements w0) with (statements (world s)).
    destruct (db_fault (world s) (statements (world s))) as [e|].
    + cbn [fst snd]. rewrite hret_run. cbn [fst snd draws journal world with_world].
      rewrite respondError_answer by exact Hs1.
      split_and!; reflexivity.
    + destruct (f64_is_nan (Price.Price p)).
      * cbn [fst snd]. rewrite hret_run. cbn [fst snd draws journal world with_world].
        rewrite respondError_answer by exact Hs1.
        split_and!; reflexivity.
      * cbn [fst snd]. rewrite hret_run.
        destruct (respondJSON_answer (Header_Set "Content-Type" "application/json" w)
                    StatusOK
                    (Marshal_map
                       (buildStatusResponse "ok" "Data harga berhasil ditambahkan"))
                    Hs1) as (Hans & _ & Hnone).
        cbn [fst snd]. rewrite Hnone. cbn [fst snd draws journal world with_world].
        split_and!; try reflexivity. exact Hans.
  - rewrite hret_run. cbn [fst snd draws journal world with_world].
    rewrite respondError_answer by exact Hs1.
    split_and!; reflexivity.
Qed.

End PriceHandlers.

Section Listing.

Context `{lib : Library} `{codec : Codec}.

Implicit Types (s : Server) (w : ResponseWriter) (r : HttpRequest)
  (x y : Price.t) (rows : list Price.t).

Lemma latest_first_total x y : latest_first x y \/ latest_first y x.
Proof. unfold latest_first. destruct (total String.le (Price.CreatedAt x) (Price.CreatedAt y)); auto. Qed.

Lemma insert_desc_head x rows :
  forall y, HdRel latest_first y rows -> latest_first y x ->
            HdRel latest_first y (insert_desc x rows).
Proof.
  intros y Hhd Hyx. destruct rows as [|z rows]; cbn [insert_desc].
  - constructor. exact Hyx.
  - destruct (String.ltb _ _); constructor; [exact Hyx|].
    inversion Hhd; assumption.
Qed.

Lemma insert_desc_Sorted x rows :
  Sorted latest_first rows -> Sorted latest_first (insert_desc x rows).
Proof.
  induction rows as [|y rows IH]; intros Hsorted; cbn [insert_desc].
  - repeat constructor.
  - inversion Hsorted as [|? ? Hrest Hhd]; subst.
    destruct (String.ltb (Price.CreatedAt y) (Price.CreatedAt x)) eqn:Hlt.
    + constructor; [exact Hsorted|]. constructor. unfold latest_first.
      apply ltb_not_le in Hlt.
      destruct (total String.le (Price.CreatedAt y) (Price.CreatedAt x)); done.
    + constructor; [apply IH, Hrest|].
      apply insert_desc_head; [exact Hhd|]. unfold latest_first.
      destruct (decide (String.le (Price.CreatedAt x) (Price.CreatedAt y)))
        as [|Hn]; [done|].
      apply ltb_not_le in Hn. congruence.
Qed.

Lemma order_by_Sorted rows : Sorted latest_first (order_by_created_at_desc rows).
Proof.
  unfold order_by_created_at_desc.
  induction rows as [|x rows IH] using rev_ind; [constructor|].
  rewrite fold_left_app. cbn [fold_left]. apply insert_desc_Sorted, IH.
Qed.

Lemma scan_rows_app rows : forall data,
  fold_left (fun data p => Some (default [] data ++ [p])) rows data
  = match rows with
    | [] => data
    | _ :: _ => Some (default [] data ++ rows)
    end.
Proof.
  induction rows as [|p rows IH]; intros data; cbn [fold_left]; [reflexivity|].
  rewrite IH. destruct rows as [|q rows]; [reflexivity|].
  cbn [from_option id]. rewrite <- app_assoc. reflexivity.
Qed.

(** The slice that the handler encodes is never nil. *)
Lemma scan_rows_data rows :
  match scan_rows rows with None => Some [] | Some _ => scan_rows rows end
  = Some rows.
Proof.
  unfold scan_rows. rewrite scan_rows_app. destruct rows; reflexivity.
Qed.

Lemma DB_Query_prices_run (w0 : World) :
  DB_Query_prices w0
  = (match db_fault w0 (statements w0) with
     | Some e => ([], Some e)
     | None => (order_by_created_at_desc (prices w0), None)
     end, with_statements (S (statements w0)) w0).
Proof.
  unfold DB_Query_prices. rewrite bind_run. cbn [db_begin fst snd].
  destruct (db_fault w0 (statements w0)); [reflexivity|].
  rewrite bind_run. reflexivity.
Qed.

(** X12: [GET /harga] encodes every row of the table, the rows of the latest
    [created_at] first, and an empty table as an empty array, never as
    [null]; it reads the table with one statement and changes nothing.
    When the query fails the answer is a status 500 with the text of the
    error.  When the encoding fails the status 200 has been sent already:
    the answer keeps it and carries the text of the error. *)
Theorem prices_handler_lists_all_rows w r s :
  sent w = None ->
  let out := PricesHandler w r s in
  let data := order_by_created_at_desc (prices (world s)) in
  prices (world out.2) = prices (world s) /\
  statements (world out.2) = S (statements (world s)) /\
  data ≡ₚ prices (world s) /\
  Sorted latest_first data /\
  match db_fault (world s) (statements (world s)) with
  | Some e =>
      Answer out.1 = answered w 500 e /\
      snd <$> journal out.2 = (snd <$> journal s) ++ [LogDBError e]
  | None =>
      journal out.2 = journal s /\
      match Marshal_Prices (Some data) with
      | (bytes, None) => Answer out.1 = answered w 200 bytes
      | (_, Some e) => Answer out.1 = answered w 200 e
      end
  end.
Proof.
  intros Hsent out data.
  split_and!; [| | apply order_by_Permutation | apply order_by_Sorted |];
    unfold out, PricesHandler; rewrite chain_get;
    destruct (Header_Set_fresh "Content-Type" "application/json" w Hsent)
      as (Hs1 & Hw1 & Hh1);
    set (w1 := Header_Set "Content-Type" "application/json" w) in *;
    unfold withErrorHandling; rewrite hbind_run;
    rewrite hbind_run, lift_run, DB_Query_prices_run;
    cbn [fst snd world with_world logged with_logs db_fault statements prices];
    destruct (db_fault (world s) (statements (world s))) as [e|]; cbn [fst snd].
  - rewrite hbind_run. cbn [server_log fst snd]. rewrite hret_run. cbn [fst snd].
    rewrite hbind_run, lift_run, hret_run. reflexivity.
  - rewrite hret_run. cbn [fst snd].
    destruct (respondJSON _ _ _) as [w2 [e|]]; cbn [fst snd].
    + rewrite hbind_run, lift_run, hret_run. reflexivity.
    + rewrite hret_run. reflexivity.
  - rewrite hbind_run. cbn [server_log fst snd]. rewrite hret_run. cbn [fst snd].
    rewrite hbind_run, lift_run, hret_run. reflexivity.
  - rewrite hret_run. cbn [fst snd].
    destruct (respondJSON _ _ _) as [w2 [e|]]; cbn [fst snd].
    + rewrite hbind_run, lift_run, hret_run. reflexivity.
    + rewrite hret_run. reflexivity.
  - rewrite hbind_run. cbn [server_log fst snd]. rewrite hret_run. cbn [fst snd].
    rewrite hbind_run, lift_run, hret_run. cbn [fst snd journal with_world].
    rewrite respondError_answer by exact Hs1. split; [reflexivity|].
    rewrite fmap_app. reflexivity.
  - rewrite hret_run. cbn [fst snd]. rewrite scan_rows_data. fold data.
    destruct (Marshal_Prices (Some data)) as [bytes [e|]] eqn:Henc.
    + cbn [respondJSON fst snd]. rewrite hbind_run, lift_run, hret_run.
      cbn [fst snd journal with_world]. split; [reflexivity|].
      unfold respondError. rewrite http_Error_answer.
      destruct w as [h [[c h']|] b]; [discriminate|]. reflexivity.
    + destruct (respondJSON_answer w1 StatusOK bytes Hs1) as (Hans & _ & Hnone).
      destruct (respondJSON w1 StatusOK (bytes, None)) as [w2 err].
      cbn [fst snd] in *. subst err. rewrite hret_run. cbn [fst snd].
      split; [reflexivity | exact Hans].
Qed.

(** X13: the handler of [GET /harga/current], composed by [chain] from its
    middleware as the code composes it, answers what
    [GetCurrentPriceHandler] answers and leaves the same world: the
    status 200 with the stored price as [application/json], or the status
    500 with the text of the error as plain text. *)
Theorem current_price_handler_layers w r s :
  sent w = None -> written w = "" ->
  let out := CurrentPriceHandler w r s in
  let direct := GetCurrentPriceHandler r (world s) in
  Answer out.1 = direct.1 /\
  out.2 = with_world direct.2 s /\
  AnswerHeader out.1 !! "Content-Type"
  = Some (if Status direct.1 =? 200 then "application/json"
          else "text/plain; charset=utf-8").
Proof.
  intros Hsent Hempty out direct. unfold out, direct, CurrentPriceHandler.
  rewrite chain_get, withErrorHandling_run, GetCurrentPriceHandler_run.
  cbv zeta.
  destruct (Header_Set_fresh "Content-Type" "application/json" w Hsent)
    as (Hs1 & Hw1 & Hh1).
  set (w1 := Header_Set "Content-Type" "application/json" w) in *.
  rewrite hbind_run, lift_run. cbn [world with_world fst snd].
  destruct (GetLatestPriceJSON _ _) as [[jsonData [e|]] w'] eqn:Hlatest;
    cbn [fst snd]; rewrite hret_run; cbn [fst snd respond Status Z.eqb].
  - unfold respondError. rewrite http_Error_answer, Hs1, Hw1, Hempty.
    rewrite http_Error_header by exact Hs1.
    split_and!; [reflexivity | reflexivity |].
    rewrite lookup_insert_ne by done. apply lookup_insert_eq.
  - destruct w as [h [[c h']|] b]; [discriminate|]. cbn in Hempty. subst b.
    split_and!; [reflexivity | reflexivity |].
    cbv [AnswerHeader Write WriteHeader w1 Header_Set Header sent written].
    apply lookup_insert_eq.
Qed.

(** X14: a preflight request, of the method OPTIONS, is answered by
    [enableCORS] itself with the status 200, an empty body and the three
    headers of CORS: the handler behind it is not called, whichever it is,
    and the server stays as it is.  Any other request reaches the handler
    with the three headers set. *)
Theorem preflight_stops_at_CORS (next : HandlerFunc) w r s :
  sent w = None ->
  let cors :=
    <["Access-Control-Allow-Headers" := "Content-Type, Authorization"]>
      (<["Access-Control-Allow-Methods" := "GET, POST, PUT, DELETE, OPTIONS"]>
         (<["Access-Control-Allow-Origin" := "*"]> (Header w))) in
  let out := enableCORS next w r s in
  (Method r = "OPTIONS" ->
   out.2 = s /\
   Answer out.1 = {| Status := 200; Body := written w |} /\
   AnswerHeader out.1 = cors) /\
  (Method r <> "OPTIONS" ->
   exists w1, out = next w1 r s /\ Header w1 = cors /\ sent w1 = None /\
              written w1 = written w).
Proof.
  intros Hsent cors out. unfold out, enableCORS.
  destruct w as [h [[c h']|] b]; [discriminate|].
  destruct (String.eqb_spec (Method r) "OPTIONS") as [Heq|Hne]; split;
    intros Hm; try contradiction.
  - split_and!; reflexivity.
  - eexists. split_and!; reflexivity.
Qed.

End Listing.

(** ** The server at work on the worlds of the examples *)

Lemma other_methods_are_refused_first_witness :
  Method (request "GET" "/harga/fetch" "") <> "POST" /\
  sent NewResponseWriter = None /\
  (FetchPricesHandler (lib := sample_library) (codec := sample_codec)
     NewResponseWriter (request "GET" "/harga/fetch" "")
     (sample_server offline_world)).2
  = sample_server offline_world.
Proof.
  assert (H1 : Method (request "GET" "/harga/fetch" "") <> "POST")
    by discriminate.
  assert (H2 : sent NewResponseWriter = None) by reflexivity.
  split; [exact H1|]. split; [exact H2|].
  exact (proj1 (proj2 (other_methods_are_refused_first
                         (lib := sample_library) (codec := sample_codec)
                         NewResponseWriter (request "GET" "/harga/fetch" "")
                         (sample_server offline_world) H1 H2))).
Defined.

Lemma fetch_handler_never_simulates_witness :
  Method (request "POST" "/harga/fetch" "") = "POST" /\
  sent NewResponseWriter = None /\
  draws (FetchPricesHandler (lib := sample_library) (codec := sample_codec)
           NewResponseWriter (request "POST" "/harga/fetch" "")
           (sample_server faulty_world)).2
  = draws (sample_server faulty_world).
Proof.
  assert (H1 : Method (request "POST" "/harga/fetch" "") = "POST")
    by reflexivity.
  assert (H2 : sent NewResponseWriter = None) by reflexivity.
  split; [exact H1|]. split; [exact H2|].
  exact (proj1 (proj2 (fetch_handler_never_simulates
                         (lib := sample_library) (codec := sample_codec)
                         NewResponseWriter (request "POST" "/harga/fetch" "")
                         (sample_server faulty_world) H1 H2))).
Defined.

(** In the world whose data base fails the second statement, the request
    is answered with the status 200, four of the five records are stored,
    and no line of the simulated feed is in the log. *)
Example fetch_in_faulty_world :
  let out := FetchPricesHandler (lib := sample_library) (codec := sample_codec)
               NewResponseWriter (request "POST" "/harga/fetch" "")
               (sample_server faulty_world) in
  Status (Answer out.1) = 200 /\ Body (Answer out.1) = "02" +:+ newline /\
  length (prices (world out.2)) = 4%nat /\
  Price.Unit <$> prices (world out.2) = ["kg"; "kg"; "kg"; "kg"] /\
  journal out.2 = [] /\ draws out.2 = 0%nat.
Proof. cbv zeta. split_and!; vm_compute; reflexivity. Qed.

Lemma add_handler_stores_as_posted_witness :
  Method (request "POST" "/harga/add" "Malang") = "POST" /\
  sent NewResponseWriter = None /\
  journal (AddPriceHandler (lib := sample_library) (codec := sample_codec)
             NewResponseWriter (request "POST" "/harga/add" "Malang")
             (sample_server offline_world)).2
  = journal (sample_server offline_world).
Proof.
  assert (H1 : Method (request "POST" "/harga/add" "Malang") = "POST")
    by reflexivity.
  assert (H2 : sent NewResponseWriter = None) by reflexivity.
  split; [exact H1|]. split; [exact H2|].
  exact (proj1 (proj2 (add_handler_stores_as_posted
                         (lib := sample_library) (codec := sample_codec)
                         NewResponseWriter (request "POST" "/harga/add" "Malang")
                         (sample_server offline_world) H1 H2))).
Defined.

(** The posted price is stored and then listed; an empty body is
    refused. *)
Example add_then_list :
  let added := AddPriceHandler (lib := sample_library) (codec := sample_codec)
                 NewResponseWriter (request "POST" "/harga/add" "Malang")
                 (sample_server offline_world) in
  let listed := PricesHandler (codec := sample_codec)
                  NewResponseWriter (request "GET" "/harga" "") added.2 in
  let refused := AddPriceHandler (lib := sample_library) (codec := sample_codec)
                   NewResponseWriter (request "POST" "/harga/add" "")
                   (sample_server offline_world) in
  Status (Answer added.1) = 200 /\
  Price.Region <$> prices (world added.2) = ["Malang"] /\
  Price.ID <$> prices (world added.2) = [1] /\
  Price.CreatedAt <$> prices (world added.2) = ["2023-11-14 22:13:20"] /\
  Answer listed.1 = {| Status := 200; Body := "0001" +:+ newline |} /\
  Answer refused.1
  = {| Status := 400; Body := "Request body tidak valid" +:+ newline |} /\
  prices (world refused.2) = [].
Proof. cbv zeta. split_and!; vm_compute; reflexivity. Qed.

Lemma prices_handler_lists_all_rows_witness :
  sent NewResponseWriter = None /\
  prices (world (PricesHandler (codec := sample_codec)
                   NewResponseWriter (request "GET" "/harga" "")
                   (sample_server fetched_twice)).2)
  = prices (world (sample_server fetched_twice)).
Proof.
  assert (H1 : sent NewResponseWriter = None) by reflexivity.
  split; [exact H1|].
  exact (proj1 (prices_handler_lists_all_rows (codec := sample_codec)
                  NewResponseWriter (request "GET" "/harga" "")
                  (sample_server fetched_twice) H1)).
Defined.

Lemma current_price_handler_layers_witness :
  sent NewResponseWriter = None /\ written NewResponseWriter = "" /\
  Answer (CurrentPriceHandler (lib := sample_library) NewResponseWriter
            (request "GET" "/harga/current" "") (sample_server fetched_twice)).1
  = (GetCurrentPriceHandler (lib := sample_library)
       (request "GET" "/harga/current" "")
       (world (sample_server fetched_twice))).1.
Proof.
  assert (H1 : sent NewResponseWriter = None) by reflexivity.
  assert (H2 : written NewResponseWriter = "") by reflexivity.
  split; [exact H1|]. split; [exact H2|].
  exact (proj1 (current_price_handler_layers (lib := sample_library)
                  NewResponseWriter (request "GET" "/harga/current" "")
                  (sample_server fetched_twice) H1 H2)).
Defined.

Lemma preflight_stops_at_CORS_witness :
  sent NewResponseWriter = None /\
  Method (request "OPTIONS" "/harga/fetch" "") = "OPTIONS" /\
  (enableCORS (FetchPricesHandler (lib := sample_library) (codec := sample_codec))
     NewResponseWriter (request "OPTIONS" "/harga/fetch" "")
     (sample_server offline_world)).2
  = sample_server offline_world.
Proof.
  assert (H1 : sent NewResponseWriter = None) by reflexivity.
  assert (H2 : Method (request "OPTIONS" "/harga/fetch" "") = "OPTIONS")
    by reflexivity.
  split; [exact H1|]. split; [exact H2|].
  exact (proj1 (proj1 (preflight_stops_at_CORS
                         (FetchPricesHandler (lib := sample_library)
                            (codec := sample_codec))
                         NewResponseWriter (request "OPTIONS" "/harga/fetch" "")
                         (sample_server offline_world) H1) H2)).
Defined.

(** The simulated feed in the world whose data base fails the second
    statement: the row of Jember stays, and the feed ends on the error. *)
Example simulated_feed_in_faulty_world :
  let out := AutoFetchPrices (lib := sample_library) (sample_server faulty_world) in
  out.1 = Some "database is locked" /\
  Price.Region <$> prices (world out.2) = ["Jember"] /\
  Price.Price <$> prices (world out.2) = [f64_of_Z 5000] /\
  snd <$> journal out.2
  = [LogInserted "Jember" 5000; LogInsertFailed "Malang" "database is locked"] /\
  draws out.2 = 2%nat.
Proof. cbv zeta. split_and!; vm_compute; reflexivity. Qed.

(** ** The functional helpers *)

Section Helpers.

Lemma wrap_int_small z : - 2 ^ 63 <= z < 2 ^ 63 -> wrap_int z = z.
Proof.
  intros Hz. unfold wrap_int. rewrite Z.mod_small; [lia|].
  change (2 ^ 64) with (2 * 2 ^ 63). lia.
Qed.

Lemma wrap_int_range z : - 2 ^ 63 <= wrap_int z < 2 ^ 63.
Proof.
  unfold wrap_int.
  pose proof (Z.mod_pos_bound (z + 2 ^ 63) (2 ^ 64) ltac:(lia)).
  change (2 ^ 64) with (2 * 2 ^ 63) in *. lia.
Qed.

Lemma wrap_int_eq a b : a mod 2 ^ 64 = b mod 2 ^ 64 -> wrap_int a = wrap_int b.
Proof.
  intros Hab. unfold wrap_int. f_equal.
  rewrite (Z.add_mod a), (Z.add_mod b), Hab by lia. reflexivity.
Qed.

Lemma wrap_int_mod a : wrap_int a mod 2 ^ 64 = a mod 2 ^ 64.
Proof.
  unfold wrap_int. rewrite Zminus_mod_idemp_l. f_equal. lia.
Qed.

Lemma int_add_wrap_r a b : int_add a (wrap_int b) = wrap_int (a + b).
Proof.
  unfold int_add. apply wrap_int_eq.
  rewrite Z.add_mod, wrap_int_mod, <- Z.add_mod by lia. reflexivity.
Qed.

Lemma int_add_wrap_l a b : int_add (wrap_int a) b = wrap_int (a + b).
Proof.
  unfold int_add. apply wrap_int_eq.
  rewrite Z.add_mod, wrap_int_mod, <- Z.add_mod by lia. reflexivity.
Qed.

Lemma int_mul_wrap_r a b : int_mul a (wrap_int b) = wrap_int (a * b).
Proof.
  unfold int_mul. apply wrap_int_eq.
  rewrite Z.mul_mod, wrap_int_mod, <- Z.mul_mod by lia. reflexivity.
Qed.

(** *** Map *)

Lemma Map_loop {T U} (fn : T -> U) (l : list T) : forall (result : list U) k,
  length result = (k + length l)%nat ->
  fold_left (fun result (iv : nat * T) => <[iv.1 := fn iv.2]> result)
    (imap (fun i v => ((k + i)%nat, v)) l) result
  = take k result ++ (fn <$> l).
Proof.
  induction l as [|x l IH]; intros result k Hlen; cbn [imap fold_left fmap list_fmap].
  - rewrite app_nil_r, take_ge; [reflexivity | cbn in Hlen; lia].
  - cbn [length] in Hlen. cbn [fst snd]. rewrite Nat.add_0_r.
    assert (Himap : imap ((fun i v => ((k + i)%nat, v)) ∘ S) l
                    = imap (fun i v => ((S k + i)%nat, v)) l)
      by (apply imap_ext; intros i v _; cbn; f_equal; lia).
    rewrite Himap, IH by (rewrite length_insert; lia).
    assert (Hk : (k < length result)%nat) by lia.
    rewrite (take_S_r _ _ (fn x)) by (apply list_lookup_insert_eq; exact Hk).
    rewrite take_insert_ge by lia. rewrite <- app_assoc. reflexivity.
Qed.

(** X15: [Map] applies the function to each element, in their order: the
    result has the length of the slice, and none of the zero values it
    was made of is left.  So [TransformPricesToSimple] gives, for each
    price, a map with the region, the price and the unit of the row, and
    nothing else of it. *)
Theorem Map_applies_to_each {T U} (zero : U) (slice : list T) (fn : T -> U) :
  Map zero slice fn = fn <$> slice /\
  length (Map zero slice fn) = length slice /\
  (forall i, Map zero slice fn !! i = fn <$> slice !! i) /\
  forall prices : list Price.t,
    length (TransformPricesToSimple prices) = length prices /\
    forall i p, prices !! i = Some p ->
      exists m,
        TransformPricesToSimple prices !! i = Some m /\
        m !! "region" = Some (VString (Price.Region p)) /\
        m !! "price" = Some (VFloat (Price.Price p)) /\
        m !! "unit" = Some (VString (Price.Unit p)) /\
        size m = 3%nat.
Proof.
  assert (Heq : forall (V : Type) (z : V) (l : list T) (f : T -> V),
            Map z l f = f <$> l).
  { intros V z l f. unfold Map.
    pose proof (Map_loop f l (replicate (length l) z) 0
                  ltac:(rewrite length_replicate; reflexivity)) as Hloop.
    cbn [Nat.add take app] in Hloop. exact Hloop. }
  assert (Heq' : forall (V : Type) (z : V) (l : list Price.t) (f : Price.t -> V),
            Map z l f = f <$> l).
  { intros V z l f. unfold Map.
    pose proof (Map_loop f l (replicate (length l) z) 0
                  ltac:(rewrite length_replicate; reflexivity)) as Hloop.
    cbn [Nat.add take app] in Hloop. exact Hloop. }
  split_and!.
  - apply Heq.
  - rewrite Heq, length_fmap. reflexivity.
  - intros i. rewrite Heq, list_lookup_fmap. reflexivity.
  - intros prices. unfold TransformPricesToSimple. rewrite Heq'.
    split; [apply length_fmap|]. intros i p Hp.
    eexists. split; [rewrite list_lookup_fmap, Hp; reflexivity|].
    split_and!; try reflexivity.
Qed.

(** *** Filter *)

Lemma Filter_loop {T} (predicate : T -> bool) (l : list T) : forall result,
  fold_left (fun result v => if predicate v then result ++ [v] else result)
    l result
  = result ++ List.filter predicate l.
Proof.
  induction l as [|x l IH]; intros result; cbn [fold_left List.filter].
  - rewrite app_nil_r. reflexivity.
  - rewrite IH. destruct (predicate x); [|reflexivity].
    rewrite <- app_assoc. reflexivity.
Qed.

Lemma filter_bool {T} (P : T -> Prop) `{forall x, Decision (P x)}
    (predicate : T -> bool) (l : list T) :
  (forall x, predicate x = true <-> P x) ->
  List.filter predicate l = filter P l.
Proof.
  intros Hp. induction l as [|x l IH]; [reflexivity|]. cbn [List.filter].
  rewrite filter_cons. destruct (decide (P x)) as [Hx|Hx].
  - rewrite (proj2 (Hp x) Hx), IH. reflexivity.
  - destruct (predicate x) eqn:E; [exfalso; apply Hx, Hp, E | exact IH].
Qed.

(** X16: [Filter] keeps the elements that satisfy the predicate, each as
    often as it occurs and in the order of the slice, and
    [FilterRecursive] returns the same.  [FilterPricesByRegion] keeps the
    rows whose region is the given one letter for letter: the rows that
    the query of [GetLatestPriceJSON] selects with [WHERE region = ?]. *)
Theorem Filter_keeps_the_matching {T} (slice : list T) (predicate : T -> bool) :
  Filter slice predicate = List.filter predicate slice /\
  FilterRecursive slice predicate = Filter slice predicate /\
  (forall x, x ∈ Filter slice predicate <-> x ∈ slice /\ predicate x = true) /\
  forall (prices : list Price.t) (region : string),
    FilterPricesByRegion prices region
    = filter (fun p => Price.Region p = region) prices.
Proof.
  assert (Hf : forall (V : Type) (l : list V) (p : V -> bool),
            Filter l p = List.filter p l).
  { intros V l p. unfold Filter. rewrite Filter_loop. reflexivity. }
  split_and!.
  - apply Hf.
  - rewrite Hf. induction slice as [|x l IH]; [reflexivity|].
    cbn [FilterRecursive List.filter]. rewrite IH.
    destruct (predicate x); reflexivity.
  - intros x. rewrite Hf, !list_elem_of_In. apply filter_In.
  - intros prices region. unfold FilterPricesByRegion. rewrite Hf.
    apply filter_bool. intros p. apply String.eqb_eq.
Qed.

(** *** Reduce and the recursive sum *)

Lemma Reduce_sum (l : list Z) : forall acc,
  fold_left (fun result v => int_add result v) l (wrap_int acc)
  = wrap_int (acc + foldr Z.add 0 l).
Proof.
  induction l as [|x l IH]; intros acc; cbn [fold_left foldr].
  - rewrite Z.add_0_r. reflexivity.
  - rewrite int_add_wrap_l, IH. f_equal. lia.
Qed.

(** X17: on the integers of 64 bits, the recursive sum of a slice and its
    reduction by the addition from 0 give one and the same number: the
    sum of the elements, wrapped around. *)
Theorem SumSliceRecursive_is_Reduce (slice : list Z) :
  SumSliceRecursive slice = wrap_int (foldr Z.add 0 slice) /\
  Reduce slice 0 int_add = wrap_int (foldr Z.add 0 slice) /\
  SumSliceRecursive slice = Reduce slice 0 int_add.
Proof.
  assert (H1 : SumSliceRecursive slice = wrap_int (foldr Z.add 0 slice)).
  { induction slice as [|x l IH]; [reflexivity|].
    cbn [SumSliceRecursive foldr]. rewrite IH. apply int_add_wrap_r. }
  assert (H2 : Reduce slice 0 int_add = wrap_int (foldr Z.add 0 slice)).
  { unfold Reduce. change 0 with (wrap_int 0) at 1. rewrite Reduce_sum.
    reflexivity. }
  split_and!; [exact H1 | exact H2 | congruence].
Qed.

End Helpers.

Section Recursion.

Lemma int_mul_wrap_l a b : int_mul (wrap_int a) b = wrap_int (a * b).
Proof.
  unfold int_mul. apply wrap_int_eq.
  rewrite Z.mul_mod, wrap_int_mod, <- Z.mul_mod by lia. reflexivity.
Qed.

Lemma factorial_succ n :
  1 <= n -> factorial (Z.to_nat n) = n * factorial (Z.to_nat (n - 1)).
Proof.
  intros Hn. replace (Z.to_nat n) with (S (Z.to_nat (n - 1))) by lia.
  cbn [factorial]. f_equal. lia.
Qed.

Lemma Factorial_calls_run calls : forall n,
  n - 1 <= Z.of_nat calls ->
  Factorial_calls calls n = wrap_int (factorial (Z.to_nat n)).
Proof.
  induction calls as [|calls IH]; intros n Hn;
    cbn [Factorial_calls]; destruct (Z.leb_spec n 1) as [Hle|Hgt];
    try lia.
  - destruct (Z.to_nat n) as [|[|k]] eqn:E; try lia; reflexivity.
  - destruct (Z.to_nat n) as [|[|k]] eqn:E; try lia; reflexivity.
  - rewrite IH by lia. rewrite int_mul_wrap_r, <- factorial_succ by lia.
    reflexivity.
Qed.

Lemma factorialHelper_calls_run calls : forall n acc,
  n - 1 <= Z.of_nat calls -> - 2 ^ 63 <= acc < 2 ^ 63 ->
  factorialHelper_calls calls n acc
  = wrap_int (acc * factorial (Z.to_nat n)).
Proof.
  induction calls as [|calls IH]; intros n acc Hn Hacc;
    cbn [factorialHelper_calls]; destruct (Z.leb_spec n 1) as [Hle|Hgt];
    try lia.
  - destruct (Z.to_nat n) as [|[|k]] eqn:E; try lia;
      cbn [factorial]; rewrite ?Z.mul_1_r; symmetry;
      apply wrap_int_small; change (Z.of_nat 1 * 1) with 1; lia.
  - destruct (Z.to_nat n) as [|[|k]] eqn:E; try lia;
      cbn [factorial]; rewrite ?Z.mul_1_r; symmetry;
      apply wrap_int_small; change (Z.of_nat 1 * 1) with 1; lia.
  - rewrite IH by (try apply wrap_int_range; lia).
    unfold int_mul. rewrite (factorial_succ n) by lia.
    apply wrap_int_eq.
    rewrite Z.mul_mod, wrap_int_mod, <- Z.mul_mod by lia. f_equal. ring.
Qed.

Lemma factorial_pos k : 0 < factorial k.
Proof. induction k as [|k IH]; cbn [factorial]; lia. Qed.

Lemma factorial_le k : (k <= 20)%nat -> factorial k <= factorial 20.
Proof.
  intros Hk. do 21 (destruct k as [|k]; [vm_compute; discriminate|]). lia.
Qed.

Lemma factorial_wraps_to_zero k : (66 <= k)%nat -> factorial k mod 2 ^ 64 = 0.
Proof.
  induction 1 as [|k Hk IH]; [vm_compute; reflexivity|].
  cbn [factorial]. rewrite Z.mul_mod, IH, Z.mul_0_r by lia. reflexivity.
Qed.

(** X18: [Factorial] and [FactorialTailRecursive] return one and the same
    number for every argument: [n!] on the integers of 64 bits, and 1 for
    an argument below 1.  The result is [n!] itself up to 20; from 66 on
    it is 0, as [n!] is then a multiple of [2 ^ 64]. *)
Theorem Factorial_wraps_around (n : Z) :
  Factorial n = wrap_int (factorial (Z.to_nat n)) /\
  FactorialTailRecursive n = Factorial n /\
  (n <= 1 -> Factorial n = 1) /\
  (0 <= n <= 20 -> Factorial n = factorial (Z.to_nat n)) /\
  (66 <= n -> Factorial n = 0).
Proof.
  assert (H1 : Factorial n = wrap_int (factorial (Z.to_nat n)))
    by (apply Factorial_calls_run; lia).
  split_and!.
  - exact H1.
  - rewrite H1. unfold FactorialTailRecursive, factorialHelper.
    rewrite factorialHelper_calls_run by (try lia; split; lia).
    f_equal. lia.
  - intros Hn. rewrite H1.
    destruct (Z.to_nat n) as [|[|k]] eqn:E; try lia; reflexivity.
  - intros Hn. rewrite H1. apply wrap_int_small.
    pose proof (factorial_pos (Z.to_nat n)).
    pose proof (factorial_le (Z.to_nat n) ltac:(lia)) as Hle.
    change (factorial 20) with 2432902008176640000 in Hle.
    change (2 ^ 63) with 9223372036854775808. lia.
  - intros Hn. rewrite H1.
    rewrite (wrap_int_eq _ 0); [reflexivity|].
    rewrite factorial_wraps_to_zero by lia. reflexivity.
Qed.

(** *** Fibonacci *)

Lemma fib_succ n :
  2 <= n ->
  fib (Z.to_nat n) = fib (Z.to_nat (n - 1)) + fib (Z.to_nat (n - 2)).
Proof.
  intros Hn. replace (Z.to_nat n) with (S (S (Z.to_nat (n - 2)))) by lia.
  replace (Z.to_nat (n - 1)) with (S (Z.to_nat (n - 2))) by lia.
  reflexivity.
Qed.

Lemma fib_value_step n :
  2 <= n -> int_add (fib_value (n - 1)) (fib_value (n - 2)) = fib_value n.
Proof.
  intros Hn. unfold fib_value at 3. destruct (Z.leb_spec n 1); [lia|].
  rewrite (fib_succ n Hn). unfold fib_value.
  destruct (Z.leb_spec (n - 1) 1); destruct (Z.leb_spec (n - 2) 1); try lia.
  - assert (n = 2) as -> by lia. reflexivity.
  - assert (n = 3) as -> by lia. reflexivity.
  - rewrite int_add_wrap_l.
    exact (int_add_wrap_r (fib (Z.to_nat (n - 1))) (fib (Z.to_nat (n - 2)))).
Qed.

(** The map holds numbers of Fibonacci only. *)
Lemma fibHelper_calls_run calls : forall n memo,
  n - 1 <= Z.of_nat calls ->
  (forall k v, memo !! k = Some v -> v = fib_value k) ->
  (fibHelper_calls calls n memo).1 = fib_value n /\
  (forall k v, (fibHelper_calls calls n memo).2 !! k = Some v -> v = fib_value k).
Proof.
  induction calls as [|calls IH]; intros n memo Hn Hmemo;
    cbn [fibHelper_calls]; destruct (Z.leb_spec n 1) as [Hle|Hgt].
  - split; [unfold fib_value; destruct (Z.leb_spec n 1); [reflexivity | lia]|].
    exact Hmemo.
  - lia.
  - split; [unfold fib_value; destruct (Z.leb_spec n 1); [reflexivity | lia]|].
    exact Hmemo.
  - destruct (memo !! n) as [val|] eqn:Hlook.
    + split; [exact (Hmemo n val Hlook) | exact Hmemo].
    + destruct (IH (n - 1) memo ltac:(lia) Hmemo) as [Ha Hmemo1].
      destruct (fibHelper_calls calls (n - 1) memo) as [a memo1].
      cbn [fst snd] in Ha, Hmemo1.
      destruct (IH (n - 2) memo1 ltac:(lia) Hmemo1) as [Hb Hmemo2].
      destruct (fibHelper_calls calls (n - 2) memo1) as [b memo2].
      cbn [fst snd] in Hb, Hmemo2. subst a b.
      rewrite lookup_insert_eq. cbn [from_option id fst snd].
      rewrite (fib_value_step n ltac:(lia)). split; [reflexivity|].
      intros k v Hk. destruct (decide (n = k)) as [<-|Hne].
      * rewrite lookup_insert_eq in Hk. congruence.
      * rewrite lookup_insert_ne in Hk by exact Hne. exact (Hmemo2 k v Hk).
Qed.

Lemma Fibonacci_calls_run calls : forall n,
  n - 1 <= Z.of_nat calls -> Fibonacci_calls calls n = fib_value n.
Proof.
  induction calls as [|calls IH]; intros n Hn;
    cbn [Fibonacci_calls]; destruct (Z.leb_spec n 1) as [Hle|Hgt]; try lia.
  - unfold fib_value. destruct (Z.leb_spec n 1); [reflexivity | lia].
  - unfold fib_value. destruct (Z.leb_spec n 1); [reflexivity | lia].
  - rewrite !IH by lia. apply fib_value_step. lia.
Qed.

(** X19: [FibonacciMemoized] returns what [Fibonacci] returns, for every
    argument: the number of Fibonacci of that rank on the integers of 64
    bits, and the argument itself when it is below 0.  The map that the
    calls share never holds anything but such numbers. *)
Theorem FibonacciMemoized_is_Fibonacci (n : Z) :
  FibonacciMemoized n = Fibonacci n /\
  (0 <= n -> Fibonacci n = wrap_int (fib (Z.to_nat n))) /\
  (n < 0 -> Fibonacci n = n) /\
  (forall k v, (fibHelper n ∅).2 !! k = Some v -> v = Fibonacci k).
Proof.
  assert (Hfib : forall k, Fibonacci k = fib_value k)
    by (intros k; apply Fibonacci_calls_run; lia).
  assert (Hempty : forall (k v : Z), (∅ : gmap Z Z) !! k = Some v -> v = fib_value k)
    by (intros k v Hk; rewrite lookup_empty in Hk; discriminate).
  destruct (fibHelper_calls_run (Z.to_nat n) n ∅ ltac:(lia) Hempty) as [Hres Hmemo].
  split_and!.
  - rewrite Hfib. exact Hres.
  - intros Hn. rewrite Hfib. unfold fib_value.
    destruct (Z.leb_spec n 1); [|reflexivity].
    assert (n = 0 \/ n = 1) as [-> | ->] by lia; reflexivity.
  - intros Hn. rewrite Hfib. unfold fib_value.
    destruct (Z.leb_spec n 1); [reflexivity | lia].
  - intros k v Hk. rewrite Hfib. exact (Hmemo k v Hk).
Qed.

End Recursion.

Section PriceStats.

Implicit Types (prices : list Price.t).

Lemma price_stats_count count sum : assert_int (price_stats count sum) "count" = Some count.
Proof. unfold assert_int, price_stats. rewrite lookup_insert_eq. reflexivity. Qed.

Lemma price_stats_sum count sum : assert_float (price_stats count sum) "sum" = Some sum.
Proof.
  unfold assert_float, price_stats.
  rewrite lookup_insert_ne by done. rewrite lookup_insert_eq. reflexivity.
Qed.

Lemma half_bounds (n : nat) :
  (2 <= n)%nat -> (1 <= n / 2)%nat /\ (n / 2 <= n - n / 2)%nat /\ (n / 2 < n)%nat /\
  (n - n / 2 <= S n / 2)%nat.
Proof.
  intros Hn. pose proof (Nat.div_mod_eq n 2) as Hdiv.
  pose proof (Nat.mod_upper_bound n 2 ltac:(lia)) as Hmod.
  pose proof (Nat.div_mod_eq (S n) 2) as Hdiv'.
  pose proof (Nat.mod_upper_bound (S n) 2 ltac:(lia)) as Hmod'.
  lia.
Qed.

Lemma pow2_half (n d : nat) :
  (2 <= n)%nat -> ((n - n / 2 <= 2 ^ d)%nat <-> (n <= 2 ^ S d)%nat).
Proof.
  intros Hn. pose proof (Nat.div_mod_eq n 2) as Hdiv.
  pose proof (Nat.mod_upper_bound n 2 ltac:(lia)) as Hmod.
  rewrite Nat.pow_succ_r'. lia.
Qed.

(** The result of [levels] levels over a slice. *)
Lemma DeepCalculatePriceStats_levels_run levels : forall prices,
  Z.of_nat (length prices) < 2 ^ 63 ->
  exists count : nat,
    DeepCalculatePriceStats_levels levels prices
    = Some (price_stats (Z.of_nat count) (pairwise_sum levels prices)) /\
    (count <= length prices)%nat /\
    (count = length prices <->
     length prices = O \/ (1 <= levels /\ length prices <= 2 ^ (levels - 1))%nat).
Proof.
  induction levels as [|levels IH]; intros prices Hlen.
  - exists O. cbn [DeepCalculatePriceStats_levels pairwise_sum].
    split_and!; [reflexivity | lia | lia].
  - destruct prices as [|p [|q rest]].
    + exists O. cbn. split_and!; [reflexivity | lia | lia].
    + exists 1%nat. cbn [DeepCalculatePriceStats_levels pairwise_sum length].
      split_and!; [reflexivity | lia |].
      split; [intros _; right | reflexivity].
      split; [lia|]. pose proof (Nat.pow_nonzero 2 (S levels - 1) ltac:(lia)). lia.
    + set (l := p :: q :: rest) in *.
      assert (Hl : (2 <= length l)%nat) by (cbn; lia).
      destruct (half_bounds (length l) Hl) as (Hm1 & Hm2 & Hm3 & _).
      set (mid := (length l / 2)%nat) in *.
      assert (Hleft : length (take mid l) = mid) by (rewrite length_take; lia).
      assert (Hright : length (drop mid l) = (length l - mid)%nat)
        by (rewrite length_drop; reflexivity).
      destruct (IH (take mid l) ltac:(lia)) as (cl & Hrunl & Hcl & Hiffl).
      destruct (IH (drop mid l) ltac:(lia)) as (cr & Hrunr & Hcr & Hiffr).
      exists (cl + cr)%nat.
      change (DeepCalculatePriceStats_levels (S levels) l)
        with (left ← DeepCalculatePriceStats_levels levels (take mid l);
              right ← DeepCalculatePriceStats_levels levels (drop mid l);
              lc ← assert_int left "count";
              rc ← assert_int right "count";
              ls ← assert_float left "sum";
              rs ← assert_float right "sum";
              Some (price_stats (int_add lc rc) (f64_add ls rs))).
      rewrite Hrunl, Hrunr. cbn [mbind option_bind].
      rewrite !price_stats_count, !price_stats_sum. cbn [mbind option_bind].
      change (pairwise_sum (S levels) l)
        with (f64_add (pairwise_sum levels (take mid l))
                (pairwise_sum levels (drop mid l))).
      unfold int_add. rewrite wrap_int_small by lia.
      rewrite <- Nat2Z.inj_add.
      split_and!; [reflexivity | lia |].
      rewrite Hleft in Hiffl. rewrite Hright in Hiffr.
      replace (S levels - 1)%nat with levels by lia.
      split.
      * intros Hall. right. split; [lia|].
        assert (Hcl' : cl = mid) by lia. assert (Hcr' : cr = (length l - mid)%nat) by lia.
        apply Hiffr in Hcr' as [Hzero | [Hlev Hpow]]; [lia|].
        destruct levels as [|levels']; [lia|].
        apply (pow2_half (length l) levels' Hl).
        replace (S levels' - 1)%nat with levels' in Hpow by lia. exact Hpow.
      * intros [Hzero | [_ Hpow]]; [lia|].
        destruct levels as [|levels'].
        { cbn in Hpow. lia. }
        apply (pow2_half (length l) levels' Hl) in Hpow.
        assert (Hmidpow : (mid <= 2 ^ levels')%nat) by lia.
        replace (S levels' - 1)%nat with levels' in Hiffl, Hiffr by lia.
        assert (cl = mid) by (apply Hiffl; right; lia).
        assert (cr = (length l - mid)%nat) by (apply Hiffr; right; fold mid; lia).
        lia.
Qed.

(** X20: [DeepCalculatePriceStats] never panics on its type assertions.  The
    number it counts is never more than the number of the prices, and it
    is that number exactly when the slice is empty or when [depth] is at
    least 1 and the slice has at most [2 ^ (depth - 1)] prices: with less
    depth some prices are left out of the count and of the sum without a
    word. *)
Theorem DeepCalculatePriceStats_needs_depth prices (depth : Z) :
  Z.of_nat (length prices) < 2 ^ 63 ->
  exists count : Z,
    DeepCalculatePriceStats prices depth
    = Some (price_stats count (pairwise_sum (Z.to_nat depth) prices)) /\
    0 <= count <= Z.of_nat (length prices) /\
    (count = Z.of_nat (length prices) <->
     prices = [] \/
     (1 <= depth /\ Z.of_nat (length prices) <= 2 ^ (depth - 1))).
Proof.
  intros Hlen. unfold DeepCalculatePriceStats.
  destruct (DeepCalculatePriceStats_levels_run (Z.to_nat depth) prices Hlen)
    as (count & Hrun & Hle & Hiff).
  exists (Z.of_nat count). split_and!; [exact Hrun | lia | lia |].
  rewrite Nat2Z.inj_iff, Hiff, length_zero_iff_nil.
  split; (intros [Hnil | [Hdepth Hpow]]; [left; exact Hnil | right]).
  - split; [lia|].
    replace (depth - 1) with (Z.of_nat (Z.to_nat depth - 1)) by lia.
    rewrite <- (Nat2Z.inj_pow 2). lia.
  - split; [lia|].
    replace (depth - 1) with (Z.of_nat (Z.to_nat depth - 1)) in Hpow by lia.
    rewrite <- (Nat2Z.inj_pow 2) in Hpow. lia.
Qed.

End PriceStats.

Lemma DeepCalculatePriceStats_needs_depth_witness :
  Z.of_nat (length (prices fetched_twice)) < 2 ^ 63 /\
  exists count : Z,
    DeepCalculatePriceStats (prices fetched_twice) 3
    = Some (price_stats count (pairwise_sum (Z.to_nat 3) (prices fetched_twice))) /\
    0 <= count <= Z.of_nat (length (prices fetched_twice)) /\
    (count = Z.of_nat (length (prices fetched_twice)) <->
     prices fetched_twice = [] \/
     (1 <= 3 /\ Z.of_nat (length (prices fetched_twice)) <= 2 ^ (3 - 1))).
Proof.
  assert (H1 : Z.of_nat (length (prices fetched_twice)) < 2 ^ 63)
    by (vm_compute; reflexivity).
  split; [exact H1|].
  exact (DeepCalculatePriceStats_needs_depth (prices fetched_twice) 3 H1).
Defined.

(** The ten rows that two passes have stored: three levels count none
    of them, four levels count six, five levels count them all. *)
Example price_stats_of_ten_rows :
  length (prices fetched_twice) = 10%nat /\
  (DeepCalculatePriceStats (prices fetched_twice) 3 ≫= fun m => assert_int m "count")
  = Some 0 /\
  (DeepCalculatePriceStats (prices fetched_twice) 4 ≫= fun m => assert_int m "count")
  = Some 6 /\
  (DeepCalculatePriceStats (prices fetched_twice) 5 ≫= fun m => assert_int m "count")
  = Some 10 /\
  (DeepCalculatePriceStats (prices fetched_twice) 0 ≫= fun m => assert_int m "count")
  = Some 0.
Proof. split_and!; vm_compute; reflexivity. Qed.

(** ** The recommendations *)

Section Recommendations.

Implicit Types (temp rain x y : float64) (humidity : Z) (region : string).

Lemma SFcompare_antisym x y :
  SFcompare y x = CompOpp <$> SFcompare x y.
Proof.
  destruct x as [s1|s1| |s1 m1 e1], y as [s2|s2| |s2 m2 e2];
    try reflexivity;
    try (destruct s1; reflexivity); try (destruct s2; reflexivity);
    try (destruct s1, s2; reflexivity).
  cbn [SFcompare fmap option_fmap option_map].
  rewrite (Z.compare_antisym e1 e2).
  change (Pos.compare_cont Eq m2 m1) with (m2 ?= m1)%positive.
  change (Pos.compare_cont Eq m1 m2) with (m1 ?= m2)%positive.
  rewrite (Pos.compare_antisym m1 m2).
  destruct s1, s2; try reflexivity;
    destruct (e1 ?= e2); try reflexivity;
    destruct (m1 ?= m2)%positive; reflexivity.
Qed.

(** [x >= y] excludes [x < y], and [x > y] excludes [x <= y]. *)
Lemma f64_ge_not_lt x y : f64_ge x y = true -> f64_lt x y = false.
Proof.
  unfold f64_ge, f64_lt, SFleb, SFltb. rewrite (SFcompare_antisym y x).
  destruct (SFcompare y x) as [[| |]|]; cbn; congruence.
Qed.

Lemma f64_gt_not_le x y : f64_gt x y = true -> f64_le x y = false.
Proof.
  unfold f64_gt, f64_le, SFleb, SFltb. rewrite (SFcompare_antisym y x).
  destruct (SFcompare y x) as [[| |]|]; cbn; congruence.
Qed.

(** Above a constant, [x] is neither below nor equal to a constant that
    is not greater. *)
Lemma f64_gt_above x m1 e1 m2 e2 :
  e1 < e2 \/ (e1 = e2 /\ (m1 <= m2)%positive) ->
  f64_gt x (S754_finite false m2 e2) = true ->
  f64_lt x (S754_finite false m1 e1) = false /\
  f64_le x (S754_finite false m1 e1) = false.
Proof.
  intros Hle. unfold f64_gt, f64_lt, f64_le, SFltb, SFleb.
  destruct x as [s|s| |s m e]; try (destruct s; cbn; done); [done|].
  cbn [SFcompare]. destruct s; [done|].
  change (Pos.compare_cont Eq m2 m) with (m2 ?= m)%positive.
  change (Pos.compare_cont Eq m m1) with (m ?= m1)%positive.
  destruct (Z.compare_spec e2 e) as [He|He|He];
    destruct (Z.compare_spec e e1) as [He'|He'|He']; try lia; try done;
    destruct (Pos.compare_spec m2 m) as [Hm|Hm|Hm]; try done;
    destruct (Pos.compare_spec m m1) as [Hm'|Hm'|Hm']; try done; lia.
Qed.

(** At or above a constant, [x] is at or above a constant that is not
    greater. *)
Lemma f64_ge_above x m1 e1 m2 e2 :
  e1 < e2 \/ (e1 = e2 /\ (m1 <= m2)%positive) ->
  f64_ge x (S754_finite false m2 e2) = true ->
  f64_ge x (S754_finite false m1 e1) = true.
Proof.
  intros Hle. unfold f64_ge, SFleb.
  destruct x as [s|s| |s m e]; try (destruct s; cbn; done); [done|].
  cbn [SFcompare]. destruct s; [done|].
  change (Pos.compare_cont Eq m2 m) with (m2 ?= m)%positive.
  change (Pos.compare_cont Eq m1 m) with (m1 ?= m)%positive.
  destruct (Z.compare_spec e2 e) as [He|He|He];
    destruct (Z.compare_spec e1 e) as [He'|He'|He']; try lia; try done;
    destruct (Pos.compare_spec m2 m) as [Hm|Hm|Hm]; try done;
    destruct (Pos.compare_spec m1 m) as [Hm'|Hm'|Hm']; try done; lia.
Qed.

(** A number, not a NaN, that is not below a constant is at or above
    it. *)
Lemma f64_not_lt_ge x y m e :
  f64_ge x y = true ->
  f64_lt x (S754_finite false m e) = false ->
  f64_ge x (S754_finite false m e) = true.
Proof.
  unfold f64_ge, f64_lt, SFleb, SFltb.
  rewrite (SFcompare_antisym x (S754_finite false m e)).
  destruct x as [s|s| |s m' e']; [| |by destruct y|];
    intros _; destruct (SFcompare _ _) as [[| |]|] eqn:E; cbn; try done;
    destruct s; discriminate E.
Qed.

End Recommendations.

Section Advice.

Implicit Types (temp rain : float64) (humidity : Z) (region : string).

(** The constants of the thresholds. *)
Lemma thresholds :
  f64_of_Z 1 = S754_finite false 4503599627370496 (-52) /\
  f64_of_Z 2 = S754_finite false 4503599627370496 (-51) /\
  f64_of_Z 5 = S754_finite false 5629499534213120 (-50) /\
  f64_of_Z 10 = S754_finite false 5629499534213120 (-49) /\
  f64_of_Z 15 = S754_finite false 8444249301319680 (-49) /\
  f64_of_Z 18 = S754_finite false 5066549580791808 (-48) /\
  f64_of_Z 20 = S754_finite false 5629499534213120 (-48) /\
  f64_of_Z 25 = S754_finite false 7036874417766400 (-48) /\
  f64_of_Z 30 = S754_finite false 8444249301319680 (-48) /\
  f64_of_Z 32 = S754_finite false 4503599627370496 (-47) /\
  f64_of_Z 35 = S754_finite false 4925812092436480 (-47).
Proof. split_and!; vm_compute; reflexivity. Qed.

(** X21: [GetAdvancedRecommendation] always gives three lines of detail, one
    for the temperature, one for the humidity and one for the rain.  The
    four messages that the code keeps for an advice left empty are never
    returned, as each advice is set on every path; nor is the warning of
    the combination of heat and humidity, as above 80 percent of
    humidity the warning of the humidity is set already and is kept,
    whatever the temperature and the rain are. *)
Theorem default_messages_never_used temp humidity rain region :
  let r := GetAdvancedRecommendation temp humidity rain region in
  length (RecommendationResult.DetailedAdvice r) = 3%nat /\
  RecommendationResult.PlantingAdvice r <> "Evaluasi kondisi lebih lanjut sebelum penanaman" /\
  RecommendationResult.HarvestAdvice r <> "Pantau perkembangan cuaca untuk menentukan waktu panen" /\
  RecommendationResult.DryingAdvice r <> "Sesuaikan metode pengeringan dengan kondisi cuaca" /\
  RecommendationResult.IrrigationAdvice r <> "Lakukan irigasi sesuai kebutuhan tanaman" /\
  RecommendationResult.PestWarning r <> "🚨 Kombinasi panas + lembab: Risiko tinggi embun tepung, busuk daun, dan serangan ulat" /\
  (80 < humidity ->
   RecommendationResult.PestWarning r
   = if humidity <=? 90 then "⚠️ PERINGATAN: Risiko penyakit jamur tinggi! Semprot fungisida preventif, tingkatkan sirkulasi udara" else "🚨 BAHAYA: Risiko penyakit jamur sangat tinggi! Aplikasi fungisida darurat, cek tanaman busuk").
Proof.
  intros r. unfold r, GetAdvancedRecommendation. cbv zeta.
  split_let status main Hstatus. clear Hstatus.
  split_let adv1 planting Htemp.
  split_let p1 pest1 Hhum. destruct p1 as [adv2 irrigation].
  split_let p2 pest2 Hrain. destruct p2 as [[adv3 harvest] drying].
  cbn [RecommendationResult.DetailedAdvice RecommendationResult.PlantingAdvice
       RecommendationResult.HarvestAdvice RecommendationResult.DryingAdvice
       RecommendationResult.IrrigationAdvice RecommendationResult.PestWarning].
  assert (Ht : length adv1 = 1%nat /\ is_empty planting = false /\
               planting <> "Evaluasi kondisi lebih lanjut sebelum penanaman").
  { tests_of Htemp; injection Htemp as <- <-; split_and!; done. }
  assert (Hh : length adv2 = S (length adv1) /\ is_empty irrigation = false /\
               irrigation <> "Lakukan irigasi sesuai kebutuhan tanaman" /\
               (humidity <= 80 /\ pest1 = EmptyString \/
                80 < humidity /\
                pest1 = if humidity <=? 90 then "⚠️ PERINGATAN: Risiko penyakit jamur tinggi! Semprot fungisida preventif, tingkatkan sirkulasi udara" else "🚨 BAHAYA: Risiko penyakit jamur sangat tinggi! Aplikasi fungisida darurat, cek tanaman busuk")).
  { tests_of Hhum; injection Hhum as <- <- <-; order_facts;
      (split_and!; [rewrite length_app; cbn; lia | done | done |]);
      first [left; split; [lia | reflexivity]
            | right; split; [lia|]; destruct (Z.leb_spec humidity 90);
              first [reflexivity | lia]]. }
  assert (Hr : length adv3 = S (length adv2) /\ is_empty harvest = false /\
               harvest <> "Pantau perkembangan cuaca untuk menentukan waktu panen" /\ harvest <> EmptyString /\
               is_empty drying = false /\ drying <> "Sesuaikan metode pengeringan dengan kondisi cuaca" /\
               (pest2 = pest1 \/
                pest1 = EmptyString /\ pest2 = "⚠️ Cek tanaman setelah hujan reda - risiko busuk batang dan akar tinggi")).
  { destruct Hh as (_ & _ & _ & [[_ ->] | [_ ->]]);
      [|destruct (humidity <=? 90)];
      cbn [is_empty] in Hrain; tests_of Hrain;
      injection Hrain as <- <- <- <-;
      (split_and!; [rewrite length_app; cbn; lia | done | done | done | done
                   | done |]);
      first [left; reflexivity | right; split; reflexivity]. }
  destruct Ht as (Hl1 & Hp & Hp'), Hh as (Hl2 & Hi & Hi' & Hpest1),
    Hr as (Hl3 & Hha & Hha' & Hha'' & Hd & Hd' & Hpest2).
  clear Htemp Hhum Hrain. rewrite Hp, Hi, Hd.
  split_and!; [lia | exact Hp' | | exact Hd' | exact Hi' | |].
  - destruct (_ && _ && _ && _); [done|]. rewrite Hha. exact Hha'.
  - destruct Hpest1 as [[Hle ->] | [Hgt ->]].
    + destruct (Z.ltb_spec 80 humidity) as [|_]; [lia|].
      destruct Hpest2 as [-> | [_ ->]]; tests; done.
    + destruct Hpest2 as [-> | [Hempty _]];
        [|destruct (humidity <=? 90); discriminate Hempty].
      destruct (humidity <=? 90); tests; done.
  - intros Hgt. destruct Hpest1 as [[Hle _] | [_ ->]]; [lia|].
    destruct Hpest2 as [-> | [Hempty _]];
      [|destruct (humidity <=? 90); discriminate Hempty].
    destruct (humidity <=? 90); tests; done.
Qed.

End Advice.

Section Status.

Implicit Types (temp rain : float64) (humidity : Z) (region : string).

(** X22: with a humidity from 60 to 80 the status is never worse than
    [good], whatever the temperature and the rain are: above 35 degrees
    the status is [good] while the advice is not to plant, and above 15
    mm of rain it is [good] while the advice is not to harvest and not
    to dry. *)
Theorem good_status_despite_extremes temp humidity rain region :
  60 <= humidity <= 80 ->
  let r := GetAdvancedRecommendation temp humidity rain region in
  (RecommendationResult.Status r = "optimal" \/
   RecommendationResult.Status r = "good") /\
  (f64_gt temp (f64_of_Z 35) = true ->
   RecommendationResult.Status r = "good" /\
   RecommendationResult.PlantingAdvice r = "❌ TIDAK disarankan menanam. Tanaman akan stres") /\
  (f64_gt rain (f64_of_Z 15) = true ->
   RecommendationResult.Status r = "good" /\
   RecommendationResult.HarvestAdvice r = "❌ JANGAN panen. Cek kondisi tanaman setelah hujan reda" /\
   RecommendationResult.DryingAdvice r = "❌ Penjemuran tidak memungkinkan. Pastikan gudang kering dan ventilasi baik" /\
   RecommendationResult.PestWarning r = "⚠️ Cek tanaman setelah hujan reda - risiko busuk batang dan akar tinggi").
Proof.
  intros Hh r.
  assert (H60 : (60 <=? humidity) = true) by (apply Z.leb_le; lia).
  assert (H80 : (humidity <=? 80) = true) by (apply Z.leb_le; lia).
  assert (H40 : (humidity <? 40) = false) by (apply Z.ltb_ge; lia).
  assert (Hlt60 : (humidity <? 60) = false) by (apply Z.ltb_ge; lia).
  assert (Hgt80 : (80 <? humidity) = false) by (apply Z.ltb_ge; lia).
  unfold r, GetAdvancedRecommendation. cbv zeta.
  split_let status main Hstatus.
  split_let adv1 planting Htemp.
  split_let p1 pest1 Hhum. destruct p1 as [adv2 irrigation].
  split_let p2 pest2 Hrain. destruct p2 as [[adv3 harvest] drying].
  cbn [RecommendationResult.Status RecommendationResult.PlantingAdvice
       RecommendationResult.HarvestAdvice RecommendationResult.DryingAdvice
       RecommendationResult.PestWarning].
  rewrite H60, H80 in Hstatus. rewrite H40, Hlt60, H60, H80 in Hhum.
  rewrite Hgt80. simplify_tests. injection Hhum as <- <- <-.
  simplify_tests.
  destruct thresholds as (T1 & T2 & T5 & T10 & T15 & T18 & T20 & T25 & T30
                          & T32 & T35).
  split_and!.
  - tests_of Hstatus; injection Hstatus as <- <-; [left | right]; reflexivity.
  - intros H35. rewrite T35 in H35.
    assert (A15 : f64_lt temp (f64_of_Z 15) = false)
      by (rewrite T15; eapply f64_gt_above; [|exact H35]; lia).
    assert (A20 : f64_lt temp (f64_of_Z 20) = false)
      by (rewrite T20; eapply f64_gt_above; [|exact H35]; lia).
    assert (A30 : f64_le temp (f64_of_Z 30) = false)
      by (rewrite T30; eapply f64_gt_above; [|exact H35]; lia).
    assert (A35 : f64_le temp (f64_of_Z 35) = false)
      by (rewrite T35; apply f64_gt_not_le, H35).
    rewrite A30 in Hstatus. rewrite A15, A20, A30, A35 in Htemp.
    simplify_tests. injection Hstatus as <- <-. injection Htemp as <- <-.
    split; reflexivity.
  - intros H15. rewrite T15 in H15.
    assert (A0 : f64_lt rain f64_half = false)
      by (eapply f64_gt_above; [|exact H15]; lia).
    assert (A1 : f64_lt rain (f64_of_Z 1) = false)
      by (rewrite T1; eapply f64_gt_above; [|exact H15]; lia).
    assert (A2 : f64_lt rain (f64_of_Z 2) = false)
      by (rewrite T2; eapply f64_gt_above; [|exact H15]; lia).
    assert (A5 : f64_lt rain (f64_of_Z 5) = false)
      by (rewrite T5; eapply f64_gt_above; [|exact H15]; lia).
    assert (A10 : f64_lt rain (f64_of_Z 10) = false)
      by (rewrite T10; eapply f64_gt_above; [|exact H15]; lia).
    rewrite A5 in Hstatus. rewrite A0, A2, A5, A10 in Hrain. rewrite A1.
    simplify_tests. injection Hstatus as <- <-.
    injection Hrain as <- <- <- <-. simplify_tests.
    split_and!; try reflexivity.
    destruct (f64_lt temp (f64_of_Z 18) && f64_gt rain (f64_of_Z 5));
      reflexivity.
Qed.

End Status.

Lemma good_status_despite_extremes_witness :
  60 <= 70 <= 80 /\
  let r := GetAdvancedRecommendation (f64_of_Z 40) 70 (f64_of_Z 20) "Jember" in
  (RecommendationResult.Status r = "optimal" \/
   RecommendationResult.Status r = "good") /\
  (f64_gt (f64_of_Z 40) (f64_of_Z 35) = true ->
   RecommendationResult.Status r = "good" /\
   RecommendationResult.PlantingAdvice r = "❌ TIDAK disarankan menanam. Tanaman akan stres") /\
  (f64_gt (f64_of_Z 20) (f64_of_Z 15) = true ->
   RecommendationResult.Status r = "good" /\
   RecommendationResult.HarvestAdvice r = "❌ JANGAN panen. Cek kondisi tanaman setelah hujan reda" /\
   RecommendationResult.DryingAdvice r = "❌ Penjemuran tidak memungkinkan. Pastikan gudang kering dan ventilasi baik" /\
   RecommendationResult.PestWarning r = "⚠️ Cek tanaman setelah hujan reda - risiko busuk batang dan akar tinggi").
Proof.
  assert (H1 : 60 <= 70 <= 80) by lia.
  split; [exact H1|].
  exact (good_status_despite_extremes (f64_of_Z 40) 70 (f64_of_Z 20) "Jember"
           H1).
Defined.

(** Forty degrees and 20 mm of rain at 70 percent: the status is
    [good]. *)
Example hot_and_wet_is_good :
  f64_gt (f64_of_Z 40) (f64_of_Z 35) = true /\
  f64_gt (f64_of_Z 20) (f64_of_Z 15) = true /\
  RecommendationResult.Status
    (GetAdvancedRecommendation (f64_of_Z 40) 70 (f64_of_Z 20) "Jember")
  = "good".
Proof. split_and!; vm_compute; reflexivity. Qed.

Section Optimal.

Implicit Types (temp rain : float64) (humidity : Z) (region : string).

(** The three tests that make the status [optimal]. *)
Lemma Status_optimal temp humidity rain region :
  RecommendationResult.Status
    (GetAdvancedRecommendation temp humidity rain region) = "optimal"
  <-> f64_ge temp (f64_of_Z 20) && f64_le temp (f64_of_Z 30)
      && ((60 <=? humidity) && (humidity <=? 80))
      && (f64_ge rain (f64_of_Z 1) && f64_lt rain (f64_of_Z 5)) = true.
Proof.
  unfold GetAdvancedRecommendation. cbv zeta.
  split_let status main Hstatus.
  split_let adv1 planting Htemp.
  split_let p1 pest1 Hhum. destruct p1 as [adv2 irrigation].
  split_let p2 pest2 Hrain. destruct p2 as [[adv3 harvest] drying].
  cbn [RecommendationResult.Status]. clear Htemp Hhum Hrain.
  tests_of Hstatus; injection Hstatus as <- <-; done.
Qed.

Lemma Recommend_optimal temp humidity rain :
  Recommend temp humidity rain = "✅ Suhu optimal untuk pertumbuhan tembakau (20-30°C) | ✅ Kelembaban ideal untuk tembakau (60-80%) | 🌦️ Hujan ringan, cocok untuk pertumbuhan"
  <-> f64_ge temp (f64_of_Z 20) && f64_le temp (f64_of_Z 30)
      && ((60 <=? humidity) && (humidity <=? 80))
      && (f64_ge rain (f64_of_Z 1) && f64_lt rain (f64_of_Z 5)) = true.
Proof.
  unfold Recommend. cbv zeta.
  pose proof (f64_ge_not_lt rain (f64_of_Z 1)) as Hrain.
  destruct (f64_ge temp (f64_of_Z 20) && f64_le temp (f64_of_Z 30));
    [|destruct (f64_lt temp (f64_of_Z 20))];
    (destruct ((60 <=? humidity) && (humidity <=? 80));
       [|destruct (humidity <? 60)]);
    (destruct (f64_ge rain (f64_of_Z 1)) eqn:Hge1;
       [rewrite (Hrain eq_refl)|destruct (f64_lt rain (f64_of_Z 1))]);
    cbn [andb];
    try destruct (f64_lt rain (f64_of_Z 5));
    try destruct (f64_ge rain (f64_of_Z 5) && f64_lt rain (f64_of_Z 10));
    vm_compute; split; intros Heq; first [reflexivity | discriminate Heq].
Qed.

(** X23: the status is [optimal] exactly when the summary of [Recommend]
    is made of its three favourable remarks: the two functions test the
    same bounds, the temperature from 20 to 30, the humidity from 60 to
    80 and the rain from 1 to below 5.  The advice that comes with the
    status [optimal] is then to plant, to irrigate as usual and to
    expect no unusual risk of pests; but the drying is never advised
    without reserve, and from 2 mm of rain on it is advised against. *)
Theorem optimal_status_advice temp humidity rain region :
  let r := GetAdvancedRecommendation temp humidity rain region in
  (RecommendationResult.Status r = "optimal" <->
   GetRecommendationSummary temp humidity rain = "✅ Suhu optimal untuk pertumbuhan tembakau (20-30°C) | ✅ Kelembaban ideal untuk tembakau (60-80%) | 🌦️ Hujan ringan, cocok untuk pertumbuhan") /\
  (RecommendationResult.Status r = "optimal" ->
   RecommendationResult.MainAdvice r = "🌟 Kondisi OPTIMAL untuk budidaya tembakau!" /\
   RecommendationResult.PlantingAdvice r = "✅ SANGAT COCOK untuk penanaman bibit baru" /\
   RecommendationResult.IrrigationAdvice r = "✅ Irigasi normal sesuai jadwal standar" /\
   RecommendationResult.PestWarning r = "✅ Risiko hama dan penyakit dalam batas normal. Lakukan monitoring rutin" /\
   if f64_lt rain (f64_of_Z 2)
   then RecommendationResult.HarvestAdvice r = "✅ Bisa panen pagi hari sebelum hujan" /\
        RecommendationResult.DryingAdvice r = "⚠️ Penjemuran bisa dilakukan dengan pengawasan ketat"
   else RecommendationResult.HarvestAdvice r = "⚠️ Tunda panen jika memungkinkan, atau panen cepat sebelum hujan lebat" /\
        RecommendationResult.DryingAdvice r = "❌ Tidak disarankan menjemur hari ini. Gunakan pengering mekanis jika mendesak").
Proof.
  intros r. split.
  { unfold r, GetRecommendationSummary.
    rewrite Status_optimal, Recommend_optimal. reflexivity. }
  unfold r. rewrite Status_optimal. intros Hopt.
  apply andb_true_iff in Hopt as [Hopt Hrain].
  apply andb_true_iff in Hopt as [Htemp Hhum].
  apply andb_true_iff in Htemp as [G20 L30], Hhum as [H60 H80],
    Hrain as [G1 L5].
  assert (H40 : (humidity <? 40) = false)
    by (apply Z.ltb_ge; apply Z.leb_le in H60; lia).
  assert (Hlt60 : (humidity <? 60) = false)
    by (apply Z.ltb_ge; apply Z.leb_le in H60; lia).
  assert (Hgt80 : (80 <? humidity) = false)
    by (apply Z.ltb_ge; apply Z.leb_le in H80; lia).
  destruct thresholds as (T1 & T2 & T5 & T10 & T15 & T18 & T20 & T25 & T30
                          & T32 & T35).
  assert (A20 : f64_lt temp (f64_of_Z 20) = false)
    by (apply f64_ge_not_lt, G20).
  assert (A15 : f64_lt temp (f64_of_Z 15) = false).
  { apply f64_ge_not_lt. rewrite T15. rewrite T20 in G20.
    eapply f64_ge_above; [|exact G20]. lia. }
  assert (A18 : f64_lt temp (f64_of_Z 18) = false).
  { apply f64_ge_not_lt. rewrite T18. rewrite T20 in G20.
    eapply f64_ge_above; [|exact G20]. lia. }
  assert (B1 : f64_lt rain (f64_of_Z 1) = false)
    by (apply f64_ge_not_lt, G1).
  assert (Bh : f64_ge rain f64_half = true).
  { rewrite T1 in G1. eapply f64_ge_above; [|exact G1]. lia. }
  assert (B0 : f64_lt rain f64_half = false) by (apply f64_ge_not_lt, Bh).
  assert (B2 : f64_lt rain (f64_of_Z 2) = false ->
               f64_ge rain (f64_of_Z 2) = true).
  { rewrite T2. apply (f64_not_lt_ge rain _ _ _ G1). }
  unfold GetAdvancedRecommendation. cbv zeta.
  split_let status main Hstatus.
  split_let adv1 planting Htemp.
  split_let p1 pest1 Hhum. destruct p1 as [adv2 irrigation].
  split_let p2 pest2 Hrain. destruct p2 as [[adv3 harvest] drying].
  cbn [RecommendationResult.MainAdvice RecommendationResult.PlantingAdvice
       RecommendationResult.HarvestAdvice RecommendationResult.DryingAdvice
       RecommendationResult.IrrigationAdvice RecommendationResult.PestWarning].
  rewrite G20, L30, H60, H80, G1, L5 in Hstatus.
  rewrite A15, A20, G20, L30 in Htemp.
  rewrite H40, Hlt60, H60, H80 in Hhum.
  rewrite B0, Bh, L5 in Hrain. rewrite B1, Hgt80, A18.
  simplify_tests.
  injection Hstatus as <- <-. injection Htemp as <- <-.
  injection Hhum as <- <- <-.
  destruct (f64_lt rain (f64_of_Z 2)) eqn:L2;
    [|rewrite (B2 eq_refl) in Hrain]; simplify_tests;
    injection Hrain as <- <- <- <-; split_and!; reflexivity.
Qed.

End Optimal.

(** At 25 degrees, 70 percent and 3 mm the status is [optimal]. *)
Example optimal_conditions :
  RecommendationResult.Status
    (GetAdvancedRecommendation (f64_of_Z 25) 70 (f64_of_Z 3) "Jember")
  = "optimal".
Proof. vm_compute. reflexivity. Qed.

(** ** The order of the research records *)

Section MapOrder.

Lemma shuffle_ext {A} (pick pick' : nat -> nat) : forall fuel (l : list A),
  (forall f, (f < fuel)%nat -> pick f = pick' f) ->
  shuffle pick fuel l = shuffle pick' fuel l.
Proof.
  induction fuel as [|f IH]; intros l Hext; [reflexivity|].
  cbn [shuffle]. rewrite (Hext f) by lia.
  destruct (l !! _); [|reflexivity]. f_equal. apply IH.
  intros g Hg. apply Hext. lia.
Qed.

(** Every order of the entries is the order of some choices. *)
Lemma shuffle_any_order {A} (l' : list A) : forall l,
  l' ≡ₚ l -> exists pick, shuffle pick (length l) l = l'.
Proof.
  induction l' as [|x l' IH]; intros l Hperm.
  - apply Permutation_nil_l in Hperm as <-. exists (fun _ => O). reflexivity.
  - assert (Hx : x ∈ l) by (rewrite <- Hperm; left).
    apply list_elem_of_lookup in Hx as [i Hi].
    assert (Hrest : l' ≡ₚ delete i l).
    { apply (Permutation_cons_inv (a := x)).
      rewrite Hperm. apply delete_Permutation, Hi. }
    destruct (IH _ Hrest) as [pick Hpick].
    pose proof (lookup_lt_Some _ _ _ Hi) as Hlt.
    destruct l as [|y l]; [simpl in Hlt; lia|].
    exists (fun f => if decide (f = length l) then i else pick f).
    cbn [length shuffle]. rewrite decide_True by reflexivity.
    rewrite Nat.mod_small by exact Hlt. rewrite Hi. f_equal.
    rewrite <- Hpick. rewrite length_delete by eauto. cbn [length Nat.pred].
    replace (S (length l) - 1)%nat with (length l) by lia.
    apply shuffle_ext. intros f Hf. rewrite decide_False by lia. reflexivity.
Qed.

(** X24: the research scraper fixes no order of its records: as it goes
    through a map, each order of its five regions is the order of its
    batch under some iteration order; and under every iteration order
    the batch has each of the five regions once. *)
Theorem research_batch_in_any_order (order : list string) w :
  order ≡ₚ research_entries.*1 ->
  (exists seed,
     ScrapedPrice.Region
       <$> (Mock_Scrape NewMockScraperWithRealData (with_map_seed seed w)).1.1
     = order) /\
  forall seed,
    ScrapedPrice.Region
      <$> (Mock_Scrape NewMockScraperWithRealData (with_map_seed seed w)).1.1
    ≡ₚ order.
Proof.
  intros Horder. split.
  - set (entries := map_to_list (LastResearch NewMockScraperWithRealData)).
    assert (Hentries : order ≡ₚ entries.*1).
    { rewrite Horder. unfold entries. rewrite NewMock_entries. reflexivity. }
    apply Permutation_map_inv in Hentries as (l' & -> & Hl').
    destruct (shuffle_any_order l' entries) as [pick Hpick];
      [symmetry; exact Hl'|].
    exists (fun _ => pick). rewrite Mock_Scrape_run. cbn [fst].
    rewrite mock_batch_regions. cbn [with_map_seed map_seed ranges].
    fold entries. rewrite Hpick. reflexivity.
  - intros seed. rewrite Mock_Scrape_regions, Horder. reflexivity.
Qed.

End MapOrder.

Lemma research_batch_in_any_order_witness :
  reverse research_entries.*1 ≡ₚ research_entries.*1 /\
  (exists seed,
     ScrapedPrice.Region
       <$> (Mock_Scrape NewMockScraperWithRealData
              (with_map_seed seed offline_world)).1.1
     = reverse research_entries.*1) /\
  forall seed,
    ScrapedPrice.Region
      <$> (Mock_Scrape NewMockScraperWithRealData
             (with_map_seed seed offline_world)).1.1
    ≡ₚ reverse research_entries.*1.
Proof.
  assert (H1 : reverse research_entries.*1 ≡ₚ research_entries.*1)
    by apply reverse_Permutation.
  split; [exact H1|].
  exact (research_batch_in_any_order (reverse research_entries.*1)
           offline_world H1).
Defined.
